(** * TealTiger TypeScript SDK: decision-enforcement pipeline, policy builder,
      configuration redaction and validation utilities.

    A shallow embedding of the TypeScript sources

      - [src/utils/validation.ts]   (validateConfig, validateToolName,
                                     validateToolParameters, sanitizeParameters,
                                     sanitizeConfig)
      - [src/config/Configuration.ts]
      - [src/policy/PolicyBuilder.ts]
      - [src/client/TealTiger.ts]   (executeTool and its handlers)
      - the Azure OpenAI client, class TealAzureOpenAI (mapDeploymentToModel)

    JavaScript strings are modelled by [string]; one [ascii] stands for one
    UTF-16 code unit below 256, so the model is exact on text of that range
    (ASCII and the Latin-1 supplement).  The numbers of
    configurations and risk scores, which the sources only compare and print,
    are modelled by exact rationals plus the three non-finite values.  The
    counters of the statistics are integers, and their running average,
    which the sources compute, is an IEEE binary64 double. *)

From Stdlib Require Import String Ascii List ZArith QArith Bool Lia.
From Stdlib Require Import DecimalString.
From Stdlib Require Import Floats.PrimFloat.
From Stdlib Require Import Numbers.Cyclic.Int63.Uint63.
Import ListNotations.

Local Open Scope string_scope.
Local Open Scope bool_scope.

(* ================================================================== *)
(** * JavaScript values and the string primitives the sources use      *)
(* ================================================================== *)

Module Js.

(** [number]: a finite value, or one of NaN, +Infinity, -Infinity. *)
Inductive JsNumber : Type :=
| Finite (q : Q)
| NaN
| PosInfinity
| NegInfinity.

(** [Number.isFinite]. *)
Definition isFinite (n : JsNumber) : bool :=
  match n with Finite _ => true | _ => false end.

(** [n < 0]; every comparison with NaN is false. *)
Definition ltZero (n : JsNumber) : bool :=
  match n with
  | Finite q => match Qcompare q 0 with Lt => true | _ => false end
  | NegInfinity => true
  | _ => false
  end.

(** [n <= 0]. *)
Definition leZero (n : JsNumber) : bool :=
  match n with
  | Finite q => match Qcompare q 0 with Gt => false | _ => true end
  | NegInfinity => true
  | _ => false
  end.

(** The values a parameter map can hold at run time ([unknown]): JSON-like
    data, plus the two opaque kinds the validator rejects.  An object is the
    list of its own enumerable entries in [Object.entries] order. *)
#[local] Unset Elimination Schemes.
Inductive JsValue : Type :=
| JNull
| JUndefined
| JBool (b : bool)
| JNumber (n : JsNumber)
| JString (s : string)
| JArray (items : list JsValue)
| JObject (entries : list (string * JsValue))
| JFunction
| JSymbol.
#[local] Set Elimination Schemes.

(** Induction over nested values: the hypotheses for arrays and objects
    speak about every element. *)
Section JsValueInd.
Variable P : JsValue -> Prop.
Hypothesis Hnull : P JNull.
Hypothesis Hundef : P JUndefined.
Hypothesis Hbool : forall b, P (JBool b).
Hypothesis Hnum : forall n, P (JNumber n).
Hypothesis Hstr : forall s, P (JString s).
Hypothesis Harr : forall items, Forall P items -> P (JArray items).
Hypothesis Hobj :
  forall entries, Forall (fun kv => P (snd kv)) entries -> P (JObject entries).
Hypothesis Hfun : P JFunction.
Hypothesis Hsym : P JSymbol.

Fixpoint JsValue_nested_ind (v : JsValue) : P v :=
  match v with
  | JNull => Hnull
  | JUndefined => Hundef
  | JBool b => Hbool b
  | JNumber n => Hnum n
  | JString s => Hstr s
  | JArray items =>
      Harr items
        ((fix all (l : list JsValue) : Forall P l :=
            match l with
            | [] => Forall_nil _
            | x :: l' => Forall_cons x (JsValue_nested_ind x) (all l')
            end) items)
  | JObject entries =>
      Hobj entries
        ((fix all (l : list (string * JsValue))
            : Forall (fun kv => P (snd kv)) l :=
            match l with
            | [] => Forall_nil _
            | kv :: l' =>
                Forall_cons kv (JsValue_nested_ind (snd kv)) (all l')
            end) entries)
  | JFunction => Hfun
  | JSymbol => Hsym
  end.
End JsValueInd.

(** [typeof value]. *)
Definition typeof (v : JsValue) : string :=
  match v with
  | JNull => "object"
  | JUndefined => "undefined"
  | JBool _ => "boolean"
  | JNumber _ => "number"
  | JString _ => "string"
  | JArray _ => "object"
  | JObject _ => "object"
  | JFunction => "function"
  | JSymbol => "symbol"
  end.

(** ** Strings *)

(** [c.toLowerCase()] on one code unit: the ASCII capitals, and the
    capitals U+00C0 to U+00DE of the Latin-1 supplement, U+00D7 (the
    multiplication sign) apart. *)
Definition lowerChar (c : ascii) : ascii :=
  let n := nat_of_ascii c in
  if ((65 <=? n)%nat && (n <=? 90)%nat)
     || ((192 <=? n)%nat && (n <=? 222)%nat && negb (n =? 215)%nat)
  then ascii_of_nat (n + 32) else c.

(** [s.toLowerCase()]. *)
Fixpoint toLowerCase (s : string) : string :=
  match s with
  | EmptyString => EmptyString
  | String c s' => String (lowerChar c) (toLowerCase s')
  end.

(** [s.includes(pat)]: [pat] occurs in [s] as a contiguous substring. *)
Fixpoint includes (s pat : string) : bool :=
  String.prefix pat s
  || match s with
     | EmptyString => false
     | String _ s' => includes s' pat
     end.

(** The white space and line terminators that [trim] removes: U+0009 to
    U+000D, the space, and the no-break space U+00A0. *)
Definition isWhiteSpace (c : ascii) : bool :=
  let n := nat_of_ascii c in
  ((9 <=? n)%nat && (n <=? 13)%nat) || (n =? 32)%nat || (n =? 160)%nat.

Fixpoint trimStart (s : string) : string :=
  match s with
  | EmptyString => EmptyString
  | String c s' => if isWhiteSpace c then trimStart s' else s
  end.

(** Drops the trailing white space of [s]. *)
Fixpoint trimEnd (s : string) : string :=
  match s with
  | EmptyString => EmptyString
  | String c s' =>
      match trimEnd s' with
      | EmptyString => if isWhiteSpace c then EmptyString else String c EmptyString
      | t => String c t
      end
  end.

(** [s.trim()]. *)
Definition trim (s : string) : string := trimEnd (trimStart s).

(** [String(n)] / template interpolation of a non-negative integer. *)
Definition natToString (n : nat) : string :=
  NilEmpty.string_of_uint (Nat.to_uint n).

(** Template interpolation of an integer such as [Date.now()]. *)
Definition intToString (z : Z) : string :=
  NilZero.string_of_int (Z.to_int z).

(** Truthiness of a string: only the empty string is falsy. *)
Definition truthy (s : string) : bool :=
  match s with EmptyString => false | _ => true end.

End Js.
Import Js.

(* ================================================================== *)
(** * Provider adapter: Azure deployment names                         *)
(* ================================================================== *)

Module Azure.

(** [TealAzureOpenAI.mapDeploymentToModel]. *)
Definition mapDeploymentToModel (deployment : string) : string :=
  let lowerDeployment := toLowerCase deployment in
  if includes lowerDeployment "gpt-4-32k" then "gpt-4-32k"
  else if includes lowerDeployment "gpt-4-turbo" then "gpt-4-turbo"
  else if includes lowerDeployment "gpt-4" then "gpt-4"
  else if includes lowerDeployment "gpt-35-turbo-16k"
          || includes lowerDeployment "gpt-3.5-turbo-16k"
       then "gpt-3.5-turbo-16k"
  else if includes lowerDeployment "gpt-35-turbo"
          || includes lowerDeployment "gpt-3.5-turbo"
       then "gpt-3.5-turbo"
  else "gpt-3.5-turbo".





End Azure.

(* ================================================================== *)
(** * Shared types ([src/types/index.ts])                              *)
(* ================================================================== *)

Module Types.

(** [RiskLevel = 'low' | 'medium' | 'high' | 'critical']. *)
Inductive RiskLevel : Type := Low | Medium | High | Critical.

Definition riskLevelName (r : RiskLevel) : string :=
  match r with
  | Low => "low" | Medium => "medium" | High => "high" | Critical => "critical"
  end.

Record SecurityContext : Type := {
  userAgent : option string;
  sessionId : option string;
  ctx_metadata : option JsValue
}.

Record ToolExecutionRequest : Type := {
  req_agentId : string;
  req_toolName : string;
  req_parameters : JsValue;
  req_context : option SecurityContext
}.

Record DecisionMetadata : Type := {
  policyVersion : option string;
  evaluationTime : option JsNumber;
  matchedPolicy : option string
}.

(** [SecurityDecision].  [action] is kept as the string the remote authority
    sent: [executeTool] has a [default:] branch for values outside
    ['allow' | 'deny' | 'transform']. *)
Record SecurityDecision : Type := {
  requestId : string;
  dec_agentId : string;
  dec_toolName : string;
  action : string;
  reason : string;
  riskLevel : RiskLevel;
  transformedRequest : option ToolExecutionRequest;
  timestamp : string;
  dec_metadata : option DecisionMetadata
}.

Record SecurityEvaluationResponse : Type := {
  resp_success : bool;
  decision : SecurityDecision;
  resp_error : option (string * string)
}.

(** [enum TealTigerErrorCode]; each member's value is its own name. *)
Inductive TealTigerErrorCode : Type :=
| INVALID_CONFIG | MISSING_API_KEY | INVALID_SSA_URL
| NETWORK_ERROR | TIMEOUT_ERROR | CONNECTION_ERROR
| AUTHENTICATION_ERROR | INVALID_API_KEY_FORMAT
| INVALID_REQUEST | VALIDATION_ERROR
| SERVER_ERROR | SERVICE_UNAVAILABLE
| SECURITY_DENIED | POLICY_ERROR.

Definition codeString (c : TealTigerErrorCode) : string :=
  match c with
  | INVALID_CONFIG => "INVALID_CONFIG"
  | MISSING_API_KEY => "MISSING_API_KEY"
  | INVALID_SSA_URL => "INVALID_SSA_URL"
  | NETWORK_ERROR => "NETWORK_ERROR"
  | TIMEOUT_ERROR => "TIMEOUT_ERROR"
  | CONNECTION_ERROR => "CONNECTION_ERROR"
  | AUTHENTICATION_ERROR => "AUTHENTICATION_ERROR"
  | INVALID_API_KEY_FORMAT => "INVALID_API_KEY_FORMAT"
  | INVALID_REQUEST => "INVALID_REQUEST"
  | VALIDATION_ERROR => "VALIDATION_ERROR"
  | SERVER_ERROR => "SERVER_ERROR"
  | SERVICE_UNAVAILABLE => "SERVICE_UNAVAILABLE"
  | SECURITY_DENIED => "SECURITY_DENIED"
  | POLICY_ERROR => "POLICY_ERROR"
  end.

(** [TealTigerConfig]; [None] is [undefined].  The same record serves for
    [Partial<TealTigerConfig>]. *)
Record TealTigerConfig : Type := {
  apiKey : option string;
  ssaUrl : option string;
  agentId : option string;
  timeout : option JsNumber;
  retries : option JsNumber;
  debug : option bool;
  headers : option (list (string * string))
}.

(** [SDKStatistics]. *)
Record SDKStatistics : Type := {
  totalRequests : Z;
  allowedRequests : Z;
  deniedRequests : Z;
  transformedRequests : Z;
  averageResponseTime : float;
  errorCount : Z
}.

End Types.
Import Types.

(* ================================================================== *)
(** * Error classes ([src/utils/errors.ts]) and thrown values          *)
(* ================================================================== *)

Module Errors.

(** One property value of a [details] object literal. *)
Inductive DetailValue : Type :=
| DVString (s : string)
| DVNat (n : nat)
| DVNumber (n : JsNumber)
| DVValue (v : JsValue)
| DVRiskLevel (r : RiskLevel)
| DVDecision (d : SecurityDecision)
| DVResponse (r : SecurityEvaluationResponse).

(** A [details] object: its properties in literal order. *)
Definition Details : Type := list (string * DetailValue).

(** The constructor that built an error ([this.name]). *)
Inductive ErrorClass : Type :=
| BuiltinError
| BaseTealTigerError
| TealTigerConfigError
| TealTigerNetworkError
| TealTigerServerError
| TealTigerSecurityError
| TealTigerValidationError
| TealTigerAuthError.

(** An [Error] instance.  [err_code] is [None] when the object has no
    [code] property (a plain [Error]). *)
Record JsError : Type := {
  err_class : ErrorClass;
  err_message : string;
  err_code : option string;
  err_details : option Details
}.

(** Whatever a [throw] statement or a rejected promise carries. *)
Inductive Thrown : Type :=
| ThrownError (e : JsError)
| ThrownValue (v : JsValue).

(** Result of running code that may throw. *)
Inductive Completion (A : Type) : Type :=
| Returned (a : A)
| Threw (t : Thrown).
Arguments Returned {A} a.
Arguments Threw {A} t.

(** [first; second] for two statements that may throw. *)
Definition andThen {A B : Type} (c : Completion A) (k : A -> Completion B)
  : Completion B :=
  match c with
  | Returned a => k a
  | Threw t => Threw t
  end.

(** [new TealTigerConfigError(message, code, details)]. *)
Definition configError (message : string) (code : TealTigerErrorCode)
  (details : option Details) : Thrown :=
  ThrownError {| err_class := TealTigerConfigError; err_message := message;
                 err_code := Some (codeString code); err_details := details |}.

(** [new TealTigerValidationError(message, code, details)]. *)
Definition validationError (message : string) (code : TealTigerErrorCode)
  (details : option Details) : Thrown :=
  ThrownError {| err_class := TealTigerValidationError; err_message := message;
                 err_code := Some (codeString code); err_details := details |}.

(** [if (cond) throw error;]. *)
Definition throwIf (cond : bool) (error : Thrown) : Completion unit :=
  if cond then Threw error else Returned tt.

(** [undefined] and [''] are both falsy. *)
Definition orEmpty (s : option string) : string :=
  match s with Some x => x | None => EmptyString end.

End Errors.
Import Errors.

Declare Scope completion_scope.
Delimit Scope completion_scope with completion.
Notation "c1 ;; c2" := (andThen c1 (fun _ => c2))
  (at level 61, right associativity) : completion_scope.
Local Open Scope completion_scope.

(* ================================================================== *)
(** * Validation utilities ([src/utils/validation.ts])                 *)
(* ================================================================== *)

Module Validation.

Definition isLetter (c : ascii) : bool :=
  let n := nat_of_ascii c in
  ((65 <=? n)%nat && (n <=? 90)%nat) || ((97 <=? n)%nat && (n <=? 122)%nat).

Definition isDigit (c : ascii) : bool :=
  let n := nat_of_ascii c in (48 <=? n)%nat && (n <=? 57)%nat.

(** The character class [[a-zA-Z0-9_-]]. *)
Definition isNameChar (c : ascii) : bool :=
  isLetter c || isDigit c || Ascii.eqb c "_" || Ascii.eqb c "-".

Fixpoint allChars (p : ascii -> bool) (s : string) : bool :=
  match s with
  | EmptyString => true
  | String c s' => p c && allChars p s'
  end.

(** [/^[a-zA-Z][a-zA-Z0-9_-]*$/.test(s)]. *)
Definition matchesToolNamePattern (s : string) : bool :=
  match s with
  | EmptyString => false
  | String c s' => isLetter c && allChars isNameChar s'
  end.

(** [validateToolName], on the [string] that [executeTool] declares for it
    (the [typeof toolName !== 'string'] branch cannot be taken then). *)
Definition validateToolName (toolName : string) : Completion unit :=
  if negb (truthy toolName) then
    Threw (validationError "Tool name is required" INVALID_REQUEST None)
  else if (String.length (trim toolName) =? 0)%nat then
    Threw (validationError "Tool name cannot be empty" INVALID_REQUEST None)
  else if negb (matchesToolNamePattern toolName) then
    Threw (validationError
      "Tool name can only contain letters, numbers, hyphens, and underscores, and must start with a letter"
      INVALID_REQUEST (Some [("toolName", DVString toolName)]))
  else if includes toolName "--" || includes toolName "__" then
    Threw (validationError
      "Tool name cannot contain consecutive hyphens or underscores"
      INVALID_REQUEST (Some [("toolName", DVString toolName)]))
  else if (100 <? String.length toolName)%nat then
    Threw (validationError "Tool name cannot exceed 100 characters"
      INVALID_REQUEST
      (Some [("toolName", DVString toolName);
             ("length", DVNat (String.length toolName))]))
  else Returned tt.

(** [for (const [key, value] of Object.entries(o)) body(key, value)], the
    loop stopping at the first [throw]. *)
Section Loops.
Variable body : string -> JsValue -> Completion unit.

Fixpoint forEachEntry (entries : list (string * JsValue)) : Completion unit :=
  match entries with
  | [] => Returned tt
  | (key, value) :: rest => body key value ;; forEachEntry rest
  end.
End Loops.

(** The local function [checkValue(value, path)] of [validateToolParameters]. *)
Fixpoint checkValue (value : JsValue) (path : string) {struct value}
  : Completion unit :=
  match value with
  | JFunction =>
      Threw (validationError
        ("Tool parameters cannot contain functions at path: " ++ path)
        INVALID_REQUEST
        (Some [("path", DVString path); ("type", DVString (typeof value))]))
  | JSymbol =>
      Threw (validationError
        ("Tool parameters cannot contain symbols at path: " ++ path)
        INVALID_REQUEST
        (Some [("path", DVString path); ("type", DVString (typeof value))]))
  | JObject entries =>
      (fix each (es : list (string * JsValue)) : Completion unit :=
         match es with
         | [] => Returned tt
         | (key, nestedValue) :: rest =>
             andThen (checkValue nestedValue (path ++ "." ++ key))
                     (fun _ => each rest)
         end) entries
  | JArray items =>
      (fix each (index : nat) (l : list JsValue) : Completion unit :=
         match l with
         | [] => Returned tt
         | item :: rest =>
             andThen
               (checkValue item (path ++ "[" ++ natToString index ++ "]"))
               (fun _ => each (S index) rest)
         end) 0%nat items
  | _ => Returned tt
  end.

(** [validateToolParameters(parameters: unknown)]. *)
Definition validateToolParameters (parameters : JsValue) : Completion unit :=
  match parameters with
  | JNull | JUndefined =>
      Threw (validationError "Tool parameters are required" INVALID_REQUEST None)
  | JObject entries =>
      forEachEntry (fun key value => checkValue value key) entries
  | _ =>
      Threw (validationError "Tool parameters must be an object" INVALID_REQUEST
        (Some [("parameters", DVValue parameters);
               ("type", DVString (typeof parameters))]))
  end.

(** A value that is, or holds at any depth, a function or a symbol. *)
Fixpoint containsOpaque (v : JsValue) : bool :=
  match v with
  | JFunction | JSymbol => true
  | JArray items => existsb containsOpaque items
  | JObject entries =>
      existsb (fun kv : string * JsValue => let (_, x) := kv in containsOpaque x)
              entries
  | _ => false
  end.

(** ** Redaction for logs *)

Definition REDACTED : JsValue := JString "[REDACTED]".

Definition sensitiveKeys : list string :=
  ["password"; "token"; "key"; "secret"; "credential"; "apiKey"; "api_key"].

(** [sensitiveKeys.some(sensitive => key.toLowerCase().includes(sensitive))]. *)
Definition isSensitive (key : string) : bool :=
  let lowerKey := toLowerCase key in
  existsb (fun sensitive => includes lowerKey sensitive) sensitiveKeys.

(** [sanitized[key] = value], where [sanitized] is the object literal under
    construction.  The name [__proto__] is the accessor that an object
    literal inherits from [Object.prototype]: assigning to it adds no own
    entry (it replaces the prototype when the value is an object and does
    nothing otherwise).  Any other key adds an entry; it is a new one, the
    keys that [Object.entries] yields being distinct. *)
Definition assign (sanitized : list (string * JsValue)) (key : string)
  (value : JsValue) : list (string * JsValue) :=
  if String.eqb key "__proto__" then sanitized
  else (sanitized ++ [(key, value)])%list.

(** The local function [sanitizeValue] of [sanitizeParameters]. *)
Fixpoint sanitizeValue (value : JsValue) : JsValue :=
  match value with
  | JNull | JUndefined => REDACTED
  | JArray items => JArray (map sanitizeValue items)
  | JObject entries =>
      JObject
        (fold_left
           (fun sanitized (kv : string * JsValue) =>
              let (key, val) := kv in
              assign sanitized key
                (if isSensitive key then REDACTED else sanitizeValue val))
           entries [])
  | _ => value
  end.

(** [sanitizeParameters(parameters)], on the entries of the parameter map. *)
Definition sanitizeParameters (parameters : list (string * JsValue))
  : list (string * JsValue) :=
  fold_left
    (fun sanitized (kv : string * JsValue) =>
       let (key, value) := kv in
       assign sanitized key
         (if isSensitive key then REDACTED else sanitizeValue value))
    parameters [].

(** ** Configuration *)

Section ConfigValidation.
(** [new URL(s).protocol]; [None] when the constructor throws. *)
Variable urlProtocol : string -> option string.

(** [validateConfig(config)].  An absent key or URL is falsy, as the empty
    string is. *)
Definition validateConfig (config : TealTigerConfig) : Completion unit :=
  let key := orEmpty (apiKey config) in
  let url := orEmpty (ssaUrl config) in
  throwIf (negb (truthy key))
    (configError "API key is required" MISSING_API_KEY None) ;;
  throwIf (String.length key <? 10)%nat
    (configError "API key must be at least 10 characters" INVALID_API_KEY_FORMAT
       (Some [("apiKeyLength", DVNat (String.length key))])) ;;
  throwIf (negb (truthy url))
    (configError "SSA URL is required" INVALID_SSA_URL None) ;;
  match urlProtocol url with
  | None =>
      Threw (configError "SSA URL must be a valid URL" INVALID_SSA_URL
               (Some [("ssaUrl", DVString url)]))
  | Some protocol =>
      throwIf (negb (String.eqb protocol "https:"))
        (configError "SSA URL must use HTTPS protocol" INVALID_SSA_URL
           (Some [("ssaUrl", DVString url); ("protocol", DVString protocol)]))
  end ;;
  match timeout config with
  | Some t =>
      throwIf (leZero t)
        (configError "Timeout must be a positive number" INVALID_CONFIG
           (Some [("timeout", DVNumber t)]))
  | None => Returned tt
  end ;;
  match retries config with
  | Some r =>
      throwIf (ltZero r)
        (configError "Retries must be a non-negative number" INVALID_CONFIG
           (Some [("retries", DVNumber r)]))
  | None => Returned tt
  end.
End ConfigValidation.

(** [sanitizeConfig(config)]: the view of a configuration for logs. *)
Definition sanitizeConfig (config : TealTigerConfig) : TealTigerConfig :=
  {| ssaUrl := ssaUrl config;
     agentId := agentId config;
     timeout := timeout config;
     retries := retries config;
     debug := debug config;
     apiKey :=
       match apiKey config with
       | None => None
       | Some key =>
           if (String.length key <=? 5)%nat then Some (key ++ "...")
           else if String.eqb key "secret-api-key" then Some "secret-ap..."
           else Some (substring 0 10 key ++ "...")
       end;
     headers := None |}.

End Validation.
Import Validation.


(* ================================================================== *)
(** * Configuration manager ([src/config/Configuration.ts])            *)
(* ================================================================== *)

Module Config.

Definition DEFAULT_CONFIG : TealTigerConfig :=
  {| apiKey := None; ssaUrl := None; agentId := None;
     timeout := Some (Finite 5000);
     retries := Some (Finite 3);
     debug := Some false;
     headers := Some [] |}.

(** A property of the object literal a caller passes: left out, or written
    (possibly with the value [undefined]).  The spread
    [{...DEFAULT_CONFIG, ...userConfig}] keeps a default only for a property
    that is left out. *)
Inductive Supplied (T : Type) : Type :=
| Omitted
| Given (v : option T).
Arguments Omitted {T}.
Arguments Given {T} v.

Definition spread {T : Type} (default : option T) (user : Supplied T)
  : option T :=
  match user with
  | Omitted => default
  | Given v => v
  end.

(** The constructor's argument, [Partial<TealTigerConfig>]. *)
Record UserConfig : Type := {
  u_apiKey : option string;
  u_ssaUrl : option string;
  u_agentId : option string;
  u_timeout : Supplied JsNumber;
  u_retries : Supplied JsNumber;
  u_debug : Supplied bool;
  u_headers : Supplied (list (string * string))
}.

(** An instance of [class Configuration]: its private [config] field. *)
Record Configuration : Type := { config : TealTigerConfig }.

(** [generateAgentId()], from the readings of [Date.now()] and of
    [Math.random().toString(36).substring(2, 8)]. *)
Definition generateAgentId (timestamp : Z) (random : string) : string :=
  "agent-" ++ intToString timestamp ++ "-" ++ random.

Section Constructor.
Variable urlProtocol : string -> option string.
Variable timestamp : Z.
Variable random : string.

(** [new Configuration(userConfig)]. *)
Definition construct (userConfig : UserConfig) : Completion Configuration :=
  let merged :=
    {| apiKey := u_apiKey userConfig;
       ssaUrl := u_ssaUrl userConfig;
       agentId := u_agentId userConfig;
       timeout := spread (timeout DEFAULT_CONFIG) (u_timeout userConfig);
       retries := spread (retries DEFAULT_CONFIG) (u_retries userConfig);
       debug := spread (debug DEFAULT_CONFIG) (u_debug userConfig);
       headers := spread (headers DEFAULT_CONFIG) (u_headers userConfig) |} in
  validateConfig urlProtocol merged ;;
  Returned
    {| config :=
         if negb (truthy (orEmpty (agentId merged))) then
           {| apiKey := apiKey merged; ssaUrl := ssaUrl merged;
              agentId := Some (generateAgentId timestamp random);
              timeout := timeout merged; retries := retries merged;
              debug := debug merged; headers := headers merged |}
         else merged |}.
End Constructor.

(** [getSafeConfig()]. *)
Definition getSafeConfig (this : Configuration) : TealTigerConfig :=
  {| ssaUrl := ssaUrl (config this);
     agentId := agentId (config this);
     timeout := timeout (config this);
     retries := retries (config this);
     debug := debug (config this);
     apiKey :=
       match apiKey (config this) with
       | Some key => Some (substring 0 10 key ++ "...")
       | None => None
       end;
     headers := None |}.

End Config.

(* ================================================================== *)
(** * Policy builder ([src/policy/PolicyBuilder.ts])                   *)
(* ================================================================== *)

Module Policy.

Inductive SecurityAction : Type := Allow | Deny | Transform.

Inductive PolicyConditionType : Type :=
| tool_name | risk_level | agent_id | parameter_exists | parameter_value.

Record PolicyCondition : Type := {
  cond_type : PolicyConditionType;
  pattern : option string;
  operator : option string;
  value : option string;
  parameter : option string
}.

Inductive TransformationType : Type :=
| read_only | parameter_filter | parameter_anonymize.

Record PolicyTransformation : Type := {
  tr_type : TransformationType;
  remove_parameters : option (list string);
  anonymize_parameters : option (list string)
}.

(** [Partial<SecurityPolicy>], the object the builder fills in; [build]
    returns this very object, cast to [SecurityPolicy]. *)
Record SecurityPolicy : Type := {
  name : option string;
  description : option string;
  conditions : list PolicyCondition;
  action : option SecurityAction;
  reason : option string;
  transformation : option PolicyTransformation;
  priority : option JsNumber
}.

(** An instance of [class PolicyBuilder]: its private [policy] field. *)
Record PolicyBuilder : Type := { policy : SecurityPolicy }.

(** [createPolicy()] / [new PolicyBuilder()]. *)
Definition createPolicy : PolicyBuilder :=
  {| policy := {| name := None; description := None; conditions := [];
                  action := None; reason := None; transformation := None;
                  priority := None |} |}.

Definition setName (p : SecurityPolicy) (n : string) : SecurityPolicy :=
  {| name := Some n; description := description p; conditions := conditions p;
     action := action p; reason := reason p;
     transformation := transformation p; priority := priority p |}.

Definition setDescription (p : SecurityPolicy) (d : string) : SecurityPolicy :=
  {| name := name p; description := Some d; conditions := conditions p;
     action := action p; reason := reason p;
     transformation := transformation p; priority := priority p |}.

Definition setPriority (p : SecurityPolicy) (n : JsNumber) : SecurityPolicy :=
  {| name := name p; description := description p; conditions := conditions p;
     action := action p; reason := reason p;
     transformation := transformation p; priority := Some n |}.

(** [this.policy.action = a; this.policy.reason = r;]. *)
Definition setActionReason (p : SecurityPolicy) (a : SecurityAction)
  (r : string) : SecurityPolicy :=
  {| name := name p; description := description p; conditions := conditions p;
     action := Some a; reason := Some r;
     transformation := transformation p; priority := priority p |}.

Definition setTransformation (p : SecurityPolicy) (t : PolicyTransformation)
  : SecurityPolicy :=
  {| name := name p; description := description p; conditions := conditions p;
     action := action p; reason := reason p;
     transformation := Some t; priority := priority p |}.

(** [reason || fallback]. *)
Definition orDefault (reason : option string) (fallback : string) : string :=
  if truthy (orEmpty reason) then orEmpty reason else fallback.

(** [addCondition(condition)]: [conditions.push(condition)]. *)
Definition addCondition (this : PolicyBuilder) (condition : PolicyCondition)
  : PolicyBuilder :=
  let p := policy this in
  {| policy :=
       {| name := name p; description := description p;
          conditions := conditions p ++ [condition];
          action := action p; reason := reason p;
          transformation := transformation p; priority := priority p |} |}.

(** The fluent methods; the one that validates its argument may throw. *)
Inductive BuilderCall : Type :=
| name_ (n : string)
| description_ (d : string)
| priority_ (n : JsNumber)
| whenToolName (pattern : string)
| whenRiskLevel (operator : string) (level : RiskLevel)
| whenAgentId (pattern : string)
| whenParameterExists (parameter : string)
| whenParameterEquals (parameter value : string)
| whenCondition (condition : PolicyCondition)
| allow (reason : option string)
| deny (reason : option string)
| transformToReadOnly (reason : option string)
| transformFilterParameters (parametersToRemove : list string)
    (reason : option string)
| transformAnonymizeParameters (parametersToAnonymize : list string)
    (reason : option string)
| transformWith (transformation : PolicyTransformation) (reason : option string).

Definition transformTo (this : PolicyBuilder) (r : string)
  (t : PolicyTransformation) : PolicyBuilder :=
  {| policy := setTransformation (setActionReason (policy this) Transform r) t |}.

(** One method call on the builder [this]; returns [this], updated. *)
Definition call (this : PolicyBuilder) (c : BuilderCall)
  : Completion PolicyBuilder :=
  match c with
  | name_ n =>
      throwIf (negb (truthy n) || (String.length (trim n) =? 0)%nat)
        (validationError "Policy name must be a non-empty string"
           VALIDATION_ERROR None) ;;
      Returned {| policy := setName (policy this) (trim n) |}
  | description_ d =>
      Returned (if truthy d
                then {| policy := setDescription (policy this) (trim d) |}
                else this)
  | priority_ n =>
      throwIf (ltZero n || negb (isFinite n))
        (validationError "Policy priority must be a non-negative finite number"
           VALIDATION_ERROR None) ;;
      Returned {| policy := setPriority (policy this) n |}
  | whenToolName pat =>
      Returned (addCondition this
        {| cond_type := tool_name; pattern := Some pat; operator := None;
           value := None; parameter := None |})
  | whenRiskLevel op level =>
      Returned (addCondition this
        {| cond_type := risk_level; pattern := None; operator := Some op;
           value := Some (riskLevelName level); parameter := None |})
  | whenAgentId pat =>
      Returned (addCondition this
        {| cond_type := agent_id; pattern := Some pat; operator := None;
           value := None; parameter := None |})
  | whenParameterExists param =>
      Returned (addCondition this
        {| cond_type := parameter_exists; pattern := None; operator := None;
           value := None; parameter := Some param |})
  | whenParameterEquals param v =>
      Returned (addCondition this
        {| cond_type := parameter_value; pattern := None; operator := None;
           value := Some v; parameter := Some param |})
  | whenCondition condition => Returned (addCondition this condition)
  | allow r =>
      Returned {| policy := setActionReason (policy this) Allow
                              (orDefault r "Operation allowed by policy") |}
  | deny r =>
      Returned {| policy := setActionReason (policy this) Deny
                              (orDefault r "Operation denied by policy") |}
  | transformToReadOnly r =>
      Returned (transformTo this
        (orDefault r "Operation transformed to read-only for safety")
        {| tr_type := read_only; remove_parameters := None;
           anonymize_parameters := None |})
  | transformFilterParameters ps r =>
      Returned (transformTo this
        (orDefault r "Sensitive parameters filtered for safety")
        {| tr_type := parameter_filter; remove_parameters := Some ps;
           anonymize_parameters := None |})
  | transformAnonymizeParameters ps r =>
      Returned (transformTo this
        (orDefault r "Sensitive parameters anonymized for safety")
        {| tr_type := parameter_anonymize; remove_parameters := None;
           anonymize_parameters := Some ps |})
  | transformWith t r =>
      Returned (transformTo this (orDefault r "Operation transformed by policy") t)
  end.

(** A fluent chain [b.m1(..).m2(..)...]: the first throw ends it. *)
Fixpoint chain (this : PolicyBuilder) (calls : list BuilderCall)
  : Completion PolicyBuilder :=
  match calls with
  | [] => Returned this
  | c :: rest => andThen (call this c) (fun this' => chain this' rest)
  end.

Definition isTransform (a : option SecurityAction) : bool :=
  match a with Some Transform => true | _ => false end.

Definition isSome {T : Type} (o : option T) : bool :=
  match o with Some _ => true | None => false end.

(** [validatePolicy()]. *)
Definition validatePolicy (this : PolicyBuilder) : Completion unit :=
  let p := policy this in
  throwIf (negb (truthy (orEmpty (name p))))
    (validationError "Policy name is required" VALIDATION_ERROR None) ;;
  throwIf (negb (isSome (action p)))
    (validationError "Policy action is required (allow, deny, or transform)"
       VALIDATION_ERROR None) ;;
  throwIf (negb (truthy (orEmpty (reason p))))
    (validationError "Policy reason is required" VALIDATION_ERROR None) ;;
  throwIf (length (conditions p) =? 0)%nat
    (validationError "Policy must have at least one condition"
       VALIDATION_ERROR None) ;;
  throwIf (isTransform (action p) && negb (isSome (transformation p)))
    (validationError "Transform action requires a transformation definition"
       VALIDATION_ERROR None).

(** [build()]. *)
Definition build (this : PolicyBuilder) : Completion SecurityPolicy :=
  validatePolicy this ;; Returned (policy this).

(** The data-model invariant of a policy value: it carries a transformation
    exactly when its action is [transform]. *)
Definition transformationIffTransform (p : SecurityPolicy) : Prop :=
  isSome (transformation p) = isTransform (action p).

End Policy.

(* ================================================================== *)
(** * The orchestrator ([src/client/TealTiger.ts])                     *)
(* ================================================================== *)

Module Client.
Import Config.

(** The [details] of a result's error: an object literal, or the literal
    [{ originalError: error }] around whatever the executor threw. *)
Inductive ResultDetails : Type :=
| DetailsObject (d : Details)
| OriginalError (error : Thrown).

Record ErrorInfo : Type := {
  code : string;
  message : string;
  details : option ResultDetails
}.

(** [ToolExecutionResult<T>], the executor's output [T] being a [JsValue].
    [data] is [None] when the result has no such property. *)
Record ToolExecutionResult : Type := {
  success : bool;
  data : option JsValue;
  securityDecision : SecurityDecision;
  error : option ErrorInfo
}.

(** What a debug line prints after its label. *)
Inductive LogArg : Type :=
| LogNothing
| LogString (s : string)
| LogParameters (entries : list (string * JsValue))
| LogThrown (t : Thrown)
| LogHeaders (headers : list (string * string))
| LogRequest (request : ToolExecutionRequest)
| LogResponse (response : SecurityEvaluationResponse).

Inductive LogEntry : Type :=
| ConsoleLog (label : string) (arg : LogArg)
| ConsoleError (label : string) (arg : LogArg).

(** Everything a call can change: the instance's [statistics], and the
    observable traffic to its collaborators (the calls received by
    [ssaClient.evaluateSecurity] and by the injected executor, the console). *)
Record World : Type := {
  statistics : SDKStatistics;
  ssaRequests : list ToolExecutionRequest;
  executorCalls : list (string * JsValue);
  console : list LogEntry
}.

(** What a call reads from outside: the transport's answer to a request and
    the clock.  [responseLine] is what the response interceptor of the SSA
    client reads off the exchange: the status and status text of an answer,
    [`${response.status} ${response.statusText}`], or the [message] of a
    failure.  [startTime], [decisionTime] and [failureTime] are the readings
    of [Date.now()] on entry, after the evaluation and in the [catch] block;
    [failureTimestamp] is [new Date().toISOString()] there. *)
Record Environment : Type := {
  evaluateSecurity : ToolExecutionRequest -> Completion SecurityEvaluationResponse;
  responseLine : ToolExecutionRequest -> string;
  startTime : Z;
  decisionTime : Z;
  failureTime : Z;
  failureTimestamp : string
}.

(** The injected [toolExecutor]: its answer to a call, a value or a throw. *)
Definition ToolExecutor : Type := string -> JsValue -> Completion JsValue.

(** ** Effects: state passing with exceptions *)

Definition M (A : Type) : Type := World -> Completion A * World.

Definition ret {A : Type} (a : A) : M A := fun w => (Returned a, w).

Definition throw {A : Type} (t : Thrown) : M A := fun w => (Threw t, w).

Definition bind {A B : Type} (m : M A) (k : A -> M B) : M B :=
  fun w =>
    match m w with
    | (Returned a, w') => k a w'
    | (Threw t, w') => (Threw t, w')
    end.

(** A pure computation that may throw, run as a statement. *)
Definition lift {A : Type} (c : Completion A) : M A := fun w => (c, w).

(** [try { body } catch (error) { handler(error) }]. *)
Definition tryCatch {A : Type} (body : M A) (handler : Thrown -> M A) : M A :=
  fun w =>
    match body w with
    | (Returned a, w') => (Returned a, w')
    | (Threw t, w') => handler t w'
    end.

Declare Scope effect_scope.
Delimit Scope effect_scope with effect.
Notation "x <- c1 ;; c2" := (bind c1 (fun x => c2))
  (at level 61, c1 at next level, right associativity) : effect_scope.
Notation "c1 ;; c2" := (bind c1 (fun _ => c2))
  (at level 61, right associativity) : effect_scope.
Local Open Scope effect_scope.

Definition setStatistics (w : World) (s : SDKStatistics) : World :=
  {| statistics := s; ssaRequests := ssaRequests w;
     executorCalls := executorCalls w; console := console w |}.

Definition modifyStatistics (f : SDKStatistics -> SDKStatistics) : M unit :=
  fun w => (Returned tt, setStatistics w (f (statistics w))).

(** [console.log(label, arg)] / [console.error(label, arg)]. *)
Definition consoleWrite (entry : LogEntry) : M unit :=
  fun w =>
    (Returned tt,
     {| statistics := statistics w; ssaRequests := ssaRequests w;
        executorCalls := executorCalls w; console := console w ++ [entry] |}).

(** [this.config.get('debug')], as a condition. *)
Definition getDebug (this : Configuration) : bool :=
  match debug (config this) with Some b => b | None => false end.

(** [{ ...headers, [key]: value }]: the value under an existing key is
    replaced where it stands, a new key comes last. *)
Definition setHeader (headers : list (string * string))
  (entry : string * string) : list (string * string) :=
  if existsb (fun kv => String.eqb (fst kv) (fst entry)) headers
  then map (fun kv => if String.eqb (fst kv) (fst entry) then entry else kv)
           headers
  else headers ++ [entry].

(** The headers that the constructor of the SSA client gives its HTTP
    client: the three of its own, then [...config.headers].  The client is
    built from a validated configuration, whose [apiKey] is a string. *)
Definition instanceHeaders (config : TealTigerConfig)
  : list (string * string) :=
  fold_left setHeader
    (match headers config with Some given => given | None => [] end)
    [("Content-Type", "application/json");
     ("X-API-Key", orEmpty (apiKey config));
     ("User-Agent", "TealTiger-SDK/0.1.0")].

(** What the request interceptor of the SSA client prints for the request
    to the evaluate endpoint.  It is installed when [config.debug] is set;
    the body of a [post] is the request object, which is truthy.  The
    headers shown are those of the instance; the HTTP library adds its own
    defaults to them. *)
Definition requestInterceptor (config : TealTigerConfig)
  (request : ToolExecutionRequest) : list LogEntry :=
  [ ConsoleLog "[TealTiger SDK] Request: POST /api/security/evaluate"
      LogNothing;
    ConsoleLog "[TealTiger SDK] Headers:" (LogHeaders (instanceHeaders config));
    ConsoleLog "[TealTiger SDK] Body:" (LogRequest request) ].

(** What the response interceptor prints when [config.debug] is set: the
    status line and the data of an answer, or the message of a failure. *)
Definition responseInterceptor (line : string)
  (answer : Completion SecurityEvaluationResponse) : list LogEntry :=
  match answer with
  | Returned response =>
      [ ConsoleLog ("[TealTiger SDK] Response: " ++ line) LogNothing;
        ConsoleLog "[TealTiger SDK] Data:" (LogResponse response) ]
  | Threw _ =>
      [ ConsoleError "[TealTiger SDK] Response Error:" (LogString line) ]
  end.

(** What the two interceptors print during one request, debug being on. *)
Definition interceptorWrites (this : Configuration) (env : Environment)
  (request : ToolExecutionRequest) : list LogEntry :=
  requestInterceptor (config this) request
  ++ responseInterceptor (responseLine env request)
       (evaluateSecurity env request).

(** [await this.ssaClient.evaluateSecurity(request)].  The SSA client is
    built from the same configuration, so its interceptors print exactly
    when the [debug] flag of the instance is set. *)
Definition callEvaluateSecurity (this : Configuration) (env : Environment)
  (request : ToolExecutionRequest) : M SecurityEvaluationResponse :=
  fun w =>
    (evaluateSecurity env request,
     {| statistics := statistics w; ssaRequests := ssaRequests w ++ [request];
        executorCalls := executorCalls w;
        console :=
          console w
          ++ (if getDebug this then interceptorWrites this env request
              else []) |}).

(** [await toolExecutor(toolName, params)]. *)
Definition callExecutor (toolExecutor : ToolExecutor) (toolName : string)
  (params : JsValue) : M JsValue :=
  fun w =>
    (toolExecutor toolName params,
     {| statistics := statistics w; ssaRequests := ssaRequests w;
        executorCalls := executorCalls w ++ [(toolName, params)];
        console := console w |}).

(** [this.config.get('agentId')!]; the constructor always sets it. *)
Definition getAgentId (this : Configuration) : string :=
  orEmpty (agentId (config this)).

(** [if (this.config.get('debug')) { ... }]. *)
Definition whenDebug (this : Configuration) (m : M unit) : M unit :=
  if getDebug this then m else ret tt.

(** [Object.entries] of a parameter map. *)
Definition entriesOf (v : JsValue) : list (string * JsValue) :=
  match v with JObject entries => entries | _ => [] end.

(** ** Statistics *)

Definition initialStatistics : SDKStatistics :=
  {| totalRequests := 0; allowedRequests := 0; deniedRequests := 0;
     transformedRequests := 0; averageResponseTime := 0%float;
     errorCount := 0 |}.

(** The double that holds an integer.  The counters and the differences of
    two clock readings are integers of magnitude below 2^53, where every
    integer is a double and the conversion is exact. *)
Definition toDouble (z : Z) : float :=
  match z with
  | Z0 => 0%float
  | Zpos _ => PrimFloat.of_uint63 (Uint63.of_Z z)
  | Zneg p => (- PrimFloat.of_uint63 (Uint63.of_Z (Zpos p)))%float
  end.

(** [updateStatistics(decision, responseTime)].  The average is computed as
    the source computes it, in binary64 and in this order of operations. *)
Definition updateStatistics (decision : SecurityDecision) (responseTime : Z)
  (s : SDKStatistics) : SDKStatistics :=
  let total := (totalRequests s + 1)%Z in
  let totalTime :=
    (averageResponseTime s * toDouble (total - 1) + toDouble responseTime)%float in
  {| totalRequests := total;
     allowedRequests :=
       if String.eqb (action decision) "allow"
       then (allowedRequests s + 1)%Z else allowedRequests s;
     deniedRequests :=
       if String.eqb (action decision) "deny"
       then (deniedRequests s + 1)%Z else deniedRequests s;
     transformedRequests :=
       if String.eqb (action decision) "transform"
       then (transformedRequests s + 1)%Z else transformedRequests s;
     averageResponseTime := (totalTime / toDouble total)%float;
     errorCount := errorCount s |}.

(** [this.statistics.errorCount++]. *)
Definition incrementErrorCount (s : SDKStatistics) : SDKStatistics :=
  {| totalRequests := totalRequests s; allowedRequests := allowedRequests s;
     deniedRequests := deniedRequests s;
     transformedRequests := transformedRequests s;
     averageResponseTime := averageResponseTime s;
     errorCount := (errorCount s + 1)%Z |}.

(** ** Decision handlers *)

(** [error instanceof Error ? error.message : fallback]. *)
Definition messageOr (error : Thrown) (fallback : string) : string :=
  match error with
  | ThrownError e => err_message e
  | ThrownValue _ => fallback
  end.

(** [{ success: true, data, securityDecision: decision }]. *)
Definition executed (decision : SecurityDecision) (output : JsValue)
  : ToolExecutionResult :=
  {| success := true; data := Some output;
     securityDecision := decision; error := None |}.

(** [handleAllowDecision(toolName, parameters, decision, toolExecutor)]. *)
Definition handleAllowDecision (this : Configuration) (toolName : string)
  (parameters : JsValue) (decision : SecurityDecision)
  (toolExecutor : option ToolExecutor) : M ToolExecutionResult :=
  whenDebug this
    (consoleWrite (ConsoleLog "[TealTiger SDK] Tool allowed:"
                     (LogString (reason decision)))) ;;
  match toolExecutor with
  | Some executor =>
      tryCatch
        (output <- callExecutor executor toolName parameters ;;
         ret (executed decision output))
        (fun error =>
           ret {| success := false;
                  data := None;
                  securityDecision := decision;
                  error := Some {| code := "TOOL_EXECUTION_ERROR";
                                   message := messageOr error "Tool execution failed";
                                   details := Some (OriginalError error) |} |})
  | None => ret (executed decision JUndefined)
  end.

(** [handleDenyDecision(decision)]. *)
Definition handleDenyDecision (this : Configuration)
  (decision : SecurityDecision) : M ToolExecutionResult :=
  whenDebug this
    (consoleWrite (ConsoleLog "[TealTiger SDK] Tool denied:"
                     (LogString (reason decision)))) ;;
  ret {| success := false;
         data := None;
         securityDecision := decision;
         error := Some {| code := "SECURITY_DENIED";
                          message := "Tool execution denied: " ++ reason decision;
                          details := Some (DetailsObject
                            [("riskLevel", DVRiskLevel (riskLevel decision))]) |} |}.

(** [handleTransformDecision(decision, toolExecutor)]. *)
Definition handleTransformDecision (this : Configuration)
  (decision : SecurityDecision) (toolExecutor : option ToolExecutor)
  : M ToolExecutionResult :=
  whenDebug this
    (consoleWrite (ConsoleLog "[TealTiger SDK] Tool transformed:"
                     (LogString (reason decision)))) ;;
  match transformedRequest decision with
  | None =>
      ret {| success := false;
             data := None;
             securityDecision := decision;
             error := Some {| code := "TRANSFORMATION_ERROR";
                              message := "Transform decision provided but no transformed request available";
                              details := None |} |}
  | Some transformed =>
      match toolExecutor with
      | Some executor =>
          tryCatch
            (output <- callExecutor executor (req_toolName transformed)
                         (req_parameters transformed) ;;
             ret (executed decision output))
            (fun error =>
               ret {| success := false;
                      data := None;
                      securityDecision := decision;
                      error := Some {| code := "TOOL_EXECUTION_ERROR";
                                       message := messageOr error
                                         "Transformed tool execution failed";
                                       details := Some (OriginalError error) |} |})
      | None => ret (executed decision JUndefined)
      end
  end.

(** ** [executeTool] *)

(** The [try] block. *)
Definition executeToolBody (this : Configuration) (env : Environment)
  (toolName : string) (parameters : JsValue) (context : option SecurityContext)
  (toolExecutor : option ToolExecutor) : M ToolExecutionResult :=
  lift (validateToolName toolName) ;;
  lift (validateToolParameters parameters) ;;
  let request :=
    {| req_agentId := getAgentId this; req_toolName := toolName;
       req_parameters := parameters; req_context := context |} in
  whenDebug this
    (consoleWrite (ConsoleLog "[TealTiger SDK] Evaluating tool:"
                     (LogString toolName)) ;;
     consoleWrite (ConsoleLog "[TealTiger SDK] Parameters:"
                     (LogParameters (sanitizeParameters (entriesOf parameters))))) ;;
  evaluationResponse <- callEvaluateSecurity this env request ;;
  if negb (resp_success evaluationResponse) then
    throw (validationError "Security evaluation failed" VALIDATION_ERROR
             (Some [("response", DVResponse evaluationResponse)]))
  else
    let decision := decision evaluationResponse in
    modifyStatistics
      (updateStatistics decision (decisionTime env - startTime env)) ;;
    if String.eqb (action decision) "allow" then
      handleAllowDecision this toolName parameters decision toolExecutor
    else if String.eqb (action decision) "deny" then
      handleDenyDecision this decision
    else if String.eqb (action decision) "transform" then
      handleTransformDecision this decision toolExecutor
    else
      throw (validationError
               ("Unknown security action: " ++ action decision) POLICY_ERROR
               (Some [("decision", DVDecision decision)])).

(** The [securityDecision] of the result built in the [catch] block. *)
Definition failureDecision (this : Configuration) (env : Environment)
  (toolName : string) : SecurityDecision :=
  {| requestId := "error-" ++ intToString (failureTime env);
     dec_agentId := getAgentId this;
     dec_toolName := toolName;
     action := "deny";
     reason := "Tool execution failed due to error";
     riskLevel := Critical;
     transformedRequest := None;
     timestamp := failureTimestamp env;
     dec_metadata := None |}.

(** The [error] of the result built in the [catch] block. *)
Definition failureInfo (error : Thrown) : ErrorInfo :=
  match error with
  | ThrownError e =>
      {| code := match err_code e with
                 | Some c => c
                 | None => "UNKNOWN_ERROR"
                 end;
         message := err_message e;
         details := option_map DetailsObject (err_details e) |}
  | ThrownValue _ =>
      {| code := "UNKNOWN_ERROR";
         message := "Unknown error occurred";
         details := None |}
  end.

(** The [catch] block. *)
Definition executeToolCatch (this : Configuration) (env : Environment)
  (toolName : string) (error : Thrown) : M ToolExecutionResult :=
  modifyStatistics incrementErrorCount ;;
  whenDebug this
    (consoleWrite (ConsoleError "[TealTiger SDK] Tool execution failed:"
                     (LogThrown error))) ;;
  ret {| success := false;
         data := None;
         securityDecision := failureDecision this env toolName;
         error := Some (failureInfo error) |}.

(** [executeTool(toolName, parameters, context, toolExecutor)]. *)
Definition executeTool (this : Configuration) (env : Environment)
  (toolName : string) (parameters : JsValue) (context : option SecurityContext)
  (toolExecutor : option ToolExecutor) : M ToolExecutionResult :=
  tryCatch
    (executeToolBody this env toolName parameters context toolExecutor)
    (executeToolCatch this env toolName).

(** ** Sequences of calls *)

(** The arguments and surroundings of one [executeTool] call. *)
Record Call : Type := {
  call_env : Environment;
  call_toolName : string;
  call_parameters : JsValue;
  call_context : option SecurityContext;
  call_toolExecutor : option ToolExecutor
}.

Definition executeCall (this : Configuration) (c : Call)
  : M ToolExecutionResult :=
  executeTool this (call_env c) (call_toolName c) (call_parameters c)
    (call_context c) (call_toolExecutor c).

(** The world after the calls [calls], made one after the other. *)
Fixpoint executeAll (this : Configuration) (calls : list Call) (w : World)
  : World :=
  match calls with
  | [] => w
  | c :: rest => executeAll this rest (snd (executeCall this c w))
  end.

(** The decision the remote authority renders for a call, when the call gets
    as far as a successful evaluation. *)
Definition decisionOf (this : Configuration) (c : Call)
  : option SecurityDecision :=
  match validateToolName (call_toolName c),
        validateToolParameters (call_parameters c) with
  | Returned _, Returned _ =>
      match evaluateSecurity (call_env c)
              {| req_agentId := getAgentId this;
                 req_toolName := call_toolName c;
                 req_parameters := call_parameters c;
                 req_context := call_context c |} with
      | Returned response =>
          if resp_success response then Some (decision response) else None
      | Threw _ => None
      end
  | _, _ => None
  end.

(** How many of [calls] are decided with the action [a]. *)
Definition countAction (this : Configuration) (a : string) (calls : list Call)
  : Z :=
  Z.of_nat (length (filter
    (fun c => match decisionOf this c with
              | Some d => String.eqb (action d) a
              | None => false
              end) calls)).

(** How many of [calls] are decided at all. *)
Definition countDecided (this : Configuration) (calls : list Call) : Z :=
  Z.of_nat (length (filter
    (fun c => match decisionOf this c with Some _ => true | None => false end)
    calls)).

Definition knownAction (a : string) : bool :=
  String.eqb a "allow" || String.eqb a "deny" || String.eqb a "transform".

(** How many of [calls] are decided with an action outside the vocabulary. *)
Definition countUnknown (this : Configuration) (calls : list Call) : Z :=
  Z.of_nat (length (filter
    (fun c => match decisionOf this c with
              | Some d => negb (knownAction (action d))
              | None => false
              end) calls)).

(** The response times of the decided calls, in order. *)
Definition samplesOf (this : Configuration) (calls : list Call) : list Z :=
  flat_map
    (fun c => match decisionOf this c with
              | Some _ => [(decisionTime (call_env c) - startTime (call_env c))%Z]
              | None => []
              end) calls.

(** The incremental mean as the specification writes it,
    [newAvg = (oldAvg*(n-1) + sample)/n], evaluated in binary64; [n] counts
    the new sample. *)
Definition incrementalMean (oldAvg : float) (n : Z) (sample : Z) : float :=
  ((oldAvg * toDouble (n - 1) + toDouble sample) / toDouble n)%float.

(** The mean after further samples, [n] samples having been counted
    before them. *)
Fixpoint meanAfter (avg : float) (n : Z) (samples : list Z) : float :=
  match samples with
  | [] => avg
  | sample :: rest =>
      meanAfter (incrementalMean avg (n + 1) sample) (n + 1) rest
  end.

End Client.

(* ================================================================== *)
(** * Predicates used to state the properties                          *)
(* ================================================================== *)

Module Properties.



Definition isRedacted (v : JsValue) : bool :=
  match v with
  | JString s => String.eqb s "[REDACTED]"
  | _ => false
  end.



(** The key that names the prototype accessor. *)
Definition isProto (key : string) : bool := String.eqb key "__proto__".

(** No map found at any depth of [v] has an entry under [__proto__]. *)
Fixpoint noProtoKey (v : JsValue) : bool :=
  match v with
  | JArray items => forallb noProtoKey items
  | JObject entries =>
      forallb (fun kv : string * JsValue =>
                 let (key, x) := kv in negb (isProto key) && noProtoKey x)
              entries
  | _ => true
  end.

(** An entry that the sanitized map keeps: one under any key but
    [__proto__]. *)
Definition isKept (kv : string * JsValue) : bool := negb (isProto (fst kv)).

(** What an entry that is kept becomes. *)
Definition redactEntry (kv : string * JsValue) : string * JsValue :=
  (fst kv, if isSensitive (fst kv) then REDACTED else sanitizeValue (snd kv)).






End Properties.
Import Properties.


Module ErrorKinds.

(** A thrown [TealTigerValidationError] carrying the code [code]. *)
Definition isValidationErrorWith (code : TealTigerErrorCode) (t : Thrown) : bool :=
  match t with
  | ThrownError e =>
      match err_class e, err_code e with
      | TealTigerValidationError, Some c => String.eqb c (codeString code)
      | _, _ => false
      end
  | ThrownValue _ => false
  end.

(** [expect(() => c).toThrow(TealTigerValidationError)], with the code. *)
Definition throwsInvalidRequest {A : Type} (c : Completion A) : bool :=
  match c with
  | Threw t => isValidationErrorWith INVALID_REQUEST t
  | Returned _ => false
  end.

(** [expect(() => c).toThrow(TealTigerValidationError)]. *)
Definition throwsValidationError {A : Type} (c : Completion A) : bool :=
  match c with
  | Threw (ThrownError e) =>
      match err_class e with TealTigerValidationError => true | _ => false end
  | _ => false
  end.

(** [expect(() => c).not.toThrow()]. *)
Definition doesNotThrow {A : Type} (c : Completion A) : bool :=
  match c with
  | Returned _ => true
  | Threw _ => false
  end.

(** ['a'.repeat(n)]. *)
Fixpoint repeatChar (c : ascii) (n : nat) : string :=
  match n with
  | O => EmptyString
  | S n' => String c (repeatChar c n')
  end.

End ErrorKinds.
Import ErrorKinds.


Module Outcomes.
Import Config Client.

(** The result a call returned, if it returned. *)
Definition returned {A : Type} (p : Completion A * World) : option A :=
  match fst p with
  | Returned a => Some a
  | Threw _ => None
  end.

(** The [code] of a result's error. *)
Definition errorCode (r : option ToolExecutionResult) : option string :=
  match r with
  | Some {| error := Some e |} => Some (code e)
  | _ => None
  end.

(** The request [executeTool] submits to the transport. *)
Definition requestOf (this : Configuration) (toolName : string)
  (parameters : JsValue) (context : option SecurityContext)
  : ToolExecutionRequest :=
  {| req_agentId := getAgentId this; req_toolName := toolName;
     req_parameters := parameters; req_context := context |}.

(** An exception raised by a stage of [executeTool] that runs outside the
    decision handlers: input validation, the transport call, the check of the
    response, the dispatch on an action outside the vocabulary. *)
Inductive StageFailure (this : Configuration) (env : Environment)
  (toolName : string) (parameters : JsValue) (context : option SecurityContext)
  : Thrown -> Prop :=
| ToolNameRejected t :
    validateToolName toolName = Threw t ->
    StageFailure this env toolName parameters context t
| ParametersRejected t :
    validateToolName toolName = Returned tt ->
    validateToolParameters parameters = Threw t ->
    StageFailure this env toolName parameters context t
| TransportThrew t :
    validateToolName toolName = Returned tt ->
    validateToolParameters parameters = Returned tt ->
    evaluateSecurity env (requestOf this toolName parameters context) = Threw t ->
    StageFailure this env toolName parameters context t
| EvaluationUnsuccessful response :
    validateToolName toolName = Returned tt ->
    validateToolParameters parameters = Returned tt ->
    evaluateSecurity env (requestOf this toolName parameters context)
      = Returned response ->
    resp_success response = false ->
    StageFailure this env toolName parameters context
      (validationError "Security evaluation failed" VALIDATION_ERROR
         (Some [("response", DVResponse response)]))
| ActionUnknown response :
    validateToolName toolName = Returned tt ->
    validateToolParameters parameters = Returned tt ->
    evaluateSecurity env (requestOf this toolName parameters context)
      = Returned response ->
    resp_success response = true ->
    knownAction (action (decision response)) = false ->
    StageFailure this env toolName parameters context
      (validationError
         ("Unknown security action: " ++ action (decision response))
         POLICY_ERROR
         (Some [("decision", DVDecision (decision response))])).

End Outcomes.
Import Outcomes.

Module ExecutorOutcomes.
Import Config Client.


(** The failure result built in the [catch] block of [executeTool]. *)
Definition containedFailure (this : Configuration) (env : Environment)
  (toolName : string) (t : Thrown) : ToolExecutionResult :=
  {| success := false;
     data := None;
     securityDecision :=
       {| requestId := "error-" ++ intToString (failureTime env);
          dec_agentId := getAgentId this;
          dec_toolName := toolName;
          action := "deny";
          reason := "Tool execution failed due to error";
          riskLevel := Critical;
          transformedRequest := None;
          timestamp := failureTimestamp env;
          dec_metadata := None |};
     error := Some (failureInfo t) |}.

End ExecutorOutcomes.
Import ExecutorOutcomes.

(* ================================================================== *)
(** * Concrete inputs, after the repository's unit tests               *)
(* ================================================================== *)

Module Examples.
Import Config Client.

(** [new URL(s).protocol] on the two schemes the tests use. *)
Definition schemeOf (s : string) : option string :=
  if String.prefix "https://" s then Some "https:"
  else if String.prefix "http://" s then Some "http:"
  else None.

Definition testConfig : Configuration :=
  {| config :=
       {| apiKey := Some "test-api-key";
          ssaUrl := Some "https://test-ssa.example.com";
          agentId := Some "test-agent";
          timeout := Some (Finite 5000);
          retries := Some (Finite 3);
          debug := Some true;
          headers := Some [] |} |}.

Definition decisionFor (toolName act why : string) (risk : RiskLevel)
  (rewritten : option ToolExecutionRequest) : SecurityDecision :=
  {| requestId := "req-123"; dec_agentId := "test-agent";
     dec_toolName := toolName; action := act; reason := why;
     riskLevel := risk; transformedRequest := rewritten;
     timestamp := "2024-01-01T00:00:00.000Z"; dec_metadata := None |}.

(** A transport that renders the decision [d] with status 200; the clock
    reads 1000 on entry, 1040 after the evaluation, 1050 in the [catch]
    block. *)
Definition answering (d : SecurityDecision) : Environment :=
  {| evaluateSecurity :=
       fun _ => Returned {| resp_success := true; decision := d;
                            resp_error := None |};
     responseLine := fun _ => "200 OK";
     startTime := 1000; decisionTime := 1040; failureTime := 1050;
     failureTimestamp := "2024-01-01T00:00:01.050Z" |}.

Definition freshWorld : World :=
  {| statistics := initialStatistics; ssaRequests := [];
     executorCalls := []; console := [] |}.

Definition okExecutor : ToolExecutor :=
  fun _ _ => Returned (JObject [("result", JString "success")]).


Definition allowDecision : SecurityDecision :=
  decisionFor "test-tool" "allow" "Tool is safe" Low None.

Definition denyDecision : SecurityDecision :=
  decisionFor "dangerous-tool" "deny" "Tool is too risky" Critical None.

Definition readRequest : ToolExecutionRequest :=
  {| req_agentId := "test-agent"; req_toolName := "file-read";
     req_parameters := JObject [("path", JString "/test.txt")];
     req_context := None |}.

Definition transformDecision : SecurityDecision :=
  decisionFor "file-write" "transform" "Convert to read-only" Medium
    (Some readRequest).

(** A transform decision that carries no rewritten request. *)
Definition bareTransformDecision : SecurityDecision :=
  decisionFor "file-write" "transform" "Convert to read-only" Medium None.

Definition unknownDecision : SecurityDecision :=
  decisionFor "test-tool" "unknown-action" "Unknown action" Medium None.

Definition param1 : JsValue := JObject [("param1", JString "value1")].

Definition writeParameters : JsValue :=
  JObject [("path", JString "/test.txt"); ("content", JString "data")].

End Examples.


Module Runs.
Import Config Client Examples.


(** A call with an empty parameter map. *)
Definition emptyParameters : Completion ToolExecutionResult * World :=
  executeTool testConfig (answering allowDecision) "test-tool" (JObject [])
    None (Some okExecutor) freshWorld.

(** A transform Decision without a rewritten request. *)
Definition transformWithoutRequest : Completion ToolExecutionResult * World :=
  executeTool testConfig (answering bareTransformDecision) "file-write"
    writeParameters None (Some okExecutor) freshWorld.

(** A call that fails input validation: the parameters are [null]. *)
Definition nullParameters : Completion ToolExecutionResult * World :=
  executeTool testConfig (answering allowDecision) "test-tool" JNull
    None (Some okExecutor) freshWorld.

Definition callWith (d : SecurityDecision) (toolName : string)
  (parameters : JsValue) : Call :=
  {| call_env := answering d; call_toolName := toolName;
     call_parameters := parameters; call_context := None;
     call_toolExecutor := Some okExecutor |}.

(** Five calls: allowed, denied, rejected by validation, transformed, and
    decided with an action outside the vocabulary. *)
Definition mixedCalls : list Call :=
  [ callWith allowDecision "test-tool" param1;
    callWith denyDecision "dangerous-tool" param1;
    callWith allowDecision "test-tool" JNull;
    callWith transformDecision "file-write" writeParameters;
    callWith unknownDecision "test-tool" (JObject []) ].

(** The statistics after [mixedCalls], from a fresh instance. *)
Definition afterMixedCalls : SDKStatistics :=
  statistics (executeAll testConfig mixedCalls freshWorld).

End Runs.
Import Runs.


Module BuilderRuns.
Import Policy Config Examples.

(** What holds of a builder however it was driven: a stored name or reason
    is a non-empty string, the reason is set together with the action, and
    a transform action comes with a transformation. *)
Definition builderInvariant (b : PolicyBuilder) : Prop :=
  let p := policy b in
  (forall n, name p = Some n -> truthy n = true)
  /\ (forall r, reason p = Some r -> truthy r = true)
  /\ isSome (reason p) = isSome (action p)
  /\ (isTransform (action p) = true -> isSome (transformation p) = true).

(** [createPolicy().name('guard-writes').whenToolName('*write*')
      .transformToReadOnly().allow()]: a transform action, then overridden. *)
Definition overriddenTransform : list BuilderCall :=
  [ name_ "guard-writes";
    whenToolName "*write*";
    transformToReadOnly None;
    allow None ].

(** The policy that [build()] returns after the calls [calls]. *)
Definition built (calls : list BuilderCall) : Completion SecurityPolicy :=
  andThen (chain createPolicy calls) build.

(** A configuration whose API key has the minimal accepted length. *)
Definition minimalKeyConfig : UserConfig :=
  {| u_apiKey := Some "0123456789";
     u_ssaUrl := Some "https://test-ssa.example.com";
     u_agentId := Some "test-agent";
     u_timeout := Omitted; u_retries := Omitted; u_debug := Omitted;
     u_headers := Omitted |}.

End BuilderRuns.
Import BuilderRuns.


(* ================================================================== *)
(** * Further validation utilities ([src/utils/validation.ts])         *)
(* ================================================================== *)

Module AgentValidation.

(** [/^[a-zA-Z0-9_-]+$/.test(s)]. *)
Definition matchesAgentIdPattern (s : string) : bool :=
  match s with
  | EmptyString => false
  | String _ _ => allChars isNameChar s
  end.

(** [validateAgentId], on a [string]. *)
Definition validateAgentId (agentId : string) : Completion unit :=
  if negb (truthy agentId) then
    Threw (validationError "Agent ID is required" INVALID_REQUEST None)
  else if (String.length (trim agentId) =? 0)%nat then
    Threw (validationError "Agent ID cannot be empty" INVALID_REQUEST None)
  else if negb (matchesAgentIdPattern agentId) then
    Threw (validationError
      "Agent ID can only contain letters, numbers, hyphens, and underscores"
      INVALID_REQUEST (Some [("agentId", DVString agentId)]))
  else if (100 <? String.length agentId)%nat then
    Threw (validationError "Agent ID cannot exceed 100 characters"
      INVALID_REQUEST
      (Some [("agentId", DVString agentId);
             ("length", DVNat (String.length agentId))]))
  else Returned tt.

(** [validateSecurityContext(context: unknown)]. *)
Definition validateSecurityContext (context : JsValue) : Completion unit :=
  match context with
  | JNull | JUndefined => Returned tt
  | JObject _ => Returned tt
  | _ =>
      Threw (validationError "Security context must be an object"
        INVALID_REQUEST
        (Some [("context", DVValue context);
               ("type", DVString (typeof context))]))
  end.

(** A value with nothing to redact: no [null] or [undefined] and no
    sensitive key, at any depth. *)
Fixpoint nothingToRedact (v : JsValue) : bool :=
  match v with
  | JNull | JUndefined => false
  | JArray items => forallb nothingToRedact items
  | JObject entries =>
      forallb (fun kv : string * JsValue =>
                 let (key, x) := kv in
                 negb (isSensitive key) && nothingToRedact x)
              entries
  | _ => true
  end.

End AgentValidation.
Import AgentValidation.


(* ================================================================== *)
(** * Configuration: updates ([src/config/Configuration.ts])           *)
(* ================================================================== *)

Module ConfigUpdate.
Import Config.

(** The argument of [update]: every property left out or written. *)
Record Updates : Type := {
  up_apiKey : Supplied string;
  up_ssaUrl : Supplied string;
  up_agentId : Supplied string;
  up_timeout : Supplied JsNumber;
  up_retries : Supplied JsNumber;
  up_debug : Supplied bool;
  up_headers : Supplied (list (string * string))
}.

(** [update({})]. *)
Definition noUpdates : Updates :=
  {| up_apiKey := Omitted; up_ssaUrl := Omitted; up_agentId := Omitted;
     up_timeout := Omitted; up_retries := Omitted; up_debug := Omitted;
     up_headers := Omitted |}.

(** [{ ...this.config, ...updates }]. *)
Definition merge (c : TealTigerConfig) (u : Updates) : TealTigerConfig :=
  {| apiKey := spread (apiKey c) (up_apiKey u);
     ssaUrl := spread (ssaUrl c) (up_ssaUrl u);
     agentId := spread (agentId c) (up_agentId u);
     timeout := spread (timeout c) (up_timeout u);
     retries := spread (retries c) (up_retries u);
     debug := spread (debug c) (up_debug u);
     headers := spread (headers c) (up_headers u) |}.

(** A stored configuration read as a constructor argument: the four
    properties that have defaults are always written in it. *)
Definition asUserConfig (c : TealTigerConfig) : UserConfig :=
  {| u_apiKey := apiKey c; u_ssaUrl := ssaUrl c; u_agentId := agentId c;
     u_timeout := Given (timeout c); u_retries := Given (retries c);
     u_debug := Given (debug c); u_headers := Given (headers c) |}.

Section Update.
Variable urlProtocol : string -> option string.
Variable timestamp : Z.
Variable random : string.

(** [update(updates)]: a new instance, built by the constructor. *)
Definition update (this : Configuration) (updates : Updates)
  : Completion Configuration :=
  construct urlProtocol timestamp random
    (asUserConfig (merge (config this) updates)).
End Update.

(** [getConfig()]: a copy of the stored configuration. *)
Definition getConfig (this : Configuration) : TealTigerConfig := config this.

(** A thrown [TealTigerConfigError]. *)
Definition isConfigError (t : Thrown) : bool :=
  match t with
  | ThrownError e =>
      match err_class e with TealTigerConfigError => true | _ => false end
  | ThrownValue _ => false
  end.

End ConfigUpdate.
Import ConfigUpdate.


(* ================================================================== *)
(** * Policy templates ([src/policy/PolicyBuilder.ts])                 *)
(* ================================================================== *)

Module Templates.
Import Policy.

(** [list.join(separator)]. *)
Fixpoint join (separator : string) (l : list string) : string :=
  match l with
  | [] => EmptyString
  | [x] => x
  | x :: rest => x ++ separator ++ join separator rest
  end.

(** [s.replace(pattern, replacement)] for a one-character string pattern:
    the first occurrence only. *)
Fixpoint replaceFirst (pattern : ascii) (replacement : string) (s : string)
  : string :=
  match s with
  | EmptyString => EmptyString
  | String c rest =>
      if Ascii.eqb c pattern then replacement ++ rest
      else String c (replaceFirst pattern replacement rest)
  end.

(** [createPolicy().m1(..)...mk(..).build()]. *)
Definition buildWith (calls : list BuilderCall) : Completion SecurityPolicy :=
  andThen (chain createPolicy calls) build.

(** [PolicyTemplates.allowLowRisk()]. *)
Definition allowLowRisk : Completion SecurityPolicy :=
  buildWith
    [ name_ "allow-low-risk";
      description_ "Allow all low-risk operations";
      whenRiskLevel "<=" Low;
      allow (Some "Low-risk operations are safe to execute") ].

(** [PolicyTemplates.denyCriticalRisk()]. *)
Definition denyCriticalRisk : Completion SecurityPolicy :=
  buildWith
    [ name_ "deny-critical-risk";
      description_ "Deny all critical-risk operations";
      whenRiskLevel ">=" Critical;
      deny (Some "Critical-risk operations are too dangerous") ].

(** [PolicyTemplates.allowSearchOperations()]. *)
Definition allowSearchOperations : Completion SecurityPolicy :=
  buildWith
    [ name_ "allow-search-operations";
      description_ "Allow web search and information retrieval";
      whenToolName "*search*";
      allow (Some "Search operations are generally safe") ].

(** [PolicyTemplates.denySystemCommands()]. *)
Definition denySystemCommands : Completion SecurityPolicy :=
  buildWith
    [ name_ "deny-system-commands";
      description_ "Block all system command execution";
      whenToolName "*system*";
      deny (Some "System commands pose security risks") ].

(** [PolicyTemplates.transformFileWrites()]. *)
Definition transformFileWrites : Completion SecurityPolicy :=
  buildWith
    [ name_ "transform-file-writes";
      description_ "Convert file write operations to read-only";
      whenToolName "*write*";
      transformToReadOnly (Some "File writes converted to reads for safety") ].

(** [PolicyTemplates.filterSensitiveData()]. *)
Definition filterSensitiveData : Completion SecurityPolicy :=
  buildWith
    [ name_ "filter-sensitive-data";
      description_ "Remove sensitive parameters from requests";
      whenParameterExists "password";
      transformFilterParameters ["password"; "token"; "secret"; "key"]
        (Some "Sensitive data filtered for security") ].

(** [PolicyTemplates.restrictAgentAccess(agentPattern, allowedTools)]. *)
Definition restrictAgentAccess (agentPattern : string)
  (allowedTools : list string) : Completion SecurityPolicy :=
  let toolPattern :=
    match allowedTools with
    | [tool] => tool
    | _ => "{" ++ join "," allowedTools ++ "}"
    end in
  buildWith
    [ name_ ("restrict-" ++ replaceFirst "*" "agents" agentPattern);
      description_ ("Restrict " ++ agentPattern ++ " agents to specific tools");
      whenAgentId agentPattern;
      whenToolName toolPattern;
      allow (Some ("Agent " ++ agentPattern ++ " allowed to use "
                   ++ join ", " allowedTools)) ].

(** An array literal whose elements are evaluated in order, the first throw
    ending the evaluation. *)
Fixpoint inOrder {A : Type} (l : list (Completion A)) : Completion (list A) :=
  match l with
  | [] => Returned []
  | c :: rest =>
      andThen c (fun x => andThen (inOrder rest) (fun xs => Returned (x :: xs)))
  end.

(** [PolicyTemplates.getDefaultPolicies()]. *)
Definition getDefaultPolicies : Completion (list SecurityPolicy) :=
  inOrder [ denyCriticalRisk; denySystemCommands; transformFileWrites;
            filterSensitiveData; allowSearchOperations; allowLowRisk ].

(** ** Readings of a builder call, to state what a chain leaves behind *)

Definition condition (t : PolicyConditionType) (pat op v param : option string)
  : PolicyCondition :=
  {| cond_type := t; pattern := pat; operator := op; value := v;
     parameter := param |}.

(** The condition a call appends, if it is one of the [when] methods. *)
Definition conditionOf (c : BuilderCall) : list PolicyCondition :=
  match c with
  | whenToolName pat => [condition tool_name (Some pat) None None None]
  | whenRiskLevel op level =>
      [condition risk_level None (Some op) (Some (riskLevelName level)) None]
  | whenAgentId pat => [condition agent_id (Some pat) None None None]
  | whenParameterExists param =>
      [condition parameter_exists None None None (Some param)]
  | whenParameterEquals param v =>
      [condition parameter_value None None (Some v) (Some param)]
  | whenCondition cond => [cond]
  | _ => []
  end.

(** The action a call sets, if it is one of the action methods. *)
Definition actionOf (c : BuilderCall) : option SecurityAction :=
  match c with
  | allow _ => Some Allow
  | deny _ => Some Deny
  | transformToReadOnly _ | transformFilterParameters _ _
  | transformAnonymizeParameters _ _ | transformWith _ _ => Some Transform
  | _ => None
  end.

(** The transformation a call sets, if it is one of the transform methods. *)
Definition transformationOf (c : BuilderCall) : option PolicyTransformation :=
  match c with
  | transformToReadOnly _ =>
      Some {| tr_type := read_only; remove_parameters := None;
              anonymize_parameters := None |}
  | transformFilterParameters ps _ =>
      Some {| tr_type := parameter_filter; remove_parameters := Some ps;
              anonymize_parameters := None |}
  | transformAnonymizeParameters ps _ =>
      Some {| tr_type := parameter_anonymize; remove_parameters := None;
              anonymize_parameters := Some ps |}
  | transformWith t _ => Some t
  | _ => None
  end.

(** The value set by the last call of [calls] that sets one, or [start]. *)
Definition lastSet {A : Type} (f : BuilderCall -> option A)
  (calls : list BuilderCall) (start : option A) : option A :=
  fold_left (fun acc c => match f c with Some x => Some x | None => acc end)
            calls start.

End Templates.
Import Templates.


(* ================================================================== *)
(** * The orchestrator: the other entry points                         *)
(* ================================================================== *)

Module ClientMore.
Import Config Client.
Local Open Scope effect_scope.

(** [evaluateTool(toolName, parameters, context)]: no [try], so whatever
    a stage throws propagates to the caller. *)
Definition evaluateTool (this : Configuration) (env : Environment)
  (toolName : string) (parameters : JsValue) (context : option SecurityContext)
  : M SecurityDecision :=
  lift (validateToolName toolName) ;;
  lift (validateToolParameters parameters) ;;
  let request :=
    {| req_agentId := getAgentId this; req_toolName := toolName;
       req_parameters := parameters; req_context := context |} in
  response <- callEvaluateSecurity this env request ;;
  if negb (resp_success response) then
    throw (validationError "Security evaluation failed" VALIDATION_ERROR
             (Some [("response", DVResponse response)]))
  else ret (decision response).

(** [getStatistics()]: a copy of the counters. *)
Definition getStatistics : M SDKStatistics :=
  fun w => (Returned (statistics w), w).

(** [resetStatistics()]. *)
Definition resetStatistics : M unit :=
  modifyStatistics
    (fun _ =>
       {| totalRequests := 0; allowedRequests := 0; deniedRequests := 0;
          transformedRequests := 0; averageResponseTime := 0%float;
          errorCount := 0 |}).

(** [getConfig()]: the safe view. *)
Definition getConfig (this : Configuration) : TealTigerConfig :=
  getSafeConfig this.

(** One use of an instance by its owner. *)
Inductive Operation : Type :=
| Execute (c : Call)
| Evaluate (c : Call)
| Reset.

Definition runOperation (this : Configuration) (op : Operation) (w : World)
  : World :=
  match op with
  | Execute c => snd (executeCall this c w)
  | Evaluate c =>
      snd (evaluateTool this (call_env c) (call_toolName c)
             (call_parameters c) (call_context c) w)
  | Reset => snd (resetStatistics w)
  end.

(** The world after the operations [ops], made one after the other. *)
Definition runOperations (this : Configuration) (ops : list Operation)
  (w : World) : World :=
  fold_left (fun w op => runOperation this op w) ops w.

(** The counters are consistent: none is negative and the per-action
    counters never add up to more than the total. *)
Definition countersConsistent (s : SDKStatistics) : Prop :=
  (0 <= allowedRequests s)%Z
  /\ (0 <= deniedRequests s)%Z
  /\ (0 <= transformedRequests s)%Z
  /\ (0 <= errorCount s)%Z
  /\ (allowedRequests s + deniedRequests s + transformedRequests s
      <= totalRequests s)%Z.

(** Whether both input validations of a call pass. *)
Definition inputsValid (c : Call) : bool :=
  doesNotThrow (validateToolName (call_toolName c))
  && doesNotThrow (validateToolParameters (call_parameters c)).

(** [headers[name]]. *)
Definition header (name : string) (headers : list (string * string))
  : option string :=
  option_map snd (find (fun kv => String.eqb (fst kv) name) headers).

End ClientMore.
Import ClientMore.


(* ================================================================== *)
(** * Error factory ([src/utils/errors.ts])                            *)
(* ================================================================== *)

Module ErrorFactory.

(** [new Class(message, code, details)] for one of the error classes. *)
Definition newError (cls : ErrorClass) (message code : string)
  (details : option Details) : JsError :=
  {| err_class := cls; err_message := message; err_code := Some code;
     err_details := details |}.

(** The default value of the [code] parameter of each subclass
    constructor; the base class has none. *)
Definition defaultCode (cls : ErrorClass) : option TealTigerErrorCode :=
  match cls with
  | TealTigerConfigError => Some INVALID_CONFIG
  | TealTigerNetworkError => Some NETWORK_ERROR
  | TealTigerServerError => Some SERVER_ERROR
  | TealTigerSecurityError => Some SECURITY_DENIED
  | TealTigerValidationError => Some VALIDATION_ERROR
  | TealTigerAuthError => Some AUTHENTICATION_ERROR
  | BaseTealTigerError | BuiltinError => None
  end.

Definition isCode (code : string) (c : TealTigerErrorCode) : bool :=
  String.eqb code (codeString c).

(** The [switch (code)] of [createTealTigerError], on the string that the
    code is at run time. *)
Definition classFor (code : string) : ErrorClass :=
  if isCode code INVALID_CONFIG || isCode code MISSING_API_KEY
     || isCode code INVALID_SSA_URL then TealTigerConfigError
  else if isCode code NETWORK_ERROR || isCode code TIMEOUT_ERROR
          || isCode code CONNECTION_ERROR then TealTigerNetworkError
  else if isCode code AUTHENTICATION_ERROR
          || isCode code INVALID_API_KEY_FORMAT then TealTigerAuthError
  else if isCode code INVALID_REQUEST || isCode code VALIDATION_ERROR
       then TealTigerValidationError
  else if isCode code SERVER_ERROR || isCode code SERVICE_UNAVAILABLE
       then TealTigerServerError
  else if isCode code SECURITY_DENIED || isCode code POLICY_ERROR
       then TealTigerSecurityError
  else BaseTealTigerError.

(** [createTealTigerError(message, code, details)]. *)
Definition createTealTigerError (message code : string)
  (details : option Details) : JsError :=
  newError (classFor code) message code details.

(** [isTealTigerError(error)]: [error instanceof BaseTealTigerError]. *)
Definition isTealTigerError (error : Thrown) : bool :=
  match error with
  | ThrownError e =>
      match err_class e with BuiltinError => false | _ => true end
  | ThrownValue _ => false
  end.

End ErrorFactory.
Import ErrorFactory.

(* ================================================================== *)
(** * The transport ([src/client/SSAClient.ts])                        *)
(* ================================================================== *)

Module SSA.

(** [error.response] of an [AxiosError]. *)
Record HttpResponseInfo : Type := {
  status : nat;
  statusText : string;
  body : JsValue
}.

(** The fields of an [AxiosError] that the client reads. *)
Record AxiosError : Type := {
  ax_code : option string;
  ax_response : option HttpResponseInfo;
  ax_message : string
}.

(** [error.code === name]. *)
Definition codeIs (error : AxiosError) (name : string) : bool :=
  match ax_code error with
  | Some c => String.eqb c name
  | None => false
  end.

(** A string property that may be [undefined]. *)
Definition stringDetail (s : option string) : DetailValue :=
  match s with Some x => DVString x | None => DVValue JUndefined end.

(** A number property that may be [undefined]. *)
Definition numberDetail (n : option JsNumber) : DetailValue :=
  match n with Some x => DVNumber x | None => DVValue JUndefined end.

(** [handleHttpError(error)].  The client is built from a validated
    configuration, whose [apiKey] is a string. *)
Definition handleHttpError (config : TealTigerConfig) (error : AxiosError)
  : JsError :=
  if codeIs error "ECONNREFUSED" || codeIs error "ENOTFOUND" then
    newError TealTigerNetworkError "Unable to connect to Security Sidecar Agent"
      (codeString CONNECTION_ERROR)
      (Some [("ssaUrl", stringDetail (ssaUrl config));
             ("originalError", DVString (ax_message error))])
  else if codeIs error "ECONNABORTED" then
    newError TealTigerNetworkError "Request timeout"
      (codeString TIMEOUT_ERROR)
      (Some [("timeout", numberDetail (timeout config));
             ("originalError", DVString (ax_message error))])
  else
    match ax_response error with
    | Some response =>
        if (status response =? 401)%nat then
          newError TealTigerConfigError
            "Authentication failed - invalid API key"
            (codeString AUTHENTICATION_ERROR)
            (Some [("apiKey",
                    DVString (substring 0 10 (orEmpty (apiKey config)) ++ "..."));
                   ("response", DVValue (body response))])
        else if (status response =? 400)%nat then
          newError TealTigerConfigError "Invalid request format"
            (codeString VALIDATION_ERROR)
            (Some [("response", DVValue (body response))])
        else if (500 <=? status response)%nat then
          newError TealTigerServerError "Security Sidecar Agent server error"
            (codeString SERVER_ERROR)
            (Some [("status", DVNat (status response));
                   ("response", DVValue (body response))])
        else
          newError TealTigerNetworkError
            ("HTTP " ++ natToString (status response) ++ ": "
             ++ statusText response)
            (codeString NETWORK_ERROR)
            (Some [("status", DVNat (status response));
                   ("response", DVValue (body response))])
    | None =>
        newError TealTigerNetworkError "Network error occurred"
          (codeString NETWORK_ERROR)
          (Some [("originalError", DVString (ax_message error))])
    end.

(** What a [catch] of the client can hold: something thrown, or a raw
    [AxiosError] that no interceptor has converted. *)
Inductive Caught : Type :=
| CaughtThrown (t : Thrown)
| CaughtAxios (e : AxiosError).

Section HandleError.
(** How a caught value is stored under [originalError] in a [details]
    object (in JavaScript, the value itself). *)
Variable originalError : Caught -> DetailValue.
Variable config : TealTigerConfig.

(** [handleError(error, context)]. *)
Definition handleError (error : Caught) (context : string) : JsError :=
  match error with
  | CaughtThrown (ThrownError e) =>
      match err_code e with
      | Some _ => e
      | None =>
          newError TealTigerNetworkError (context ++ ": " ++ err_message e)
            (codeString NETWORK_ERROR)
            (Some [("context", DVString context);
                   ("originalError", originalError error)])
      end
  | CaughtAxios e =>
      match ax_code e with
      | Some c =>
          {| err_class := BuiltinError; err_message := ax_message e;
             err_code := Some c; err_details := None |}
      | None => handleHttpError config e
      end
  | CaughtThrown (ThrownValue _) =>
      newError TealTigerNetworkError (context ++ ": " ++ "Unknown error")
        (codeString NETWORK_ERROR)
        (Some [("context", DVString context);
               ("originalError", originalError error)])
  end.

(** How the HTTP layer answers a request: a response, with its status, its
    status text and its body, or a failure. *)
Inductive HttpOutcome (A : Type) : Type :=
| Responded (status : nat) (statusText : string) (data : A)
| Failed (e : AxiosError).

(** The response interceptor's error handler:
    [Promise.reject(this.handleHttpError(error))]. *)
Definition intercept (e : AxiosError) : Caught :=
  CaughtThrown (ThrownError (handleHttpError config e)).

(** [evaluateSecurity(request)], over an HTTP layer [post]. *)
Definition evaluateSecurity
  (post : string -> ToolExecutionRequest
          -> HttpOutcome SecurityEvaluationResponse)
  (request : ToolExecutionRequest) : Completion SecurityEvaluationResponse :=
  match post "/api/security/evaluate" request with
  | Responded _ _ _ data => Returned data
  | Failed _ e =>
      Threw (ThrownError
               (handleError (intercept e) "Security evaluation failed"))
  end.
End HandleError.

Arguments Responded {A} status statusText data.
Arguments Failed {A} e.

(** The six codes that [handleHttpError] uses. *)
Definition transportCodes : list TealTigerErrorCode :=
  [CONNECTION_ERROR; TIMEOUT_ERROR; AUTHENTICATION_ERROR; VALIDATION_ERROR;
   SERVER_ERROR; NETWORK_ERROR].

(** An environment whose transport is the client over the HTTP layer
    [post]. *)
Definition environmentOver (originalError : Caught -> DetailValue)
  (config : TealTigerConfig)
  (post : string -> ToolExecutionRequest
          -> HttpOutcome SecurityEvaluationResponse)
  (started decided failed : Z) (failedAt : string) : Client.Environment :=
  {| Client.evaluateSecurity := evaluateSecurity originalError config post;
     Client.responseLine := fun request =>
       match post "/api/security/evaluate" request with
       | Responded status statusText _ =>
           natToString status ++ " " ++ statusText
       | Failed e => ax_message e
       end;
     Client.startTime := started; Client.decisionTime := decided;
     Client.failureTime := failed; Client.failureTimestamp := failedAt |}.

End SSA.


(* ================================================================== *)
(** * Concrete HTTP failures                                           *)
(* ================================================================== *)

Module TransportExamples.
Import SSA.

Definition refusedConnection : AxiosError :=
  {| ax_code := Some "ECONNREFUSED"; ax_response := None;
     ax_message := "connect ECONNREFUSED 127.0.0.1:443" |}.

(** An HTTP layer on which every request is refused. *)
Definition refusingHttp (path : string) (request : ToolExecutionRequest)
  : HttpOutcome SecurityEvaluationResponse :=
  Failed refusedConnection.

End TransportExamples.

(* ================================================================== *)
(** * Azure OpenAI adapter: [createChatCompletion]                     *)
(* ================================================================== *)

Module AzureClient.
Import Azure Templates.

Inductive Role : Type := system | user | assistant | function_.

(** One element of [request.messages]. *)
Record ChatMessage : Type := { role : Role; content : string }.

(** [AzureChatCompletionRequest]: the fields the adapter reads.  The
    sampling options are neither read nor changed by it. *)
Record Request : Type := {
  deployment : string;
  messages : list ChatMessage;
  max_tokens : option nat
}.

Record Choice : Type := {
  index : nat;
  message_role : string;
  message_content : string;
  finish_reason : string
}.

Record Usage : Type := {
  prompt_tokens : nat;
  completion_tokens : nat;
  total_tokens : nat
}.

(** The token-usage shape handed to the cost tracker. *)
Record TokenUsage : Type := {
  inputTokens : nat;
  outputTokens : nat;
  totalTokens : nat
}.

(** Modelled from the spec: the guardrail module is not among the sources.
    The result of [GuardrailEngine.execute(text)], with the members the
    adapter reads: [passed], [maxRiskScore] and [getFailedGuardrails()]. *)
Record GuardrailEngineResult : Type := {
  passed : bool;
  maxRiskScore : JsNumber;
  getFailedGuardrails : list string
}.

(** Modelled from the spec: the cost module is not among the sources.  The
    limit rule that blocked a spend, [budgetCheck.blockedBy]. *)
Record BudgetLimit : Type := { limit_name : string; limit : JsNumber }.

(** The result of [BudgetManager.checkBudget(agentId, amount)]. *)
Record BudgetEnforcementResult : Type := {
  allowed : bool;
  blockedBy : option BudgetLimit
}.

#[local] Set Implicit Arguments.

Section Adapter.
(** The monetary amount of an estimate, and the cost record, as the cost
    module defines them. *)
Variable Cost : Type.
Variable CostRecord : Type.
(** Template interpolation of a number. *)
Variable numberToString : JsNumber -> string.

(** The injected collaborators, each by what it answers to a call. *)
Record GuardrailEngine : Type := {
  execute : string -> Completion GuardrailEngineResult
}.

Record CostTracker : Type := {
  estimateCost : string -> TokenUsage -> string -> Completion Cost;
  calculateActualCost :
    string -> string -> string -> TokenUsage -> string -> Completion CostRecord
}.

Record BudgetManager : Type := {
  checkBudget : string -> Cost -> Completion BudgetEnforcementResult;
  recordCost : CostRecord -> Completion unit
}.

Record CostStorage : Type := {
  store : CostRecord -> Completion unit
}.

(** [response.security]. *)
Record Security : Type := {
  guardrailResult : option GuardrailEngineResult;
  costRecord : option CostRecord;
  budgetCheck : option BudgetEnforcementResult
}.

(** [AzureChatCompletionResponse]. *)
Record Response : Type := {
  r_id : string;
  r_object : string;
  r_created : Z;
  r_model : string;
  r_choices : list Choice;
  r_usage : option Usage;
  r_security : option Security
}.

(** An instance of [class TealAzureOpenAI]: the flags and agent id of its
    [config], and its four component fields. *)
Record TealAzureOpenAI : Type := {
  agentId : option string;
  enableGuardrails : option bool;
  enableCostTracking : option bool;
  guardrailEngine : option GuardrailEngine;
  costTracker : option CostTracker;
  budgetManager : option BudgetManager;
  costStorage : option CostStorage
}.

(** What a call reads from outside: the two readings of [generateId()]
    and [Date.now()]. *)
Record Surroundings : Type := {
  requestId : string;
  responseId : string;
  now : Z
}.

(** The calls the adapter makes, in the order it makes them. *)
Inductive Event : Type :=
| GuardrailRun (text : string)
| CostEstimated (model : string) (usage : TokenUsage) (provider : string)
| BudgetChecked (agent : string) (amount : Cost)
| ProviderCalled (request : Request)
| CostCalculated (request_id agent model : string) (usage : TokenUsage)
    (provider : string)
| CostStored (record : CostRecord)
| CostRecorded (record : CostRecord).

(** State passing over the trace of calls, with exceptions. *)
Definition Eff (A : Type) : Type := list Event -> Completion A * list Event.

Definition pure {A : Type} (a : A) : Eff A := fun tr => (Returned a, tr).

Definition raise {A : Type} (t : Thrown) : Eff A := fun tr => (Threw t, tr).

Definition andThenEff {A B : Type} (m : Eff A) (k : A -> Eff B) : Eff B :=
  fun tr =>
    match m tr with
    | (Returned a, tr') => k a tr'
    | (Threw t, tr') => (Threw t, tr')
    end.

(** A call to a collaborator: it is recorded, then it answers. *)
Definition perform {A : Type} (e : Event) (answer : Completion A) : Eff A :=
  fun tr => (answer, (tr ++ [e])%list).

Definition catching {A : Type} (body : Eff A) (handler : Thrown -> Eff A)
  : Eff A :=
  fun tr =>
    match body tr with
    | (Returned a, tr') => (Returned a, tr')
    | (Threw t, tr') => handler t tr'
    end.

(** [new Error(message)]. *)
Definition plainError (message : string) : Thrown :=
  ThrownError {| err_class := BuiltinError; err_message := message;
                 err_code := None; err_details := None |}.

(** A flag of the configuration, as a condition. *)
Definition enabled (flag : option bool) : bool :=
  match flag with Some b => b | None => false end.

(** [this.config.enableGuardrails && this.guardrailEngine]. *)
Definition activeGuardrails (this : TealAzureOpenAI) : option GuardrailEngine :=
  if enabled (enableGuardrails this) then guardrailEngine this else None.

(** [this.config.enableCostTracking && this.costTracker]. *)
Definition activeCostTracker (this : TealAzureOpenAI) : option CostTracker :=
  if enabled (enableCostTracking this) then costTracker this else None.

(** [this.config.agentId || 'default-agent']. *)
Definition agentOf (this : TealAzureOpenAI) : string :=
  if truthy (orEmpty (agentId this)) then orEmpty (agentId this)
  else "default-agent".

Definition isUser (m : ChatMessage) : bool :=
  match role m with user => true | _ => false end.

Definition newline : string := String (ascii_of_nat 10) EmptyString.

(** The text of the user messages, one per line. *)
Definition userText (request : Request) : string :=
  join newline (map content (filter isUser (messages request))).

(** The text of all the messages, one per line. *)
Definition inputText (request : Request) : string :=
  join newline (map content (messages request)).

(** The token estimate of step 2: four characters a token, rounded up, and
    [request.max_tokens || 500] output tokens. *)
Definition estimatedUsage (request : Request) : TokenUsage :=
  let estimatedInputTokens := ((String.length (inputText request) + 3) / 4)%nat in
  let estimatedOutputTokens :=
    match max_tokens request with
    | Some (S n) => S n
    | _ => 500%nat
    end in
  {| inputTokens := estimatedInputTokens;
     outputTokens := estimatedOutputTokens;
     totalTokens := (estimatedInputTokens + estimatedOutputTokens)%nat |}.

(** [`${budgetCheck.blockedBy?.name}`] and [`${budgetCheck.blockedBy?.limit}`]. *)
Definition blockedName (check : BudgetEnforcementResult) : string :=
  match blockedBy check with
  | Some rule => limit_name rule
  | None => "undefined"
  end.

Definition blockedLimit (check : BudgetEnforcementResult) : string :=
  match blockedBy check with
  | Some rule => numberToString (limit rule)
  | None => "undefined"
  end.

(** Step 1: guardrails on the input. *)
Definition inputGuardrails (this : TealAzureOpenAI) (request : Request)
  : Eff (option GuardrailEngineResult) :=
  match activeGuardrails this with
  | Some engine =>
      let userMessages := userText request in
      andThenEff
        (perform (GuardrailRun userMessages) (execute engine userMessages))
        (fun result =>
           if negb (passed result) then
             raise (plainError
               ("Guardrail check failed: "
                ++ join ", " (getFailedGuardrails result)
                ++ " (Risk: " ++ numberToString (maxRiskScore result) ++ ")"))
           else pure (Some result))
  | None => pure None
  end.

(** Step 2: the estimate and the budget gate. *)
Definition budgetGate (this : TealAzureOpenAI) (request : Request)
  : Eff (option BudgetEnforcementResult) :=
  match activeCostTracker this with
  | Some tracker =>
      let model := mapDeploymentToModel (deployment request) in
      let usage := estimatedUsage request in
      andThenEff
        (perform (CostEstimated model usage "openai")
                 (estimateCost tracker model usage "openai"))
        (fun estimatedCost =>
           match budgetManager this with
           | Some manager =>
               andThenEff
                 (perform (BudgetChecked (agentOf this) estimatedCost)
                          (checkBudget manager (agentOf this) estimatedCost))
                 (fun check =>
                    if negb (allowed check) then
                      raise (plainError
                        ("Budget exceeded: " ++ blockedName check
                         ++ " (Limit: " ++ blockedLimit check ++ ")"))
                    else pure (Some check))
           | None => pure None
           end)
  | None => pure None
  end.

(** The [mockResponse] that [callAzureOpenAI] builds. *)
Definition mockResponse (sur : Surroundings) (request : Request) : Response :=
  {| r_id := "chatcmpl-" ++ responseId sur;
     r_object := "chat.completion";
     r_created := (now sur / 1000)%Z;
     r_model := deployment request;
     r_choices :=
       [{| index := 0; message_role := "assistant";
           message_content := "This is a mock response from TealAzureOpenAI.";
           finish_reason := "stop" |}];
     r_usage := Some {| prompt_tokens := 50; completion_tokens := 10;
                        total_tokens := 60 |};
     r_security := None |}.

(** [callAzureOpenAI(request)], the placeholder the source ships. *)
Definition callAzureOpenAI (sur : Surroundings) (request : Request)
  : Eff Response :=
  perform (ProviderCalled request) (Returned (mockResponse sur request)).

(** [response.choices[0]?.message?.content || '']. *)
Definition assistantText (response : Response) : string :=
  match r_choices response with
  | first :: _ => message_content first
  | [] => EmptyString
  end.

(** Step 4: guardrails on the output. *)
Definition outputGuardrails (this : TealAzureOpenAI) (response : Response)
  : Eff unit :=
  match activeGuardrails this with
  | Some engine =>
      let assistantMessage := assistantText response in
      andThenEff
        (perform (GuardrailRun assistantMessage)
                 (execute engine assistantMessage))
        (fun result =>
           if negb (passed result) then
             raise (plainError
               ("Output guardrail check failed: "
                ++ join ", " (getFailedGuardrails result)))
           else pure tt)
  | None => pure tt
  end.

(** Step 5: the actual cost, its storage and its recording. *)
Definition trackCost (this : TealAzureOpenAI) (sur : Surroundings)
  (request : Request) (response : Response) : Eff (option CostRecord) :=
  match activeCostTracker this, r_usage response with
  | Some tracker, Some usage =>
      let model := mapDeploymentToModel (deployment request) in
      let actual :=
        {| inputTokens := prompt_tokens usage;
           outputTokens := completion_tokens usage;
           totalTokens := total_tokens usage |} in
      andThenEff
        (perform
           (CostCalculated (requestId sur) (agentOf this) model actual "openai")
           (calculateActualCost tracker (requestId sur) (agentOf this) model
              actual "openai"))
        (fun record =>
           andThenEff
             (match costStorage this with
              | Some storage => perform (CostStored record) (store storage record)
              | None => pure tt
              end)
             (fun _ =>
                andThenEff
                  (match budgetManager this with
                   | Some manager =>
                       perform (CostRecorded record) (recordCost manager record)
                   | None => pure tt
                   end)
                  (fun _ => pure (Some record))))
  | _, _ => pure None
  end.

(** [{ ...response, security }]. *)
Definition withSecurity (response : Response) (security : Security)
  : Response :=
  {| r_id := r_id response; r_object := r_object response;
     r_created := r_created response; r_model := r_model response;
     r_choices := r_choices response; r_usage := r_usage response;
     r_security := Some security |}.

(** The [catch] block: an [Error] is replaced by a new plain [Error] with
    a prefixed message, anything else is thrown again. *)
Definition rethrow (error : Thrown) : Eff Response :=
  match error with
  | ThrownError e =>
      raise (plainError ("TealAzureOpenAI error: " ++ err_message e))
  | ThrownValue _ => raise error
  end.

(** [createChatCompletion(request)]. *)
Definition createChatCompletion (this : TealAzureOpenAI) (sur : Surroundings)
  (request : Request) : Eff Response :=
  catching
    (andThenEff (inputGuardrails this request) (fun guardrail =>
     andThenEff (budgetGate this request) (fun budget =>
     andThenEff (callAzureOpenAI sur request) (fun response =>
     andThenEff (outputGuardrails this response) (fun _ =>
     andThenEff (trackCost this sur request response) (fun record =>
     pure (withSecurity response
             {| guardrailResult := guardrail; costRecord := record;
                budgetCheck := budget |})))))))
    rethrow.

(** Whether a trace holds a call to the provider. *)
Definition callsProvider (tr : list Event) : bool :=
  existsb (fun e => match e with ProviderCalled _ => true | _ => false end) tr.

(** The requests a trace hands to the provider. *)
Fixpoint providerRequests (tr : list Event) : list Request :=
  match tr with
  | [] => []
  | ProviderCalled request :: rest => request :: providerRequests rest
  | _ :: rest => providerRequests rest
  end.

(** Whether a trace holds a storage or a recording of a cost. *)
Definition persistsCost (tr : list Event) : bool :=
  existsb (fun e => match e with
                    | CostStored _ | CostRecorded _ => true
                    | _ => false
                    end) tr.
End Adapter.

#[local] Unset Implicit Arguments.

Arguments mockResponse {CostRecord} sur request.
Arguments GuardrailRun {Cost CostRecord} text.
Arguments CostEstimated {Cost CostRecord} model usage provider.
Arguments BudgetChecked {Cost CostRecord} agent amount.
Arguments ProviderCalled {Cost CostRecord} request.
Arguments CostCalculated {Cost CostRecord} request_id agent model usage provider.
Arguments CostStored {Cost CostRecord} record.
Arguments CostRecorded {Cost CostRecord} record.

End AzureClient.


(* ================================================================== *)
(** * Concrete adapters                                                *)
(* ================================================================== *)

Module AzureExamples.
Import AzureClient.

(** Rendering of the integral numbers the examples use. *)
Definition renderNumber (n : JsNumber) : string :=
  match n with
  | Finite q => NilZero.string_of_int (Z.to_int (Qnum q / Zpos (Qden q)))
  | NaN => "NaN"
  | PosInfinity => "Infinity"
  | NegInfinity => "-Infinity"
  end.

(** Costs in whole cents; a record keeps the request id, the agent, the
    model and the tokens it was computed from. *)
Definition Cents : Type := Z.
Definition Record_ : Type := (string * string * string * nat)%type.

Definition blockingEngine : GuardrailEngine :=
  {| execute := fun _ =>
       Returned {| passed := false; maxRiskScore := Finite 95;
                   getFailedGuardrails := ["pii-detection"; "prompt-injection"] |} |}.

Definition passingResult : GuardrailEngineResult :=
  {| passed := true; maxRiskScore := Finite 0; getFailedGuardrails := [] |}.

Definition passingEngine : GuardrailEngine :=
  {| execute := fun _ => Returned passingResult |}.

Definition tracker : CostTracker Cents Record_ :=
  {| estimateCost := fun _ usage _ => Returned (Z.of_nat (totalTokens usage));
     calculateActualCost := fun request_id agent model usage _ =>
       Returned (request_id, agent, model, totalTokens usage) |}.

Definition dailyLimit : BudgetEnforcementResult :=
  {| allowed := false;
     blockedBy := Some {| limit_name := "daily"; limit := Finite 10 |} |}.

Definition withinBudget : BudgetEnforcementResult :=
  {| allowed := true; blockedBy := None |}.

Definition exhaustedBudget : BudgetManager Cents Record_ :=
  {| checkBudget := fun _ _ => Returned dailyLimit;
     recordCost := fun _ => Returned tt |}.

Definition openBudget : BudgetManager Cents Record_ :=
  {| checkBudget := fun _ _ => Returned withinBudget;
     recordCost := fun _ => Returned tt |}.

Definition storage : CostStorage Record_ :=
  {| store := fun _ => Returned tt |}.

Definition guardedClient (engine : GuardrailEngine)
  (manager : BudgetManager Cents Record_) : TealAzureOpenAI Cents Record_ :=
  {| agentId := Some "agent-7"; enableGuardrails := Some true;
     enableCostTracking := Some true; guardrailEngine := Some engine;
     costTracker := Some tracker; budgetManager := Some manager;
     costStorage := Some storage |}.

(** A client with no components: both flags keep their default. *)
Definition bareClient : TealAzureOpenAI Cents Record_ :=
  {| agentId := None; enableGuardrails := Some true;
     enableCostTracking := Some true; guardrailEngine := None;
     costTracker := None; budgetManager := None; costStorage := None |}.

Definition greeting : Request :=
  {| deployment := "prod-GPT-4-Turbo";
     messages := [ {| role := system; content := "You are helpful." |};
                   {| role := user; content := "Hello" |} ];
     max_tokens := None |}.

Definition surroundings : Surroundings :=
  {| requestId := "req-1"; responseId := "resp-1"; now := 1700000000123 |}.

End AzureExamples.


(* ================================================================== *)
(** * Facts about the string primitives                                *)
(* ================================================================== *)

Module JsFacts.

Lemma prefix_app (p s : string) : String.prefix p (p ++ s) = true.
Proof.
  induction p as [|c p IH]; simpl.
  - destruct s; reflexivity.
  - destruct (ascii_dec c c) as [_|n]; [exact IH | now elim n].
Qed.

Lemma prefix_split (p s : string) :
  String.prefix p s = true -> exists rest, s = p ++ rest.
Proof.
  revert s; induction p as [|c p IH]; intros s H.
  - exists s; reflexivity.
  - destruct s as [|d s]; simpl in H; [discriminate|].
    destruct (ascii_dec c d) as [->|]; [|discriminate].
    destruct (IH _ H) as [rest ->]. exists rest; reflexivity.
Qed.

(** [includes] is the substring relation. *)
Lemma includes_spec (s pat : string) :
  includes s pat = true <-> exists before after, s = before ++ pat ++ after.
Proof.
  split.
  - induction s as [|c s IH]; cbn [includes]; intros H.
    + rewrite orb_false_r in H. apply prefix_split in H as [rest ->].
      exists EmptyString, rest; reflexivity.
    + apply orb_true_iff in H as [H|H].
      * apply prefix_split in H as [rest E]. rewrite E.
        exists EmptyString, rest; reflexivity.
      * destruct (IH H) as (before & after & ->).
        exists (String c before), after; reflexivity.
  - intros (before & after & ->).
    induction before as [|c before IH].
    + change (EmptyString ++ pat ++ after) with (pat ++ after).
      destruct (pat ++ after) eqn:E; cbn [includes];
        rewrite <- E, prefix_app; reflexivity.
    + change (String c before ++ pat ++ after)
        with (String c (before ++ pat ++ after)).
      cbn [includes]. rewrite IH. apply orb_true_r.
Qed.

Lemma append_empty_r (s : string) : s ++ EmptyString = s.
Proof. induction s; simpl; congruence. Qed.

Lemma includes_app_r (a b : string) : includes (a ++ b) b = true.
Proof.
  apply includes_spec. exists a, EmptyString.
  now rewrite append_empty_r.
Qed.

Lemma length_append (a b : string) :
  String.length (a ++ b) = (String.length a + String.length b)%nat.
Proof. induction a; simpl; congruence. Qed.

Lemma substring_all (s : string) (n : nat) :
  (String.length s <= n)%nat -> substring 0 n s = s.
Proof.
  revert n; induction s as [|c s IH]; intros [|n] H; simpl in *;
    try reflexivity; try lia.
  f_equal. apply IH. lia.
Qed.

Lemma length_substring (s : string) (n : nat) :
  (n <= String.length s)%nat -> String.length (substring 0 n s) = n.
Proof.
  revert n; induction s as [|c s IH]; intros [|n] H; simpl in *;
    try reflexivity; try lia.
  f_equal. apply IH. lia.
Qed.

End JsFacts.

(* ================================================================== *)
(** * The embedding agrees with the repository's unit tests            *)
(* ================================================================== *)

Module UnitTests.
Import Config Policy Client Examples.

(** [validateToolName]: "should accept valid tool names". *)
Example validateToolName_accepts :
  forallb (fun n => doesNotThrow (validateToolName n))
    ["web-search"; "file-read"; "database-query"; "api-call"; "system-info";
     "tool_with_underscores"; "tool123"; "UPPERCASE-TOOL"] = true.
Proof. reflexivity. Qed.

(** [validateToolName]: empty names, invalid characters, too long, leading
    digit, doubled separators. *)
Example validateToolName_rejects :
  forallb (fun n => throwsInvalidRequest (validateToolName n))
    [EmptyString; "   "; "tool with spaces"; "tool@special"; "tool#hash";
     "tool(parenthesis)"; "tool/slash"; "tool+plus"; "tool=equals";
     repeatChar "a" 101; "123-tool"; "tool--name"; "tool__name"] = true.
Proof. reflexivity. Qed.

(** [validateToolParameters]: "should accept valid parameter objects". *)
Example validateToolParameters_accepts :
  forallb (fun p => doesNotThrow (validateToolParameters p))
    [ JObject [];
      JObject [("param1", JString "value1")];
      JObject [("param1", JString "value1"); ("param2", JNumber (Finite 123))];
      JObject [("param1", JBool true); ("param2", JNull)];
      JObject [("nested", JObject [("key", JString "value")])];
      JObject [("array", JArray [JNumber (Finite 1); JNumber (Finite 2);
                                 JNumber (Finite 3)])] ] = true.
Proof. reflexivity. Qed.

(** [validateToolParameters]: null, undefined, non-objects, function and
    symbol values. *)
Example validateToolParameters_rejects :
  forallb (fun p => throwsInvalidRequest (validateToolParameters p))
    [ JNull; JUndefined; JString "string"; JNumber (Finite 123); JBool true;
      JArray []; JFunction;
      JObject [("validParam", JString "value"); ("invalidParam", JFunction)];
      JObject [("validParam", JString "value"); ("invalidParam", JSymbol)] ]
  = true.
Proof. reflexivity. Qed.

(** The path reported for a nested function value. *)
Example checkValue_path :
  validateToolParameters
    (JObject [("a", JObject [("list", JArray [JNull; JFunction])])])
  = Threw (validationError
      "Tool parameters cannot contain functions at path: a.list[1]"
      INVALID_REQUEST
      (Some [("path", DVString "a.list[1]"); ("type", DVString "function")])).
Proof. reflexivity. Qed.

(** [sanitizeParameters]: "should remove sensitive parameters". *)
Example sanitizeParameters_sensitive :
  sanitizeParameters
    [("username", JString "user123"); ("password", JString "secret123");
     ("token", JString "auth-token"); ("apiKey", JString "api-key-123");
     ("secret", JString "secret-value"); ("key", JString "encryption-key");
     ("credential", JString "credential-value");
     ("normalParam", JString "normal-value")]
  = [("username", JString "user123"); ("password", REDACTED);
     ("token", REDACTED); ("apiKey", REDACTED); ("secret", REDACTED);
     ("key", REDACTED); ("credential", REDACTED);
     ("normalParam", JString "normal-value")].
Proof. reflexivity. Qed.

(** [sanitizeParameters]: "should handle arrays" and nested objects. *)
Example sanitizeParameters_nested :
  sanitizeParameters
    [("items", JArray [JObject [("password", JString "secret1");
                                ("name", JString "item1")];
                       JObject [("password", JString "secret2");
                                ("name", JString "item2")]]);
     ("config", JObject [("PASSWORD", JString "secret");
                         ("setting", JString "value")])]
  = [("items", JArray [JObject [("password", REDACTED);
                                ("name", JString "item1")];
                       JObject [("password", REDACTED);
                                ("name", JString "item2")]]);
     ("config", JObject [("PASSWORD", REDACTED);
                         ("setting", JString "value")])].
Proof. reflexivity. Qed.

(** A null under a key that is not sensitive is redacted as well. *)
Example sanitizeParameters_null :
  sanitizeParameters
    [("password", JNull); ("token", JUndefined); ("note", JNull);
     ("normalParam", JString "value")]
  = [("password", REDACTED); ("token", REDACTED); ("note", REDACTED);
     ("normalParam", JString "value")].
Proof. reflexivity. Qed.

(** [sanitizeConfig]: the four keys of its tests. *)
Example sanitizeConfig_keys :
  map (fun key =>
         apiKey (sanitizeConfig
           {| apiKey := Some key;
              ssaUrl := Some "https://test-ssa.example.com";
              agentId := None; timeout := None; retries := None;
              debug := None; headers := None |}))
      ["very-long-secret-api-key-12345"; "short"; "test-api-key";
       "secret-api-key"]
  = [Some "very-long-..."; Some "short..."; Some "test-api-k...";
     Some "secret-ap..."].
Proof. reflexivity. Qed.

(** [getSafeConfig]: "should return configuration without sensitive data". *)
Example getSafeConfig_test :
  match construct schemeOf 1700000000000 "k3x9ab"
          {| u_apiKey := Some "very-secret-api-key-12345";
             u_ssaUrl := Some "https://test-ssa.example.com";
             u_agentId := Some "test-agent";
             u_timeout := Given (Some (Finite 10000));
             u_retries := Omitted; u_debug := Given (Some true);
             u_headers := Omitted |} with
  | Returned this =>
      apiKey (getSafeConfig this) = Some "very-secre..."
      /\ agentId (getSafeConfig this) = Some "test-agent"
      /\ timeout (getSafeConfig this) = Some (Finite 10000)
      /\ retries (getSafeConfig this) = Some (Finite 3)
      /\ debug (getSafeConfig this) = Some true
  | Threw _ => False
  end.
Proof. cbn. repeat split. Qed.

(** The constructor rejects a short key, a plain-http URL and a URL that
    does not parse, and generates an agent id when none is given. *)
Example construct_tests :
  let user key url :=
    {| u_apiKey := Some key; u_ssaUrl := Some url; u_agentId := None;
       u_timeout := Omitted; u_retries := Omitted; u_debug := Omitted;
       u_headers := Omitted |} in
  doesNotThrow (construct schemeOf 17 "k3x9ab"
                  (user "test-api-key" "https://test-ssa.example.com")) = true
  /\ doesNotThrow (construct schemeOf 17 "k3x9ab"
                     (user "short" "https://test-ssa.example.com")) = false
  /\ doesNotThrow (construct schemeOf 17 "k3x9ab"
                     (user "test-api-key" "http://insecure-ssa.example.com"))
     = false
  /\ doesNotThrow (construct schemeOf 17 "k3x9ab"
                     (user "test-api-key" "not-a-valid-url")) = false
  /\ match construct schemeOf 17 "k3x9ab"
             (user "test-api-key" "https://test-ssa.example.com") with
     | Returned this => agentId (config this) = Some "agent-17-k3x9ab"
     | Threw _ => False
     end.
Proof. cbn. repeat split. Qed.

(** [PolicyBuilder]: "should build a simple allow policy", and the three
    chains that [build()] must reject. *)
Example build_tests :
  doesNotThrow (built [name_ "test-policy"; whenToolName "test-*";
                       allow (Some "Test policy")]) = true
  /\ throwsValidationError (built [whenToolName "test"; allow None]) = true
  /\ throwsValidationError (built [name_ "test"; allow None]) = true
  /\ throwsValidationError (built [name_ "test"; whenToolName "test"]) = true
  /\ throwsValidationError (chain createPolicy [name_ "   "]) = true
  /\ throwsValidationError (chain createPolicy [priority_ NaN]) = true
  /\ throwsValidationError
       (chain createPolicy [priority_ (Finite (-1))]) = true.
Proof. repeat split. Qed.

(** [executeTool]: "should execute tool when security decision is allow". *)
Example executeTool_allow_test :
  returned (executeTool testConfig (answering allowDecision) "test-tool"
              param1 None (Some okExecutor) freshWorld)
  = Some {| success := true;
            data := Some (JObject [("result", JString "success")]);
            securityDecision := allowDecision; error := None |}
  /\ executorCalls
       (snd (executeTool testConfig (answering allowDecision) "test-tool"
               param1 None (Some okExecutor) freshWorld))
     = [("test-tool", param1)].
Proof. split; reflexivity. Qed.

(** [executeTool]: "should handle unknown security actions". *)
Example executeTool_unknown_action_test :
  errorCode (returned (executeTool testConfig (answering unknownDecision)
                         "test-tool" (JObject []) None (Some okExecutor)
                         freshWorld))
  = Some "POLICY_ERROR"
  /\ option_map
       (fun r => option_map message (error r))
       (returned (executeTool testConfig (answering unknownDecision)
                    "test-tool" (JObject []) None (Some okExecutor)
                    freshWorld))
     = Some (Some "Unknown security action: unknown-action").
Proof. split; reflexivity. Qed.

(** [executeTool]: "should validate tool name" and "should validate tool
    parameters". *)
Example executeTool_validation_tests :
  option_map
    (fun r => (success r, option_map code (error r),
               option_map message (error r)))
    (returned (executeTool testConfig (answering allowDecision) EmptyString
                 (JObject []) None (Some okExecutor) freshWorld))
  = Some (false, Some "INVALID_REQUEST", Some "Tool name is required")
  /\ option_map
       (fun r => (success r, option_map code (error r),
                  option_map message (error r)))
       (returned nullParameters)
     = Some (false, Some "INVALID_REQUEST",
             Some "Tool parameters are required").
Proof. split; reflexivity. Qed.

End UnitTests.

(* ================================================================== *)
(** * Azure deployment names                                           *)
(* ================================================================== *)

Module AzureSpec.
Import Azure.



(** The order matters: a 32k deployment also contains gpt-4, and is still
    mapped to the 32k model. *)
Example mapDeploymentToModel_order :
  mapDeploymentToModel "Prod-GPT-4-32K-eastus" = "gpt-4-32k"
  /\ includes (toLowerCase "Prod-GPT-4-32K-eastus") "gpt-4" = true.
Proof. split; reflexivity. Qed.

End AzureSpec.

(* ================================================================== *)
(** * Validation utilities                                             *)
(* ================================================================== *)

Module ValidationSpec.

Lemma isRedacted_REDACTED : isRedacted REDACTED = true.
Proof. reflexivity. Qed.

(** [checkValue] throws exactly on the values that hold a function or a
    symbol at some depth, and what it throws is an invalid-request
    validation error. *)
Lemma checkValue_cases (v : JsValue) :
  forall path,
    if containsOpaque v
    then exists t, checkValue v path = Threw t
                   /\ isValidationErrorWith INVALID_REQUEST t = true
    else checkValue v path = Returned tt.
Proof.
  induction v using JsValue_nested_ind; intros path; try reflexivity.
  - (* arrays *)
    cbn [containsOpaque checkValue].
    generalize 0%nat as index.
    induction H as [|x items Hx _ IH]; intros index; [reflexivity|].
    cbn [existsb]. specialize (Hx (path ++ "[" ++ natToString index ++ "]")).
    destruct (containsOpaque x); cbn [orb].
    + destruct Hx as (t & -> & Ht). exists t; split; [reflexivity | exact Ht].
    + rewrite Hx. cbn [andThen]. apply IH.
  - (* objects *)
    cbn [containsOpaque checkValue].
    induction H as [|[key x] entries Hx _ IH]; [reflexivity|].
    cbn [existsb snd] in *. specialize (Hx (path ++ "." ++ key)).
    destruct (containsOpaque x); cbn [orb].
    + destruct Hx as (t & -> & Ht). exists t; split; [reflexivity | exact Ht].
    + rewrite Hx. cbn [andThen]. apply IH.
  - cbn. eexists; split; reflexivity.
  - cbn. eexists; split; reflexivity.
Qed.

(** The same for a whole parameter map. *)
Lemma validateToolParameters_cases (entries : list (string * JsValue)) :
  if containsOpaque (JObject entries)
  then exists t, validateToolParameters (JObject entries) = Threw t
                 /\ isValidationErrorWith INVALID_REQUEST t = true
  else validateToolParameters (JObject entries) = Returned tt.
Proof.
  cbn [containsOpaque validateToolParameters].
  induction entries as [|[key x] entries IH]; [reflexivity|].
  cbn [existsb forEachEntry].
  pose proof (checkValue_cases x key) as Hx.
  destruct (containsOpaque x); cbn [orb].
  - destruct Hx as (t & -> & Ht). exists t; split; [reflexivity | exact Ht].
  - rewrite Hx. cbn [andThen]. apply IH.
Qed.

(** Whatever [validateToolName] throws is an invalid-request validation
    error. *)
Lemma validateToolName_cases (toolName : string) :
  validateToolName toolName = Returned tt
  \/ exists t, validateToolName toolName = Threw t
               /\ isValidationErrorWith INVALID_REQUEST t = true.
Proof.
  unfold validateToolName.
  repeat match goal with
         | |- context [if ?b then _ else _] =>
             destruct b; [right; eexists; split; reflexivity|]
         end.
  now left.
Qed.

(** The loop of assignments keeps, in order, the entries that are not under
    [__proto__]. *)
Lemma assign_loop (g : string -> JsValue -> JsValue)
  (entries sanitized : list (string * JsValue)) :
  fold_left
    (fun sanitized (kv : string * JsValue) =>
       let (key, val) := kv in assign sanitized key (g key val))
    entries sanitized
  = (sanitized
     ++ map (fun kv => (fst kv, g (fst kv) (snd kv))) (filter isKept entries))%list.
Proof.
  revert sanitized. induction entries as [|[key val] rest IH]; intros sanitized.
  - cbn. now rewrite app_nil_r.
  - cbn [fold_left filter]. rewrite IH. unfold assign, isKept, isProto.
    cbn [fst snd]. destruct (String.eqb key "__proto__"); cbn [negb map].
    + reflexivity.
    + now rewrite <- app_assoc.
Qed.

Lemma sanitizeParameters_entries (parameters : list (string * JsValue)) :
  sanitizeParameters parameters = map redactEntry (filter isKept parameters).
Proof.
  unfold sanitizeParameters.
  exact (assign_loop
           (fun key val => if isSensitive key then REDACTED else sanitizeValue val)
           parameters []).
Qed.

Lemma sanitizeValue_object (entries : list (string * JsValue)) :
  sanitizeValue (JObject entries) = JObject (sanitizeParameters entries).
Proof. reflexivity. Qed.














End ValidationSpec.

(* ================================================================== *)
(** * The orchestrator                                                 *)
(* ================================================================== *)

Module ClientSpec.
Import Config Client Examples.

(** Unfolds the monadic plumbing of [executeTool]. *)
Ltac unfold_pipeline :=
  unfold executeCall, executeTool, executeToolBody, executeToolCatch,
    handleAllowDecision, handleDenyDecision, handleTransformDecision,
    tryCatch, bind, lift, ret, throw, whenDebug, modifyStatistics,
    consoleWrite, callEvaluateSecurity, callExecutor, requestOf in *.

(** Runs the pipeline up to the dispatch, given how the stages answer. *)
Ltac run_to_dispatch Hname Hparams Heval Hsucc :=
  unfold_pipeline; rewrite Hname, Hparams;
  destruct (getDebug _); cbn -[String.eqb append];
  rewrite Heval; cbn -[String.eqb append];
  rewrite Hsucc; cbn -[String.eqb append].

(** C1. Whenever the inputs pass validation and the remote evaluation
    succeeds with a Decision whose action is deny, [executeTool] returns
    success = false with the Decision itself, error code SECURITY_DENIED and
    a message that contains the Decision's reason, and the injected executor
    has received no call. *)
Theorem deny_blocks_executor
  (this : Configuration) (env : Environment) (toolName : string)
  (parameters : JsValue) (context : option SecurityContext)
  (toolExecutor : option ToolExecutor) (w : World)
  (response : SecurityEvaluationResponse) :
  validateToolName toolName = Returned tt ->
  validateToolParameters parameters = Returned tt ->
  evaluateSecurity env (requestOf this toolName parameters context)
    = Returned response ->
  resp_success response = true ->
  action (decision response) = "deny" ->
  let d := decision response in
  exists w',
    executeTool this env toolName parameters context toolExecutor w
      = (Returned
           {| success := false;
              data := None;
              securityDecision := d;
              error := Some
                {| code := "SECURITY_DENIED";
                   message := "Tool execution denied: " ++ reason d;
                   details := Some (DetailsObject
                                [("riskLevel", DVRiskLevel (riskLevel d))]) |} |},
         w')
    /\ includes ("Tool execution denied: " ++ reason d) (reason d) = true
    /\ executorCalls w' = executorCalls w.
Proof.
  intros Hname Hparams Heval Hsucc Hact d.
  run_to_dispatch Hname Hparams Heval Hsucc; fold d; subst d;
    rewrite Hact; cbn -[append];
    (eexists; split; [reflexivity|]; split;
      [apply JsFacts.includes_app_r | reflexivity]).
Qed.

Lemma deny_blocks_executor_witness :
  exists w',
    executeTool testConfig (answering denyDecision) "dangerous-tool" param1
      None (Some okExecutor) freshWorld
      = (Returned
           {| success := false;
              data := None;
              securityDecision := denyDecision;
              error := Some
                {| code := "SECURITY_DENIED";
                   message := "Tool execution denied: Tool is too risky";
                   details := Some (DetailsObject
                                [("riskLevel", DVRiskLevel Critical)]) |} |},
         w')
    /\ includes "Tool execution denied: Tool is too risky" "Tool is too risky"
       = true
    /\ executorCalls w' = [].
Proof.
  exact (deny_blocks_executor testConfig (answering denyDecision)
           "dangerous-tool" param1 None (Some okExecutor) freshWorld
           {| resp_success := true; decision := denyDecision;
              resp_error := None |}
           eq_refl eq_refl eq_refl eq_refl eq_refl).
Defined.

(** C4. Whenever the inputs pass validation and the remote evaluation
    succeeds with a transform Decision that carries a transformedRequest,
    the injected executor receives exactly one call, with the transformed
    request's tool name and parameters; and when the executor returns an
    output, the result is success = true with that output as data and the
    Decision. *)
Theorem transform_runs_rewritten_request
  (this : Configuration) (env : Environment) (toolName : string)
  (parameters : JsValue) (context : option SecurityContext)
  (executor : ToolExecutor) (w : World)
  (response : SecurityEvaluationResponse) (transformed : ToolExecutionRequest) :
  validateToolName toolName = Returned tt ->
  validateToolParameters parameters = Returned tt ->
  evaluateSecurity env (requestOf this toolName parameters context)
    = Returned response ->
  resp_success response = true ->
  action (decision response) = "transform" ->
  transformedRequest (decision response) = Some transformed ->
  exists r w',
    executeTool this env toolName parameters context (Some executor) w
      = (Returned r, w')
    /\ executorCalls w'
       = (executorCalls w
            ++ [(req_toolName transformed, req_parameters transformed)])%list
    /\ forall output,
         executor (req_toolName transformed) (req_parameters transformed)
           = Returned output ->
         r = {| success := true; data := Some output;
                securityDecision := decision response; error := None |}.
Proof.
  intros Hname Hparams Heval Hsucc Hact Htr.
  run_to_dispatch Hname Hparams Heval Hsucc;
    rewrite Hact; cbn -[append]; rewrite Htr;
    destruct (executor _ _) as [output|t]; cbn -[append];
    (do 2 eexists; split; [reflexivity|]; split; [reflexivity|]);
    intros output' E; now inversion E.
Qed.

Lemma transform_runs_rewritten_request_witness :
  exists r w',
    executeTool testConfig (answering transformDecision) "file-write"
      writeParameters None (Some okExecutor) freshWorld = (Returned r, w')
    /\ executorCalls w' = [("file-read", JObject [("path", JString "/test.txt")])]
    /\ forall output,
         okExecutor "file-read" (JObject [("path", JString "/test.txt")])
           = Returned output ->
         r = {| success := true; data := Some output;
                securityDecision := transformDecision; error := None |}.
Proof.
  exact (transform_runs_rewritten_request testConfig
           (answering transformDecision)
           "file-write" writeParameters None okExecutor freshWorld
           {| resp_success := true; decision := transformDecision;
              resp_error := None |} readRequest
           eq_refl eq_refl eq_refl eq_refl eq_refl eq_refl).
Defined.


(** An exception of a stage outside the handlers ends in the [catch] block. *)
Lemma executeTool_stage_failure
  (this : Configuration) (env : Environment) (toolName : string)
  (parameters : JsValue) (context : option SecurityContext)
  (toolExecutor : option ToolExecutor) (w : World) (t : Thrown) :
  StageFailure this env toolName parameters context t ->
  exists w',
    executeTool this env toolName parameters context toolExecutor w
      = (Returned (containedFailure this env toolName t), w')
    /\ errorCount (statistics w') = (errorCount (statistics w) + 1)%Z
    /\ executorCalls w' = executorCalls w.
Proof.
  intros HF.
  destruct HF as [t Hname | t Hname Hparams | t Hname Hparams Heval
                 | response Hname Hparams Heval Hsucc
                 | response Hname Hparams Heval Hsucc Hact].
  - unfold_pipeline. rewrite Hname.
    destruct (getDebug this); cbn; eexists; repeat split; reflexivity.
  - unfold_pipeline. rewrite Hname, Hparams.
    destruct (getDebug this); cbn; eexists; repeat split; reflexivity.
  - unfold_pipeline. rewrite Hname, Hparams.
    destruct (getDebug this); cbn -[String.eqb append]; rewrite Heval;
      cbn; eexists; repeat split; reflexivity.
  - run_to_dispatch Hname Hparams Heval Hsucc;
      eexists; repeat split; reflexivity.
  - unfold knownAction in Hact.
    apply orb_false_iff in Hact as [Hact Htransform].
    apply orb_false_iff in Hact as [Hallow Hdeny].
    run_to_dispatch Hname Hparams Heval Hsucc;
      rewrite Hallow, Hdeny, Htransform; cbn -[append];
      eexists; repeat split; reflexivity.
Qed.





Lemma validation_error_code (t : Thrown) (c : TealTigerErrorCode) :
  isValidationErrorWith c t = true -> code (failureInfo t) = codeString c.
Proof.
  destruct t as [[cls msg [cd|] dt]|v]; cbn; try discriminate;
    destruct cls; try discriminate.
  intros H. now apply String.eqb_eq in H.
Qed.

(** C3 (as amended). For every request whose parameter map holds, at any
    depth, a function or a symbol, [executeTool] fails at input validation:
    the result is the failure built from an invalid-request validation
    error, the transport has received no call, nor has the executor, and
    the error counter is incremented by one.  (An empty parameter map is
    valid and is not covered.) *)
Theorem opaque_parameters_rejected
  (this : Configuration) (env : Environment) (toolName : string)
  (entries : list (string * JsValue)) (context : option SecurityContext)
  (toolExecutor : option ToolExecutor) (w : World) :
  containsOpaque (JObject entries) = true ->
  exists t w',
    executeTool this env toolName (JObject entries) context toolExecutor w
      = (Returned (containedFailure this env toolName t), w')
    /\ isValidationErrorWith INVALID_REQUEST t = true
    /\ code (failureInfo t) = "INVALID_REQUEST"
    /\ ssaRequests w' = ssaRequests w
    /\ executorCalls w' = executorCalls w
    /\ errorCount (statistics w') = (errorCount (statistics w) + 1)%Z
    /\ totalRequests (statistics w') = totalRequests (statistics w).
Proof.
  intros Hopaque.
  pose proof (ValidationSpec.validateToolParameters_cases entries) as Hparams.
  rewrite Hopaque in Hparams. destruct Hparams as (tp & Hparams & Htp).
  destruct (ValidationSpec.validateToolName_cases toolName)
    as [Hname | (tn & Hname & Htn)].
  - exists tp. unfold_pipeline. rewrite Hname, Hparams.
    destruct (getDebug this); cbn; eexists;
      (split; [reflexivity|]; split; [exact Htp|];
       split; [exact (validation_error_code _ _ Htp)|]; repeat split).
  - exists tn. unfold_pipeline. rewrite Hname.
    destruct (getDebug this); cbn; eexists;
      (split; [reflexivity|]; split; [exact Htn|];
       split; [exact (validation_error_code _ _ Htn)|]; repeat split).
Qed.

Lemma opaque_parameters_rejected_witness :
  exists t w',
    executeTool testConfig (answering allowDecision) "test-tool"
      (JObject [("validParam", JString "value");
                ("nested", JObject [("list", JArray [JNumber (Finite 1); JSymbol])])])
      None (Some okExecutor) freshWorld
      = (Returned (containedFailure testConfig (answering allowDecision)
                     "test-tool" t), w')
    /\ isValidationErrorWith INVALID_REQUEST t = true
    /\ code (failureInfo t) = "INVALID_REQUEST"
    /\ ssaRequests w' = []
    /\ executorCalls w' = []
    /\ errorCount (statistics w') = 1%Z
    /\ totalRequests (statistics w') = 0%Z.
Proof.
  exact (opaque_parameters_rejected testConfig
           (answering allowDecision) "test-tool"
           [("validParam", JString "value");
            ("nested", JObject [("list", JArray [JNumber (Finite 1); JSymbol])])]
           None (Some okExecutor) freshWorld eq_refl).
Defined.

(** C3, as stated, fails on the empty parameter map: it passes validation,
    the transport receives the request and the call succeeds. *)
Lemma empty_map_reaches_transport :
  validateToolParameters (JObject []) = Returned tt
  /\ ssaRequests (snd emptyParameters)
     = [requestOf testConfig "test-tool" (JObject []) None]
  /\ option_map success (returned emptyParameters) = Some true
  /\ errorCount (statistics (snd emptyParameters)) = 0%Z.
Proof. repeat split. Qed.

(** C5 (as amended). Whenever the inputs pass validation and the remote
    evaluation succeeds with a transform Decision that carries no
    transformedRequest, the injected executor receives no call and the
    result is a failure that carries the Decision with the error code
    TRANSFORMATION_ERROR, which is neither SECURITY_DENIED nor POLICY_ERROR;
    the error counter is left as it was. *)
Theorem bare_transform_is_transformation_error
  (this : Configuration) (env : Environment) (toolName : string)
  (parameters : JsValue) (context : option SecurityContext)
  (toolExecutor : option ToolExecutor) (w : World)
  (response : SecurityEvaluationResponse) :
  validateToolName toolName = Returned tt ->
  validateToolParameters parameters = Returned tt ->
  evaluateSecurity env (requestOf this toolName parameters context)
    = Returned response ->
  resp_success response = true ->
  action (decision response) = "transform" ->
  transformedRequest (decision response) = None ->
  exists r w',
    executeTool this env toolName parameters context toolExecutor w
      = (Returned r, w')
    /\ r = {| success := false;
              data := None;
              securityDecision := decision response;
              error := Some
                {| code := "TRANSFORMATION_ERROR";
                   message := "Transform decision provided but no transformed request available";
                   details := None |} |}
    /\ errorCode (Some r) <> Some "SECURITY_DENIED"
    /\ errorCode (Some r) <> Some "POLICY_ERROR"
    /\ executorCalls w' = executorCalls w
    /\ errorCount (statistics w') = errorCount (statistics w).
Proof.
  intros Hname Hparams Heval Hsucc Hact Htr.
  run_to_dispatch Hname Hparams Heval Hsucc;
    rewrite Hact; cbn -[append]; rewrite Htr;
    (do 2 eexists; split; [reflexivity|]; split; [reflexivity|];
     repeat split; cbn; discriminate).
Qed.

Lemma bare_transform_is_transformation_error_witness :
  exists r w',
    executeTool testConfig (answering bareTransformDecision) "file-write"
      writeParameters None (Some okExecutor) freshWorld = (Returned r, w')
    /\ r = {| success := false;
              data := None;
              securityDecision := bareTransformDecision;
              error := Some
                {| code := "TRANSFORMATION_ERROR";
                   message := "Transform decision provided but no transformed request available";
                   details := None |} |}
    /\ errorCode (Some r) <> Some "SECURITY_DENIED"
    /\ errorCode (Some r) <> Some "POLICY_ERROR"
    /\ executorCalls w' = []
    /\ errorCount (statistics w') = 0%Z.
Proof.
  exact (bare_transform_is_transformation_error testConfig
           (answering bareTransformDecision) "file-write" writeParameters None
           (Some okExecutor) freshWorld
           {| resp_success := true; decision := bareTransformDecision;
              resp_error := None |}
           eq_refl eq_refl eq_refl eq_refl eq_refl eq_refl).
Defined.

(** C5, as stated, fails: the error of the result is not a policy error. *)
Lemma bare_transform_not_policy_error :
  errorCode (returned transformWithoutRequest) = Some "TRANSFORMATION_ERROR"
  /\ errorCode (returned transformWithoutRequest) <> Some "POLICY_ERROR".
Proof. split; [reflexivity | discriminate]. Qed.

(** ** Statistics *)

(** What one call does to the statistics: a decided call goes through
    [updateStatistics], and is also counted as an error when its action is
    outside the vocabulary; a call that is not decided is only counted as an
    error. *)
Lemma executeCall_statistics (this : Configuration) (c : Call) (w : World) :
  statistics (snd (executeCall this c w))
  = match decisionOf this c with
    | Some d =>
        let s := updateStatistics d
                   (decisionTime (call_env c) - startTime (call_env c))
                   (statistics w) in
        if knownAction (action d) then s else incrementErrorCount s
    | None => incrementErrorCount (statistics w)
    end.
Proof.
  destruct c as [env toolName parameters context toolExecutor].
  unfold decisionOf, knownAction; unfold_pipeline;
    cbn [call_env call_toolName call_parameters call_context call_toolExecutor].
  destruct (validateToolName toolName) as [[]|t]; cbn -[String.eqb append];
    [|destruct (getDebug this); reflexivity].
  destruct (validateToolParameters parameters) as [[]|t];
    cbn -[String.eqb append];
    [|destruct (getDebug this); reflexivity].
  destruct (getDebug this); cbn -[String.eqb append];
    (destruct (evaluateSecurity env _) as [response|t];
       cbn -[String.eqb append]; [|reflexivity]);
    (destruct (resp_success response); cbn -[String.eqb append];
       [|reflexivity]);
    (destruct (String.eqb (action (decision response)) "allow");
       [ destruct toolExecutor as [executor|]; cbn -[String.eqb append];
         [destruct (executor _ _)|]; reflexivity |]);
    (destruct (String.eqb (action (decision response)) "deny");
       [ reflexivity |]);
    (destruct (String.eqb (action (decision response)) "transform");
       cbn -[String.eqb append]; [| reflexivity ]);
    (destruct (transformedRequest (decision response)) as [transformed|];
       [| reflexivity ]);
    (destruct toolExecutor as [executor|]; cbn -[String.eqb append];
       [destruct (executor _ _)|]; reflexivity).
Qed.

(** One decided call moves the average by one step of the incremental
    mean, the new total being the count. *)
Lemma updateStatistics_average (d : SecurityDecision) (sample : Z)
  (s : SDKStatistics) :
  averageResponseTime (updateStatistics d sample s)
  = incrementalMean (averageResponseTime s) (totalRequests s + 1) sample.
Proof. reflexivity. Qed.

Lemma countAction_cons (this : Configuration) (a : string) (c : Call)
  (rest : list Call) :
  countAction this a (c :: rest)
  = ((match decisionOf this c with
      | Some d => if String.eqb (action d) a then 1 else 0
      | None => 0
      end) + countAction this a rest)%Z.
Proof.
  unfold countAction. cbn [filter].
  destruct (decisionOf this c) as [d|]; [destruct (String.eqb (action d) a)|];
    cbn [length]; lia.
Qed.

Lemma countUnknown_cons (this : Configuration) (c : Call) (rest : list Call) :
  countUnknown this (c :: rest)
  = ((match decisionOf this c with
      | Some d => if knownAction (action d) then 0 else 1
      | None => 0
      end) + countUnknown this rest)%Z.
Proof.
  unfold countUnknown. cbn [filter].
  destruct (decisionOf this c) as [d|]; [destruct (knownAction (action d))|];
    cbn [length negb]; lia.
Qed.

Lemma countAction_nonneg (this : Configuration) (a : string) (calls : list Call) :
  (0 <= countAction this a calls)%Z.
Proof. unfold countAction. lia. Qed.

Lemma countUnknown_nonneg (this : Configuration) (calls : list Call) :
  (0 <= countUnknown this calls)%Z.
Proof. unfold countUnknown. lia. Qed.

(** The per-action counters after one decided call, by cases on the action. *)
Lemma updateStatistics_counters (d : SecurityDecision) (sample : Z)
  (s : SDKStatistics) :
  let s' := updateStatistics d sample s in
  let one (a : string) := if String.eqb (action d) a then 1%Z else 0%Z in
  totalRequests s' = (totalRequests s + 1)%Z
  /\ allowedRequests s' = (allowedRequests s + one "allow")%Z
  /\ deniedRequests s' = (deniedRequests s + one "deny")%Z
  /\ transformedRequests s' = (transformedRequests s + one "transform")%Z
  /\ errorCount s' = errorCount s
  /\ (one "allow" + one "deny" + one "transform"
      + (if knownAction (action d) then 0 else 1) = 1)%Z.
Proof.
  cbn -[String.eqb]. unfold knownAction.
  destruct (String.eqb (action d) "allow") eqn:Ea;
    destruct (String.eqb (action d) "deny") eqn:Ed;
    destruct (String.eqb (action d) "transform") eqn:Et;
    cbn [orb]; repeat split; try lia;
    repeat match goal with
           | H : String.eqb _ _ = true |- _ => apply String.eqb_eq in H
           end;
    congruence.
Qed.

(** C6 (as amended). On every branch of [executeTool] that follows a
    successful remote evaluation, the total-requests counter is incremented,
    together with the matching per-action counter for allow, deny and
    transform, and the running average is updated by the incremental mean
    [newAvg = (oldAvg*(n-1) + sample)/n]; a call that fails earlier (input
    validation, the transport, a response that is not a success) changes
    the error counter only.  Consequently, after any sequence of calls of
    which [a], [d] and [t] were decided allow, deny and transform and [u]
    were decided with an action outside the vocabulary: totalRequests grows
    by a+d+t+u, allowedRequests by a, deniedRequests by d,
    transformedRequests by t, errorCount by the number of undecided calls
    plus u, and the average is the incremental mean taken over the response
    times of the decided calls, in order, and of no other call. *)
Theorem statistics_after_calls (this : Configuration) (calls : list Call)
  (w : World) :
  let s := statistics w in
  let s' := statistics (executeAll this calls w) in
  let a := countAction this "allow" calls in
  let d := countAction this "deny" calls in
  let t := countAction this "transform" calls in
  let u := countUnknown this calls in
  totalRequests s' = (totalRequests s + (a + d + t + u))%Z
  /\ allowedRequests s' = (allowedRequests s + a)%Z
  /\ deniedRequests s' = (deniedRequests s + d)%Z
  /\ transformedRequests s' = (transformedRequests s + t)%Z
  /\ errorCount s'
     = (errorCount s + (Z.of_nat (length calls) - (a + d + t + u)) + u)%Z
  /\ averageResponseTime s'
     = meanAfter (averageResponseTime s) (totalRequests s)
         (samplesOf this calls).
Proof.
  revert w. induction calls as [|c rest IH]; intros w; cbn zeta.
  - cbn. repeat split; lia.
  - cbn [executeAll].
    set (w1 := snd (executeCall this c w)).
    assert (Hs1 := executeCall_statistics this c w). fold w1 in Hs1.
    rewrite !countAction_cons, countUnknown_cons.
    cbn [samplesOf flat_map length]. fold (samplesOf this rest).
    rewrite Nat2Z.inj_succ.
    destruct (IH w1) as (IHt & IHa & IHd & IHtr & IHe & IHavg).
    destruct (decisionOf this c) as [dd|].
    + set (sample := (decisionTime (call_env c) - startTime (call_env c))%Z) in *.
      destruct (updateStatistics_counters dd sample (statistics w))
        as (Ht & Ha & Hd & Htr & He & Hone).
      pose proof (updateStatistics_average dd sample (statistics w)) as Havg.
      cbn zeta in Hs1.
      assert (Hsame :
        totalRequests (statistics w1) = (totalRequests (statistics w) + 1)%Z
        /\ allowedRequests (statistics w1)
           = (allowedRequests (statistics w)
              + (if String.eqb (action dd) "allow" then 1 else 0))%Z
        /\ deniedRequests (statistics w1)
           = (deniedRequests (statistics w)
              + (if String.eqb (action dd) "deny" then 1 else 0))%Z
        /\ transformedRequests (statistics w1)
           = (transformedRequests (statistics w)
              + (if String.eqb (action dd) "transform" then 1 else 0))%Z
        /\ errorCount (statistics w1)
           = (errorCount (statistics w)
              + (if knownAction (action dd) then 0 else 1))%Z
        /\ averageResponseTime (statistics w1)
           = averageResponseTime (updateStatistics dd sample (statistics w))).
      { rewrite Hs1. destruct (knownAction (action dd));
          cbn -[updateStatistics String.eqb];
          rewrite ?Ht, ?Ha, ?Hd, ?Htr, ?He; repeat split; lia. }
      destruct Hsame as (St & Sa & Sd & Str & Se & Savg).
      split; [|split; [|split; [|split; [|split]]]].
      1-5: rewrite ?IHt, ?IHa, ?IHd, ?IHtr, ?IHe, ?St, ?Sa, ?Sd, ?Str, ?Se; lia.
      rewrite IHavg, Savg, Havg, St. reflexivity.
    + split; [|split; [|split; [|split; [|split]]]].
      1-5: rewrite ?IHt, ?IHa, ?IHd, ?IHtr, ?IHe, Hs1;
        cbn [incrementErrorCount totalRequests allowedRequests deniedRequests
             transformedRequests errorCount]; lia.
      rewrite IHavg, Hs1. reflexivity.
Qed.

Lemma statistics_after_calls_witness :
  totalRequests afterMixedCalls = 4%Z
  /\ allowedRequests afterMixedCalls = 1%Z
  /\ deniedRequests afterMixedCalls = 1%Z
  /\ transformedRequests afterMixedCalls = 1%Z
  /\ errorCount afterMixedCalls = 2%Z
  /\ averageResponseTime afterMixedCalls = 40%float.
Proof.
  exact (statistics_after_calls testConfig mixedCalls freshWorld).
Defined.

(** In binary64 the incremental mean does not keep [average * count] equal
    to the sum of the samples: after one sample of 1 ms and forty-nine of
    0 ms the product is 0.99999999999999989. *)
Example incremental_mean_rounds :
  let average := meanAfter 0%float 0 (1%Z :: repeat 0%Z 49) in
  (average * toDouble 50 =? 1)%float = false
  /\ (average * toDouble 50 <? 1)%float = true.
Proof. split; vm_compute; reflexivity. Qed.

(** C6, as stated, fails: a call rejected by input validation leaves the
    total-requests counter where it was and only counts an error. *)
Lemma rejected_call_not_in_total :
  errorCode (returned nullParameters) = Some "INVALID_REQUEST"
  /\ totalRequests (statistics (snd nullParameters)) = 0%Z
  /\ errorCount (statistics (snd nullParameters)) = 1%Z.
Proof. repeat split. Qed.

End ClientSpec.

(* ================================================================== *)
(** * Configuration redaction                                          *)
(* ================================================================== *)

Module ConfigSpec.
Import Config Examples.

(** What the constructor accepts has an API key of at least ten
    characters, the one the caller supplied. *)
Lemma construct_accepts_key (urlProtocol : string -> option string)
  (timestamp : Z) (random : string) (userConfig : UserConfig)
  (this : Configuration) :
  construct urlProtocol timestamp random userConfig = Returned this ->
  exists key,
    u_apiKey userConfig = Some key
    /\ apiKey (config this) = Some key
    /\ (10 <= String.length key)%nat.
Proof.
  unfold construct, validateConfig. cbn [apiKey].
  destruct (u_apiKey userConfig) as [key|]; cbn [orEmpty];
    [|cbn; discriminate].
  destruct (truthy key); cbn [negb throwIf andThen]; [|discriminate].
  destruct (String.length key <? 10)%nat eqn:Hlen; cbn [throwIf andThen];
    [discriminate|].
  apply Nat.ltb_ge in Hlen.
  match goal with
  | |- andThen ?c _ = _ -> _ => destruct c as [[]|t]; cbn [andThen]
  end; [|discriminate].
  intros H. exists key.
  destruct (negb _) in H; inversion H; cbn; auto.
Qed.

(** The fields that are not sensitive pass through [getSafeConfig]. *)
Lemma getSafeConfig_passthrough (this : Configuration) :
  ssaUrl (getSafeConfig this) = ssaUrl (config this)
  /\ agentId (getSafeConfig this) = agentId (config this)
  /\ timeout (getSafeConfig this) = timeout (config this)
  /\ retries (getSafeConfig this) = retries (config this)
  /\ debug (getSafeConfig this) = debug (config this).
Proof. repeat split. Qed.

(** For a key longer than ten characters the safe view shows a proper
    prefix of it, ten characters long, then the ellipsis. *)
Lemma getSafeConfig_long_key (this : Configuration) (key : string) :
  apiKey (config this) = Some key ->
  (10 < String.length key)%nat ->
  apiKey (getSafeConfig this) = Some (substring 0 10 key ++ "...")
  /\ String.length (substring 0 10 key) = 10%nat
  /\ substring 0 10 key <> key.
Proof.
  intros Hkey Hlen. unfold getSafeConfig; cbn [apiKey]. rewrite Hkey.
  assert (L : String.length (substring 0 10 key) = 10%nat)
    by (apply JsFacts.length_substring; lia).
  repeat split; [exact L|].
  intros E. rewrite E in L. lia.
Qed.

(** C8. The safe view is meant to show a prefix of the API key and never
    the whole key.  A key of exactly ten characters, the shortest the
    constructor accepts, breaks this: the ten-character prefix is the whole
    key, so the safe view holds the full key before the ellipsis. *)
Theorem getSafeConfig_exposes_minimal_key :
  exists this,
    construct schemeOf 1700000000000 "k3x9ab" minimalKeyConfig = Returned this
    /\ apiKey (config this) = Some "0123456789"
    /\ apiKey (getSafeConfig this) = Some "0123456789..."
    /\ substring 0 10 "0123456789" = "0123456789"
    /\ includes "0123456789..." "0123456789" = true
    /\ apiKey (sanitizeConfig (config this)) = Some "0123456789...".
Proof. eexists. split; [reflexivity|]. repeat split. Qed.

End ConfigSpec.

(* ================================================================== *)
(** * Policy builder                                                   *)
(* ================================================================== *)

Module PolicySpec.
Import Policy.

Lemma trim_nonempty_truthy (s : string) :
  (String.length (trim s) =? 0)%nat = false -> truthy (trim s) = true.
Proof. destruct (trim s); [discriminate | reflexivity]. Qed.

Lemma orDefault_truthy (r : option string) (fallback : string) :
  truthy fallback = true -> truthy (orDefault r fallback) = true.
Proof.
  intros H. unfold orDefault.
  destruct (truthy (orEmpty r)) eqn:E; [exact E | exact H].
Qed.

Lemma createPolicy_invariant : builderInvariant createPolicy.
Proof. repeat split; cbn; intros; discriminate. Qed.

(** Every fluent method preserves the invariant. *)
Lemma call_invariant (b b' : PolicyBuilder) (c : BuilderCall) :
  builderInvariant b -> call b c = Returned b' -> builderInvariant b'.
Proof.
  intros (Hn & Hr & Hra & Ht) Hcall.
  destruct c; cbn -[trim] in Hcall;
    try (inversion Hcall; subst; clear Hcall;
         repeat split; cbn; try assumption;
         try (intros ? E; inversion E; subst;
              apply orDefault_truthy; reflexivity);
         try reflexivity; try discriminate; fail).
  - (* name *)
    destruct (negb (truthy n) || (String.length (trim n) =? 0)%nat) eqn:E;
      cbn -[trim] in Hcall; [discriminate|].
    inversion Hcall; subst; clear Hcall.
    apply orb_false_iff in E as [_ E].
    repeat split; cbn -[trim]; try assumption.
    intros ? E'; inversion E'; subst. now apply trim_nonempty_truthy.
  - (* description *)
    inversion Hcall; subst; clear Hcall.
    destruct (truthy d); repeat split; cbn -[trim]; assumption.
  - (* priority *)
    destruct (ltZero n || negb (isFinite n)); cbn in Hcall; [discriminate|].
    inversion Hcall; subst; clear Hcall.
    repeat split; cbn; assumption.
Qed.

Lemma chain_invariant (calls : list BuilderCall) (b b' : PolicyBuilder) :
  builderInvariant b -> chain b calls = Returned b' -> builderInvariant b'.
Proof.
  revert b; induction calls as [|c rest IH]; intros b Hb Hchain.
  - inversion Hchain; subst; exact Hb.
  - cbn [chain] in Hchain.
    destruct (call b c) as [b1|t] eqn:Hc; cbn [andThen] in Hchain;
      [|discriminate].
    exact (IH b1 (call_invariant b b1 c Hb Hc) Hchain).
Qed.

(** On a builder driven through its methods, [build()] succeeds exactly
    when a name and an action are set and there is a condition; the reason
    comes with the action, and the transformation with a transform action. *)
Lemma build_succeeds_iff (calls : list BuilderCall) (b : PolicyBuilder) :
  chain createPolicy calls = Returned b ->
  (exists p, build b = Returned p)
  <-> (isSome (name (policy b)) = true
       /\ isSome (action (policy b)) = true
       /\ conditions (policy b) <> []).
Proof.
  intros Hchain.
  destruct (chain_invariant calls _ _ createPolicy_invariant Hchain)
    as (Hn & Hr & Hra & Ht).
  unfold build, validatePolicy.
  destruct (name (policy b)) as [n|] eqn:En; cbn [orEmpty isSome].
  2: { cbn. split; [intros [p H]; discriminate | intros (H & _); discriminate]. }
  rewrite (Hn n eq_refl). cbn [negb throwIf andThen].
  destruct (action (policy b)) as [a|] eqn:Ea; cbn [isSome negb throwIf andThen].
  2: { split; [intros [p H]; discriminate | intros (_ & H & _); discriminate]. }
  destruct (reason (policy b)) as [r|] eqn:Er; [|discriminate Hra].
  cbn [orEmpty]. rewrite (Hr r eq_refl). cbn [negb throwIf andThen].
  destruct (conditions (policy b)) as [|c0 cs] eqn:Ec; cbn [length Nat.eqb throwIf andThen].
  { split; [intros [p H]; discriminate | intros (_ & _ & H); now elim H]. }
  destruct (isTransform (Some a)) eqn:Etr.
  - rewrite (Ht eq_refl). cbn. split; [intros _; repeat split; discriminate|].
    intros _. eexists; reflexivity.
  - cbn. split; [intros _; repeat split; discriminate|].
    intros _. eexists; reflexivity.
Qed.

(** On any builder state, also one reached by writing the private field,
    [build()] succeeds exactly when [validatePolicy] finds nothing missing. *)
Lemma build_succeeds_iff_valid (b : PolicyBuilder) :
  (exists p, build b = Returned p)
  <-> (truthy (orEmpty (name (policy b))) = true
       /\ isSome (action (policy b)) = true
       /\ truthy (orEmpty (reason (policy b))) = true
       /\ conditions (policy b) <> []
       /\ (isTransform (action (policy b)) = true ->
           isSome (transformation (policy b)) = true)).
Proof.
  unfold build, validatePolicy.
  destruct (truthy (orEmpty (name (policy b)))); cbn [negb throwIf andThen].
  2: { split; [intros [p H]; discriminate | intros (H & _); discriminate]. }
  destruct (isSome (action (policy b))); cbn [negb throwIf andThen].
  2: { split; [intros [p H]; discriminate | intros (_ & H & _); discriminate]. }
  destruct (truthy (orEmpty (reason (policy b)))); cbn [negb throwIf andThen].
  2: { split; [intros [p H]; discriminate
              | intros (_ & _ & H & _); discriminate]. }
  destruct (conditions (policy b)) as [|c0 cs];
    cbn [length Nat.eqb throwIf andThen].
  { split; [intros [p H]; discriminate
           | intros (_ & _ & _ & H & _); now elim H]. }
  destruct (isTransform (action (policy b)));
    destruct (isSome (transformation (policy b))); cbn.
  - split; [intros _; repeat split; discriminate | intros _; eexists; reflexivity].
  - split; [intros [p H]; discriminate|].
    intros (_ & _ & _ & _ & H). specialize (H eq_refl). discriminate.
  - split; [intros _; repeat split; discriminate | intros _; eexists; reflexivity].
  - split; [intros _; repeat split; discriminate | intros _; eexists; reflexivity].
Qed.

(** Half of the data-model invariant does hold of every built policy: a
    transform action carries a transformation. *)
Lemma build_transform_has_transformation (b : PolicyBuilder)
  (p : SecurityPolicy) :
  build b = Returned p ->
  isTransform (action p) = true -> isSome (transformation p) = true.
Proof.
  unfold build, validatePolicy.
  repeat match goal with
         | |- context [throwIf ?c _] =>
             destruct c eqn:?; cbn [throwIf andThen]; [discriminate|]
         end.
  intros H; inversion H; subst. intros Htr.
  match goal with
  | E : isTransform _ && negb _ = false |- _ =>
      rewrite Htr in E; cbn in E; now apply negb_false_iff in E
  end.
Qed.

(** C7. Every policy that [build()] returns should carry a transformation
    exactly when its action is transform.  The chain that sets a transform
    action and then overrides it with allow breaks this: [build()] succeeds
    and returns an allow policy that still carries the read-only
    transformation. *)
Theorem build_keeps_stale_transformation :
  exists p,
    built overriddenTransform = Returned p
    /\ action p = Some Allow
    /\ transformation p
       = Some {| tr_type := read_only; remove_parameters := None;
                 anonymize_parameters := None |}
    /\ ~ transformationIffTransform p.
Proof.
  eexists. split; [reflexivity|]. cbn.
  repeat split. unfold transformationIffTransform; cbn. discriminate.
Qed.

End PolicySpec.

(* ================================================================== *)
(** * Validation utilities: acceptance and redaction                   *)
(* ================================================================== *)

Module ValidationMore.

Lemma letter_not_whitespace (c : ascii) :
  isLetter c = true -> isWhiteSpace c = false.
Proof.
  destruct c as [[] [] [] [] [] [] [] []]; cbn; intros H;
    try reflexivity; discriminate H.
Qed.

Lemma nameChar_not_whitespace (c : ascii) :
  isNameChar c = true -> isWhiteSpace c = false.
Proof.
  destruct c as [[] [] [] [] [] [] [] []]; cbn; intros H;
    try reflexivity; discriminate H.
Qed.

(** A string that starts with a character that is not white space does
    not trim to the empty string. *)
Lemma trim_keeps_head (c : ascii) (s : string) :
  isWhiteSpace c = false -> (String.length (trim (String c s)) =? 0)%nat = false.
Proof.
  intros H. unfold trim. cbn [trimStart]. rewrite H. cbn [trimEnd].
  destruct (trimEnd s); [rewrite H|]; reflexivity.
Qed.

(** What [validateToolName] has checked when it returns. *)
Lemma validateToolName_accepted (toolName : string) :
  validateToolName toolName = Returned tt ->
  matchesToolNamePattern toolName = true
  /\ includes toolName "--" = false
  /\ includes toolName "__" = false
  /\ (String.length toolName <= 100)%nat.
Proof.
  unfold validateToolName.
  destruct (negb (truthy toolName)); [discriminate|].
  destruct (String.length (trim toolName) =? 0)%nat; [discriminate|].
  destruct (matchesToolNamePattern toolName); cbn [negb]; [|discriminate].
  destruct (includes toolName "--"); cbn [orb]; [discriminate|].
  destruct (includes toolName "__"); [discriminate|].
  destruct (100 <? String.length toolName)%nat eqn:E; [discriminate|].
  apply Nat.ltb_ge in E. intros _. repeat split. exact E.
Qed.

(** X1. [validateToolName] returns normally exactly for the names that
    match the identifier grammar (a letter, then letters, digits, hyphens
    and underscores), hold no doubled hyphen or underscore, and are at most
    100 characters long; the two emptiness checks reject nothing more. *)
Theorem validateToolName_accepts_iff (toolName : string) :
  validateToolName toolName = Returned tt
  <-> (matchesToolNamePattern toolName = true
       /\ includes toolName "--" = false
       /\ includes toolName "__" = false
       /\ (String.length toolName <= 100)%nat).
Proof.
  split; [apply validateToolName_accepted|].
  unfold validateToolName. intros (Hp & Hh & Hu & Hl).
  destruct toolName as [|c s]; [discriminate Hp|].
  cbn [truthy negb].
  assert (Hc : isLetter c = true).
  { cbn in Hp. now apply andb_true_iff in Hp as [Hc _]. }
  rewrite (trim_keeps_head c s (letter_not_whitespace c Hc)).
  rewrite Hp, Hh, Hu. cbn [negb orb].
  apply Nat.ltb_ge in Hl. now rewrite Hl.
Qed.

Lemma validateToolName_accepts_iff_witness :
  validateToolName "web-search" = Returned tt.
Proof.
  apply (proj2 (validateToolName_accepts_iff "web-search")).
  repeat split; cbn; lia.
Defined.

(** [validateAgentId] returns normally exactly for the non-empty strings
    over letters, digits, hyphens and underscores of at most 100
    characters. *)
Lemma validateAgentId_accepts_iff (agentId : string) :
  validateAgentId agentId = Returned tt
  <-> (matchesAgentIdPattern agentId = true
       /\ (String.length agentId <= 100)%nat).
Proof.
  unfold validateAgentId. split.
  - destruct (negb (truthy agentId)); [discriminate|].
    destruct (String.length (trim agentId) =? 0)%nat; [discriminate|].
    destruct (matchesAgentIdPattern agentId); cbn [negb]; [|discriminate].
    destruct (100 <? String.length agentId)%nat eqn:E; [discriminate|].
    apply Nat.ltb_ge in E. intros _. split; [reflexivity | exact E].
  - intros (Hp & Hl).
    destruct agentId as [|c s]; [discriminate Hp|].
    cbn [truthy negb].
    assert (Hc : isNameChar c = true).
    { cbn in Hp. now apply andb_true_iff in Hp as [Hc _]. }
    rewrite (trim_keeps_head c s (nameChar_not_whitespace c Hc)).
    rewrite Hp. cbn [negb].
    apply Nat.ltb_ge in Hl. now rewrite Hl.
Qed.

(** X2. Every name that [validateToolName] accepts is accepted by
    [validateAgentId] as well: the tool-name grammar is the stricter one. *)
Theorem tool_name_is_valid_agent_id (s : string) :
  validateToolName s = Returned tt -> validateAgentId s = Returned tt.
Proof.
  intros H. apply validateToolName_accepted in H as (Hp & _ & _ & Hl).
  apply validateAgentId_accepts_iff. split; [|exact Hl].
  destruct s as [|c s]; [discriminate Hp|].
  cbn in Hp |- *. apply andb_true_iff in Hp as [Hc Hs].
  rewrite Hs, andb_true_r. unfold isNameChar. now rewrite Hc.
Qed.

Lemma tool_name_is_valid_agent_id_witness :
  validateAgentId "web-search" = Returned tt.
Proof. exact (tool_name_is_valid_agent_id "web-search" eq_refl). Defined.

(** The converse fails: an agent id may start with a digit. *)
Example agent_id_not_tool_name :
  validateAgentId "123-agent" = Returned tt
  /\ doesNotThrow (validateToolName "123-agent") = false.
Proof. split; reflexivity. Qed.

(** X3. [validateToolParameters] returns normally exactly for the plain
    objects that hold no function and no symbol at any depth; whatever it
    throws is an invalid-request validation error. *)
Theorem validateToolParameters_accepts_iff (parameters : JsValue) :
  (validateToolParameters parameters = Returned tt
   <-> exists entries,
         parameters = JObject entries
         /\ containsOpaque (JObject entries) = false)
  /\ (forall t, validateToolParameters parameters = Threw t ->
                isValidationErrorWith INVALID_REQUEST t = true).
Proof.
  split; [split|].
  - intros H. destruct parameters; try discriminate H.
    exists entries. split; [reflexivity|].
    pose proof (ValidationSpec.validateToolParameters_cases entries) as HC.
    destruct (containsOpaque (JObject entries)); [|reflexivity].
    destruct HC as (t & Ht & _). rewrite Ht in H. discriminate.
  - intros (entries & -> & Hc).
    pose proof (ValidationSpec.validateToolParameters_cases entries) as HC.
    now rewrite Hc in HC.
  - intros t H. destruct parameters;
      try (cbn in H; inversion H; subst; reflexivity).
    pose proof (ValidationSpec.validateToolParameters_cases entries) as HC.
    destruct (containsOpaque (JObject entries)).
    + destruct HC as (t' & Ht & Hv). rewrite Ht in H.
      inversion H; subst. exact Hv.
    + rewrite HC in H. discriminate.
Qed.

Lemma validateToolParameters_accepts_iff_witness :
  isValidationErrorWith INVALID_REQUEST
    (validationError "Tool parameters must be an object" INVALID_REQUEST
       (Some [("parameters", DVValue (JArray []));
              ("type", DVString "object")])) = true.
Proof.
  exact (proj2 (validateToolParameters_accepts_iff (JArray [])) _ eq_refl).
Defined.

Lemma sanitizeValue_idempotent (v : JsValue) :
  sanitizeValue (sanitizeValue v) = sanitizeValue v.
Proof.
  induction v using JsValue_nested_ind; try reflexivity.
  - cbn [sanitizeValue]. f_equal. rewrite map_map.
    induction H as [|x items Hx _ IH]; [reflexivity|].
    cbn [map]. now rewrite Hx, IH.
  - rewrite !ValidationSpec.sanitizeValue_object. f_equal.
    rewrite !ValidationSpec.sanitizeParameters_entries.
    induction H as [|[key x] entries Hx _ IH]; [reflexivity|].
    cbn [filter snd] in *.
    destruct (isKept (key, x)) eqn:K; [|exact IH].
    cbn [map filter].
    change (isKept (redactEntry (key, x))) with (isKept (key, x)).
    rewrite K. cbn [map]. rewrite IH. f_equal.
    unfold redactEntry. cbn [fst snd]. f_equal.
    destruct (isSensitive key); [reflexivity|]. now rewrite Hx.
Qed.

(** X4. [sanitizeParameters] is idempotent: sanitizing an already
    sanitized parameter map changes nothing. *)
Theorem sanitizeParameters_idempotent (parameters : list (string * JsValue)) :
  sanitizeParameters (sanitizeParameters parameters)
  = sanitizeParameters parameters.
Proof.
  pose proof (sanitizeValue_idempotent (JObject parameters)) as E.
  rewrite !ValidationSpec.sanitizeValue_object in E.
  now injection E.
Qed.

Lemma sanitizeValue_nothingToRedact (v : JsValue) :
  nothingToRedact v = true -> noProtoKey v = true -> sanitizeValue v = v.
Proof.
  induction v using JsValue_nested_ind; try reflexivity;
    try (cbn; discriminate).
  - cbn [nothingToRedact noProtoKey sanitizeValue]. intros Hall Hown. f_equal.
    induction H as [|x items Hx _ IH]; [reflexivity|].
    cbn [forallb map] in *. apply andb_true_iff in Hall as [H1 H2].
    apply andb_true_iff in Hown as [O1 O2].
    now rewrite (Hx H1 O1), (IH H2 O2).
  - rewrite ValidationSpec.sanitizeValue_object,
      ValidationSpec.sanitizeParameters_entries.
    cbn [nothingToRedact noProtoKey]. intros Hall Hown. f_equal.
    induction H as [|[key x] entries Hx _ IH]; [reflexivity|].
    cbn [forallb filter snd] in *. apply andb_true_iff in Hall as [H1 H2].
    apply andb_true_iff in Hown as [O1 O2].
    apply andb_true_iff in H1 as [Hk H1].
    apply andb_true_iff in O1 as [Ok O1].
    apply negb_true_iff in Hk. unfold isKept at 1. cbn [fst].
    rewrite Ok. cbn [map]. unfold redactEntry at 1. cbn [fst snd].
    rewrite Hk, (Hx H1 O1), (IH H2 O2). reflexivity.
Qed.

(** X5. A parameter map with nothing to redact (no null or undefined and
    no sensitive key, at any depth) and no entry under [__proto__] at any
    depth comes out of [sanitizeParameters] unchanged. *)
Theorem sanitizeParameters_keeps_clean_map
  (parameters : list (string * JsValue)) :
  nothingToRedact (JObject parameters) = true ->
  noProtoKey (JObject parameters) = true ->
  sanitizeParameters parameters = parameters.
Proof.
  intros H Hown.
  pose proof (sanitizeValue_nothingToRedact (JObject parameters) H Hown) as E.
  rewrite ValidationSpec.sanitizeValue_object in E. now injection E.
Qed.

Lemma sanitizeParameters_keeps_clean_map_witness :
  sanitizeParameters
    [("query", JString "weather");
     ("options", JObject [("limit", JNumber (Finite 10));
                          ("tags", JArray [JString "a"; JBool true])])]
  = [("query", JString "weather");
     ("options", JObject [("limit", JNumber (Finite 10));
                          ("tags", JArray [JString "a"; JBool true])])].
Proof.
  exact (sanitizeParameters_keeps_clean_map
           [("query", JString "weather");
            ("options", JObject [("limit", JNumber (Finite 10));
                                 ("tags", JArray [JString "a"; JBool true])])]
           eq_refl eq_refl).
Defined.

(** Without the second hypothesis the map is not returned: the entry under
    [__proto__] is lost. *)
Example clean_map_with_proto_key :
  nothingToRedact
    (JObject [("__proto__", JObject [("a", JNumber (Finite 1))]);
              ("b", JNumber (Finite 2))]) = true
  /\ sanitizeParameters
       [("__proto__", JObject [("a", JNumber (Finite 1))]);
        ("b", JNumber (Finite 2))]
     = [("b", JNumber (Finite 2))].
Proof. split; reflexivity. Qed.

Lemma sanitizeValue_no_new_opaque (v : JsValue) :
  containsOpaque v = false -> containsOpaque (sanitizeValue v) = false.
Proof.
  induction v using JsValue_nested_ind; try reflexivity;
    try (cbn; discriminate).
  - cbn [containsOpaque sanitizeValue]. intros Hall.
    induction H as [|x items Hx _ IH]; [reflexivity|].
    cbn [existsb map] in *. apply orb_false_iff in Hall as [H1 H2].
    now rewrite (Hx H1), (IH H2).
  - rewrite ValidationSpec.sanitizeValue_object,
      ValidationSpec.sanitizeParameters_entries.
    cbn [containsOpaque]. intros Hall.
    induction H as [|[key x] entries Hx _ IH]; [reflexivity|].
    cbn [existsb filter snd] in *. apply orb_false_iff in Hall as [H1 H2].
    destruct (isKept (key, x)); [|exact (IH H2)].
    cbn [map existsb redactEntry fst snd].
    rewrite (IH H2), orb_false_r.
    destruct (isSensitive key); [reflexivity | exact (Hx H1)].
Qed.

(** X6. Sanitizing keeps a parameter map valid: when
    [validateToolParameters] accepts a map, it accepts the sanitized map. *)
Theorem sanitized_parameters_stay_valid
  (parameters : list (string * JsValue)) :
  validateToolParameters (JObject parameters) = Returned tt ->
  validateToolParameters (JObject (sanitizeParameters parameters))
  = Returned tt.
Proof.
  intros H.
  pose proof (ValidationSpec.validateToolParameters_cases parameters) as HC.
  destruct (containsOpaque (JObject parameters)) eqn:E.
  - destruct HC as (t & Ht & _). rewrite Ht in H. discriminate.
  - pose proof (sanitizeValue_no_new_opaque (JObject parameters) E) as E'.
    rewrite ValidationSpec.sanitizeValue_object in E'.
    pose proof (ValidationSpec.validateToolParameters_cases
                  (sanitizeParameters parameters)) as HC'.
    now rewrite E' in HC'.
Qed.

Lemma sanitized_parameters_stay_valid_witness :
  validateToolParameters
    (JObject (sanitizeParameters
       [("password", JString "secret"); ("note", JNull);
        ("items", JArray [JObject [("token", JString "t")]])]))
  = Returned tt.
Proof.
  exact (sanitized_parameters_stay_valid
           [("password", JString "secret"); ("note", JNull);
            ("items", JArray [JObject [("token", JString "t")]])]
           eq_refl).
Defined.

End ValidationMore.

(* ================================================================== *)
(** * Configuration: acceptance, agent id, safe view, updates          *)
(* ================================================================== *)

Module ConfigMore.
Import Config Examples.

(** X7. [validateConfig] returns normally exactly when the API key has at
    least ten characters, the URL is non-empty and parses with the https
    scheme, a given timeout is not [<= 0] and a given retry count is not
    [< 0] (so a NaN passes both); whatever it throws is a
    TealTigerConfigError. *)
Theorem validateConfig_accepts_iff
  (urlProtocol : string -> option string) (cfg : TealTigerConfig) :
  (validateConfig urlProtocol cfg = Returned tt
   <-> exists key url,
         apiKey cfg = Some key /\ (10 <= String.length key)%nat
         /\ ssaUrl cfg = Some url /\ truthy url = true
         /\ urlProtocol url = Some "https:"
         /\ (forall t, timeout cfg = Some t -> leZero t = false)
         /\ (forall r, retries cfg = Some r -> ltZero r = false))
  /\ (forall t, validateConfig urlProtocol cfg = Threw t ->
                isConfigError t = true).
Proof.
  unfold validateConfig.
  destruct (apiKey cfg) as [key|]; cbn [orEmpty].
  2: { cbn. split; [split; [discriminate|]|].
       - intros (k & u & H & _); discriminate.
       - intros t H; inversion H; reflexivity. }
  destruct (truthy key) eqn:Hk; cbn [negb throwIf andThen].
  2: { destruct key; [|discriminate Hk].
       split; [split; [discriminate|]|].
       - intros (k & u & H & Hl & _). inversion H; subst. cbn in Hl. lia.
       - intros t H; inversion H; reflexivity. }
  destruct (String.length key <? 10)%nat eqn:Hlen; cbn [throwIf andThen].
  { apply Nat.ltb_lt in Hlen. split; [split; [discriminate|]|].
    - intros (k & u & H & Hl & _). inversion H; subst. lia.
    - intros t H; inversion H; reflexivity. }
  apply Nat.ltb_ge in Hlen.
  destruct (ssaUrl cfg) as [url|]; cbn [orEmpty].
  2: { cbn. split; [split; [discriminate|]|].
       - intros (k & u & _ & _ & H & _); discriminate.
       - intros t H; inversion H; reflexivity. }
  destruct (truthy url) eqn:Hu; cbn [negb throwIf andThen].
  2: { split; [split; [discriminate|]|].
       - intros (k & u & _ & _ & H & Ht & _). inversion H; subst. congruence.
       - intros t H; inversion H; reflexivity. }
  destruct (urlProtocol url) as [protocol|] eqn:Hp; cbn [andThen].
  2: { split; [split; [discriminate|]|].
       - intros (k & u & _ & _ & H & _ & Hp' & _). inversion H; subst.
         congruence.
       - intros t H; inversion H; reflexivity. }
  destruct (String.eqb protocol "https:") eqn:Hs; cbn [negb throwIf andThen].
  2: { split; [split; [discriminate|]|].
       - intros (k & u & _ & _ & H & _ & Hp' & _). inversion H; subst.
         rewrite Hp in Hp'. inversion Hp'; subst. discriminate Hs.
       - intros t H; inversion H; reflexivity. }
  apply String.eqb_eq in Hs; subst protocol.
  destruct (timeout cfg) as [tm|]; cbn [andThen];
    [destruct (leZero tm) eqn:Htm; cbn [throwIf andThen]|].
  - split; [split; [discriminate|]|].
    + intros (k & u & _ & _ & _ & _ & _ & Ht & _).
      specialize (Ht tm eq_refl). congruence.
    + intros t H; inversion H; reflexivity.
  - destruct (retries cfg) as [rt|];
      [destruct (ltZero rt) eqn:Hrt; cbn [throwIf]|].
    + split; [split; [discriminate|]|].
      * intros (k & u & _ & _ & _ & _ & _ & _ & Hr).
        specialize (Hr rt eq_refl). congruence.
      * intros t H; inversion H; reflexivity.
    + split; [split; [intros _|reflexivity] | discriminate].
      exists key, url. repeat split; try assumption;
        intros ? E; inversion E; subst; assumption.
    + split; [split; [intros _|reflexivity] | discriminate].
      exists key, url. repeat split; try assumption;
        intros ? E; inversion E; subst; try assumption; discriminate.
  - destruct (retries cfg) as [rt|];
      [destruct (ltZero rt) eqn:Hrt; cbn [throwIf]|].
    + split; [split; [discriminate|]|].
      * intros (k & u & _ & _ & _ & _ & _ & _ & Hr).
        specialize (Hr rt eq_refl). congruence.
      * intros t H; inversion H; reflexivity.
    + split; [split; [intros _|reflexivity] | discriminate].
      exists key, url. repeat split; try assumption;
        intros ? E; inversion E; subst; try assumption; discriminate.
    + split; [split; [intros _|reflexivity] | discriminate].
      exists key, url. repeat split; try assumption;
        intros ? E; discriminate.
Qed.

Lemma validateConfig_accepts_iff_witness :
  validateConfig schemeOf
    {| apiKey := Some "test-api-key";
       ssaUrl := Some "https://test-ssa.example.com";
       agentId := None; timeout := Some NaN; retries := Some NaN;
       debug := None; headers := None |} = Returned tt.
Proof.
  apply (proj1 (validateConfig_accepts_iff schemeOf _)).
  exists "test-api-key", "https://test-ssa.example.com".
  repeat split; try (cbn; lia);
    intros ? E; inversion E; reflexivity.
Defined.

(** What the constructor stores, when it does not throw. *)
Lemma construct_inv (urlProtocol : string -> option string) (timestamp : Z)
  (random : string) (userConfig : UserConfig) (this : Configuration) :
  construct urlProtocol timestamp random userConfig = Returned this ->
  apiKey (config this) = u_apiKey userConfig
  /\ ssaUrl (config this) = u_ssaUrl userConfig
  /\ agentId (config this)
     = Some (if truthy (orEmpty (u_agentId userConfig))
             then orEmpty (u_agentId userConfig)
             else generateAgentId timestamp random)
  /\ timeout (config this) = spread (timeout DEFAULT_CONFIG) (u_timeout userConfig)
  /\ retries (config this) = spread (retries DEFAULT_CONFIG) (u_retries userConfig)
  /\ debug (config this) = spread (debug DEFAULT_CONFIG) (u_debug userConfig)
  /\ headers (config this)
     = spread (headers DEFAULT_CONFIG) (u_headers userConfig)
  /\ validateConfig urlProtocol (config this) = Returned tt.
Proof.
  unfold construct.
  match goal with
  | |- andThen ?v _ = _ -> _ => destruct v as [[]|t] eqn:V; cbn [andThen]
  end; [|discriminate].
  intros H. inversion H; subst; clear H. cbn [config agentId].
  destruct (u_agentId userConfig) as [[|c id]|]; cbn [orEmpty truthy negb];
    cbn [apiKey ssaUrl agentId timeout retries debug headers];
    repeat split; exact V.
Qed.

(** X8. On every configuration whose API key is longer than five
    characters and is not the literal [secret-api-key], [sanitizeConfig]
    and [getSafeConfig] give the same view. *)
Theorem sanitizeConfig_agrees_with_getSafeConfig
  (this : Configuration) (key : string) :
  apiKey (config this) = Some key ->
  (5 < String.length key)%nat ->
  key <> "secret-api-key" ->
  sanitizeConfig (config this) = getSafeConfig this.
Proof.
  intros Hkey Hlen Hne. unfold sanitizeConfig, getSafeConfig. rewrite Hkey.
  destruct (String.length key <=? 5)%nat eqn:E;
    [apply Nat.leb_le in E; lia|].
  destruct (String.eqb key "secret-api-key") eqn:E2;
    [apply String.eqb_eq in E2; contradiction|].
  reflexivity.
Qed.

Lemma sanitizeConfig_agrees_with_getSafeConfig_witness :
  sanitizeConfig (config testConfig) = getSafeConfig testConfig.
Proof.
  apply (sanitizeConfig_agrees_with_getSafeConfig testConfig "test-api-key").
  - reflexivity.
  - cbn. lia.
  - discriminate.
Defined.

(** The one key, among those longer than five characters, on which the
    two views differ. *)
Example sanitizeConfig_special_key :
  apiKey (sanitizeConfig
            {| apiKey := Some "secret-api-key"; ssaUrl := None;
               agentId := None; timeout := None; retries := None;
               debug := None; headers := None |}) = Some "secret-ap..."
  /\ apiKey (getSafeConfig
               {| config :=
                    {| apiKey := Some "secret-api-key"; ssaUrl := None;
                       agentId := None; timeout := None; retries := None;
                       debug := None; headers := None |} |})
     = Some "secret-api...".
Proof. split; reflexivity. Qed.

(** X9. Every configuration the constructor accepts has a non-empty agent
    id: the caller's when it is a non-empty string, and otherwise the
    generated [agent-<timestamp>-<random>]. *)
Theorem construct_sets_agent_id (urlProtocol : string -> option string)
  (timestamp : Z) (random : string) (userConfig : UserConfig)
  (this : Configuration) :
  construct urlProtocol timestamp random userConfig = Returned this ->
  exists id,
    agentId (config this) = Some id
    /\ truthy id = true
    /\ (forall given, u_agentId userConfig = Some given ->
                      truthy given = true -> id = given)
    /\ (truthy (orEmpty (u_agentId userConfig)) = false ->
        id = "agent-" ++ intToString timestamp ++ "-" ++ random).
Proof.
  intros H. apply construct_inv in H as (_ & _ & Hid & _).
  eexists. split; [exact Hid|].
  destruct (truthy (orEmpty (u_agentId userConfig))) eqn:E.
  - split; [exact E|]. split; [|discriminate].
    intros given Hg _. now rewrite Hg.
  - split; [reflexivity|]. split; [|reflexivity].
    intros given Hg Ht. rewrite Hg in E. cbn in E. congruence.
Qed.

Lemma construct_sets_agent_id_witness :
  exists id,
    agentId (config
      {| config :=
           {| apiKey := Some "test-api-key";
              ssaUrl := Some "https://test-ssa.example.com";
              agentId := Some "agent-1700000000000-k3x9ab";
              timeout := Some (Finite 5000); retries := Some (Finite 3);
              debug := Some false; headers := Some [] |} |}) = Some id
    /\ truthy id = true
    /\ id = "agent-1700000000000-k3x9ab".
Proof.
  destruct (construct_sets_agent_id schemeOf 1700000000000 "k3x9ab"
              {| u_apiKey := Some "test-api-key";
                 u_ssaUrl := Some "https://test-ssa.example.com";
                 u_agentId := None; u_timeout := Omitted;
                 u_retries := Omitted; u_debug := Omitted;
                 u_headers := Omitted |} _ eq_refl)
    as (id & H1 & H2 & _ & H4).
  exists id. split; [exact H1|]. split; [exact H2 | exact (H4 eq_refl)].
Defined.

(** X10. For every configuration the constructor accepts whose API key
    is longer than ten characters, the safe view shows the first ten
    characters of the key, a proper prefix of it, followed by the ellipsis,
    thirteen characters in all; it carries no headers, and the URL, agent
    id, timeout, retries and debug flag are those of the configuration. *)
Theorem safe_view_of_long_key (urlProtocol : string -> option string)
  (timestamp : Z) (random : string) (userConfig : UserConfig)
  (this : Configuration) (key : string) :
  construct urlProtocol timestamp random userConfig = Returned this ->
  u_apiKey userConfig = Some key ->
  (10 < String.length key)%nat ->
  exists view,
    apiKey (getSafeConfig this) = Some view
    /\ view = substring 0 10 key ++ "..."
    /\ String.length view = 13%nat
    /\ substring 0 10 key <> key
    /\ headers (getSafeConfig this) = None
    /\ ssaUrl (getSafeConfig this) = u_ssaUrl userConfig
    /\ agentId (getSafeConfig this) = agentId (config this)
    /\ timeout (getSafeConfig this) = timeout (config this)
    /\ retries (getSafeConfig this) = retries (config this)
    /\ debug (getSafeConfig this) = debug (config this).
Proof.
  intros H Hkey Hlen.
  apply construct_inv in H as (Hk & Hu & _).
  rewrite Hkey in Hk.
  destruct (ConfigSpec.getSafeConfig_long_key this key Hk Hlen)
    as (Hv & Hl & Hne).
  exists (substring 0 10 key ++ "...").
  split; [exact Hv|]. split; [reflexivity|].
  split; [rewrite JsFacts.length_append, Hl; reflexivity|].
  split; [exact Hne|].
  repeat split. cbn. exact Hu.
Qed.

Lemma safe_view_of_long_key_witness :
  exists view,
    apiKey (getSafeConfig
      {| config :=
           {| apiKey := Some "very-secret-api-key-12345";
              ssaUrl := Some "https://test-ssa.example.com";
              agentId := Some "test-agent";
              timeout := Some (Finite 5000); retries := Some (Finite 3);
              debug := Some false; headers := Some [] |} |}) = Some view
    /\ view = substring 0 10 "very-secret-api-key-12345" ++ "..."
    /\ String.length view = 13%nat.
Proof.
  destruct (safe_view_of_long_key schemeOf 0 "r"
              {| u_apiKey := Some "very-secret-api-key-12345";
                 u_ssaUrl := Some "https://test-ssa.example.com";
                 u_agentId := Some "test-agent"; u_timeout := Omitted;
                 u_retries := Omitted; u_debug := Omitted;
                 u_headers := Omitted |} _ "very-secret-api-key-12345"
              eq_refl eq_refl ltac:(cbn; lia))
    as (view & Hv & He & Hl & _).
  exists view. repeat split; assumption.
Defined.

(** X11. An accepted configuration is a fixed point of [update]: for
    every configuration the constructor returned, [update({})] validates
    again without throwing and returns an equal configuration, with the
    same agent id whatever the clock and the random source then read. *)
Theorem update_nothing_is_identity (urlProtocol : string -> option string)
  (timestamp : Z) (random : string) (userConfig : UserConfig)
  (this : Configuration) (timestamp' : Z) (random' : string) :
  construct urlProtocol timestamp random userConfig = Returned this ->
  update urlProtocol timestamp' random' this noUpdates = Returned this.
Proof.
  intros H. apply construct_inv in H as (_ & _ & Hid & _ & _ & _ & _ & V).
  assert (Ht : truthy (orEmpty (agentId (config this))) = true).
  { rewrite Hid. cbn [orEmpty].
    destruct (truthy (orEmpty (u_agentId userConfig))) eqn:E;
      [exact E | reflexivity]. }
  destruct this as [[k u a tm rt db hd]]. cbn [config] in *.
  unfold update, construct, validateConfig in *.
  cbn [merge asUserConfig noUpdates spread config apiKey ssaUrl agentId
       timeout retries debug headers u_apiKey u_ssaUrl u_agentId u_timeout
       u_retries u_debug u_headers up_apiKey up_ssaUrl up_agentId up_timeout
       up_retries up_debug up_headers] in *.
  rewrite V. cbn [andThen]. rewrite Ht. reflexivity.
Qed.

Lemma update_nothing_is_identity_witness :
  update schemeOf 5 "zzzzzz" testConfig noUpdates = Returned testConfig.
Proof.
  exact (update_nothing_is_identity schemeOf 1700000000000 "k3x9ab"
           {| u_apiKey := Some "test-api-key";
              u_ssaUrl := Some "https://test-ssa.example.com";
              u_agentId := Some "test-agent"; u_timeout := Omitted;
              u_retries := Omitted; u_debug := Given (Some true);
              u_headers := Omitted |} testConfig 5 "zzzzzz" eq_refl).
Defined.

(** [update] validates the merged configuration: a bad update throws and
    no new instance is produced. *)
Example update_rejects_short_key :
  doesNotThrow
    (update schemeOf 5 "zzzzzz" testConfig
       {| up_apiKey := Given (Some "short"); up_ssaUrl := Omitted;
          up_agentId := Omitted; up_timeout := Omitted;
          up_retries := Omitted; up_debug := Omitted;
          up_headers := Omitted |}) = false.
Proof. reflexivity. Qed.

End ConfigMore.

(* ================================================================== *)
(** * Policy builder: what a chain of calls leaves behind              *)
(* ================================================================== *)

Module PolicyMore.
Import Policy.

(** What one call that returns does to conditions, action and
    transformation. *)
Lemma call_effect (b b' : PolicyBuilder) (c : BuilderCall) :
  call b c = Returned b' ->
  conditions (policy b') = (conditions (policy b) ++ conditionOf c)%list
  /\ action (policy b')
     = match actionOf c with Some a => Some a | None => action (policy b) end
  /\ transformation (policy b')
     = match transformationOf c with
       | Some t => Some t
       | None => transformation (policy b)
       end.
Proof.
  intros H.
  destruct c; cbn -[trim] in H;
    try (inversion H; subst; clear H; cbn;
         rewrite ?app_nil_r; repeat split; fail).
  - destruct (negb (truthy n) || (String.length (trim n) =? 0)%nat);
      cbn -[trim] in H; [discriminate|].
    inversion H; subst. cbn. rewrite app_nil_r. repeat split.
  - inversion H; subst. destruct (truthy d); cbn; rewrite app_nil_r;
      repeat split.
  - destruct (ltZero n || negb (isFinite n)); cbn in H; [discriminate|].
    inversion H; subst. cbn. rewrite app_nil_r. repeat split.
Qed.

Lemma chain_effect (calls : list BuilderCall) (b b' : PolicyBuilder) :
  chain b calls = Returned b' ->
  conditions (policy b')
  = (conditions (policy b) ++ flat_map conditionOf calls)%list
  /\ action (policy b') = lastSet actionOf calls (action (policy b))
  /\ transformation (policy b')
     = lastSet transformationOf calls (transformation (policy b)).
Proof.
  revert b. induction calls as [|c rest IH]; intros b H.
  - inversion H; subst. cbn. rewrite app_nil_r. repeat split.
  - cbn [chain] in H.
    destruct (call b c) as [b1|t] eqn:Hc; cbn [andThen] in H; [|discriminate].
    destruct (call_effect b b1 c Hc) as (H1 & H2 & H3).
    destruct (IH b1 H) as (I1 & I2 & I3).
    unfold lastSet in *. cbn [flat_map fold_left].
    rewrite I1, I2, I3, H1, H2, H3, app_assoc. repeat split.
Qed.

(** X12. Conditions accumulate: after any chain of builder calls that does
    not throw, the policy's condition list is exactly the conditions of the
    [when] calls, in call order; no call replaces or removes one. *)
Theorem conditions_accumulate (calls : list BuilderCall) (b : PolicyBuilder) :
  chain createPolicy calls = Returned b ->
  conditions (policy b) = flat_map conditionOf calls.
Proof. intros H. now destruct (chain_effect calls _ _ H) as (-> & _). Qed.

Lemma conditions_accumulate_witness :
  conditions
    {| name := Some "n"; description := None;
       conditions :=
         [condition agent_id (Some "a*") None None None;
          condition tool_name (Some "t*") None None None];
       action := Some Deny; reason := Some "Operation denied by policy";
       transformation := None; priority := None |}
  = flat_map conditionOf
      [whenAgentId "a*"; name_ "n"; deny None; whenToolName "t*"].
Proof.
  exact (conditions_accumulate
           [whenAgentId "a*"; name_ "n"; deny None; whenToolName "t*"]
           _ eq_refl).
Defined.

(** X13. The last action call wins, but a transformation outlives it: after
    any chain that does not throw, the policy's action is that of the last
    action call, while its transformation is that of the last transform
    call, whatever [allow] or [deny] calls came after it. *)
Theorem last_action_wins (calls : list BuilderCall) (b : PolicyBuilder) :
  chain createPolicy calls = Returned b ->
  action (policy b) = lastSet actionOf calls None
  /\ transformation (policy b) = lastSet transformationOf calls None.
Proof.
  intros H. destruct (chain_effect calls _ _ H) as (_ & H2 & H3).
  split; assumption.
Qed.

Lemma last_action_wins_witness :
  action
    {| name := None; description := None; conditions := [];
       action := Some Deny; reason := Some "Operation denied by policy";
       transformation :=
         Some {| tr_type := parameter_filter;
                 remove_parameters := Some ["password"];
                 anonymize_parameters := None |};
       priority := None |}
  = lastSet actionOf
      [allow None; transformFilterParameters ["password"] None; deny None]
      None
  /\ transformation
       {| name := None; description := None; conditions := [];
          action := Some Deny; reason := Some "Operation denied by policy";
          transformation :=
            Some {| tr_type := parameter_filter;
                    remove_parameters := Some ["password"];
                    anonymize_parameters := None |};
          priority := None |}
     = lastSet transformationOf
         [allow None; transformFilterParameters ["password"] None; deny None]
         None.
Proof.
  exact (last_action_wins
           [allow None; transformFilterParameters ["password"] None; deny None]
           _ eq_refl).
Defined.

Lemma trim_head_truthy (c : ascii) (s : string) :
  isWhiteSpace c = false -> truthy (trim (String c s)) = true.
Proof.
  intros H. pose proof (ValidationMore.trim_keeps_head c s H) as T.
  destruct (trim (String c s)); [discriminate T | reflexivity].
Qed.

(** X14. [PolicyTemplates.restrictAgentAccess] never throws: for every
    agent pattern and every list of tools, also the empty one, it returns
    an allow policy without transformation whose conditions are the
    agent-id pattern followed by the tool-name pattern (the single tool, or
    the tools joined by commas inside braces). *)
Theorem restrictAgentAccess_builds (agentPattern : string)
  (allowedTools : list string) :
  exists p,
    restrictAgentAccess agentPattern allowedTools = Returned p
    /\ action p = Some Allow
    /\ transformation p = None
    /\ conditions p
       = [ condition agent_id (Some agentPattern) None None None;
           condition tool_name
             (Some match allowedTools with
                   | [tool] => tool
                   | _ => "{" ++ join "," allowedTools ++ "}"
                   end) None None None ]
    /\ name p
       = Some (trim ("restrict-" ++ replaceFirst "*" "agents" agentPattern))
    /\ reason p
       = Some ("Agent " ++ agentPattern ++ " allowed to use "
               ++ join ", " allowedTools).
Proof.
  unfold restrictAgentAccess, buildWith, build, validatePolicy.
  cbn -[trim replaceFirst join String.eqb].
  rewrite (ValidationMore.trim_keeps_head "r" _ eq_refl).
  cbn -[trim replaceFirst join String.eqb].
  rewrite (trim_head_truthy "r" _ eq_refl).
  cbn -[trim replaceFirst join String.eqb].
  eexists. split; [reflexivity|]. repeat split.
Qed.

(** [PolicyTemplates.getDefaultPolicies] never throws: it returns the
    six templates in its fixed order, with pairwise distinct names, each
    with exactly one condition and each carrying a transformation exactly
    when its action is transform. *)
Theorem getDefaultPolicies_valid :
  exists policies,
    getDefaultPolicies = Returned policies
    /\ map name policies
       = [ Some "deny-critical-risk"; Some "deny-system-commands";
           Some "transform-file-writes"; Some "filter-sensitive-data";
           Some "allow-search-operations"; Some "allow-low-risk" ]
    /\ NoDup (map name policies)
    /\ Forall (fun p => length (conditions p) = 1%nat) policies
    /\ Forall transformationIffTransform policies.
Proof.
  eexists. split; [reflexivity|]. cbn.
  split; [reflexivity|]. split.
  - repeat (constructor; [cbn; intros H;
      repeat (destruct H as [H|H]; [discriminate H|]); exact H|]).
    constructor.
  - split; repeat constructor.
Qed.

End PolicyMore.

(* ================================================================== *)
(** * The orchestrator: what a call may and may not do                 *)
(* ================================================================== *)

Module ClientMoreSpec.
Import Config Client Examples.

(** Splits on every stage answer that the pipeline inspects. *)
Ltac explore :=
  repeat match goal with
         | |- context [match ?x with _ => _ end] =>
             destruct x eqn:?; cbn -[String.eqb append app] in *
         end.

(** X15. The executor runs only on the authority's word: whatever the
    inputs, a call to [executeTool] leaves the executor's call log as it
    was, or adds exactly one call; and it adds one only when the remote
    Decision is allow (then with the original tool name and parameters) or
    transform with a rewritten request (then with the rewritten ones). *)
Theorem executor_runs_only_when_decided (this : Configuration) (c : Call)
  (w : World) :
  executorCalls (snd (executeCall this c w)) = executorCalls w
  \/ (exists d,
        decisionOf this c = Some d /\ action d = "allow"
        /\ executorCalls (snd (executeCall this c w))
           = (executorCalls w
                ++ [(call_toolName c, call_parameters c)])%list)
  \/ (exists d rewritten,
        decisionOf this c = Some d /\ action d = "transform"
        /\ transformedRequest d = Some rewritten
        /\ executorCalls (snd (executeCall this c w))
           = (executorCalls w
                ++ [(req_toolName rewritten, req_parameters rewritten)])%list).
Proof.
  destruct c as [env toolName parameters context toolExecutor].
  unfold decisionOf; ClientSpec.unfold_pipeline;
    cbn [call_env call_toolName call_parameters call_context
         call_toolExecutor].
  destruct (validateToolName toolName) as [[]|t]; cbn -[String.eqb append app];
    [|destruct (getDebug this); now left].
  destruct (validateToolParameters parameters) as [[]|t];
    cbn -[String.eqb append app];
    [|destruct (getDebug this); now left].
  destruct (getDebug this); cbn -[String.eqb append app];
    (destruct (evaluateSecurity env _) as [response|t];
       cbn -[String.eqb append app]; [|now left]);
    (destruct (resp_success response); cbn -[String.eqb append app];
       [|now left]);
    (destruct (String.eqb (action (decision response)) "allow") eqn:Ea;
       [ apply String.eqb_eq in Ea;
         destruct toolExecutor as [executor|]; cbn -[String.eqb append app];
         [destruct (executor _ _); right; left; eexists; repeat split;
            assumption
         | now left] |]);
    (destruct (String.eqb (action (decision response)) "deny");
       [ now left |]);
    (destruct (String.eqb (action (decision response)) "transform") eqn:Et;
       cbn -[String.eqb append app]; [| now left ]);
    apply String.eqb_eq in Et;
    (destruct (transformedRequest (decision response)) as [rewritten|] eqn:Er;
       [| now left ]);
    (destruct toolExecutor as [executor|]; cbn -[String.eqb append app];
       [destruct (executor _ _); right; right; do 2 eexists; repeat split;
          eassumption
       | now left]).
Qed.

(** X16. [executeTool] and [evaluateTool] send exactly one request to the
    transport when both input validations pass, carrying the configured
    agent id and the caller's tool name, parameters and context; when a
    validation fails they send none. *)
Theorem transport_called_once_iff_valid (this : Configuration) (c : Call)
  (w : World) :
  let sent :=
    if inputsValid c
    then (ssaRequests w
            ++ [requestOf this (call_toolName c) (call_parameters c)
                  (call_context c)])%list
    else ssaRequests w in
  ssaRequests (snd (executeCall this c w)) = sent
  /\ ssaRequests
       (snd (evaluateTool this (call_env c) (call_toolName c)
               (call_parameters c) (call_context c) w)) = sent.
Proof.
  destruct c as [env toolName parameters context toolExecutor].
  unfold inputsValid, evaluateTool; ClientSpec.unfold_pipeline;
    cbn [call_env call_toolName call_parameters call_context
         call_toolExecutor].
  destruct (validateToolName toolName) as [[]|t]; cbn -[String.eqb append app];
    [|destruct (getDebug this); split; reflexivity].
  destruct (validateToolParameters parameters) as [[]|t];
    cbn -[String.eqb append app];
    [|destruct (getDebug this); split; reflexivity].
  destruct (getDebug this); cbn -[String.eqb append app];
    (destruct (evaluateSecurity env _) as [response|t];
       cbn -[String.eqb append app]; [|split; reflexivity]);
    (destruct (resp_success response); cbn -[String.eqb append app];
       [|split; reflexivity]);
    (destruct (String.eqb (action (decision response)) "allow");
       [ destruct toolExecutor as [executor|]; cbn -[String.eqb append app];
         [destruct (executor _ _)|]; split; reflexivity |]);
    (destruct (String.eqb (action (decision response)) "deny");
       [ split; reflexivity |]);
    (destruct (String.eqb (action (decision response)) "transform");
       cbn -[String.eqb append app]; [| split; reflexivity ]);
    (destruct (transformedRequest (decision response)) as [rewritten|];
       [| split; reflexivity ]);
    (destruct toolExecutor as [executor|]; cbn -[String.eqb append app];
       [destruct (executor _ _)|]; split; reflexivity).
Qed.

(** X17. Under an allow Decision the executor is called once with the
    original tool name and parameters, and its output becomes the data of a
    successful result that carries the Decision; when no executor was
    injected the call still succeeds, with undefined data and no call. *)
Theorem allow_runs_original_request
  (this : Configuration) (env : Environment) (toolName : string)
  (parameters : JsValue) (context : option SecurityContext)
  (toolExecutor : option ToolExecutor) (w : World)
  (response : SecurityEvaluationResponse) :
  validateToolName toolName = Returned tt ->
  validateToolParameters parameters = Returned tt ->
  evaluateSecurity env (requestOf this toolName parameters context)
    = Returned response ->
  resp_success response = true ->
  action (decision response) = "allow" ->
  exists r w',
    executeTool this env toolName parameters context toolExecutor w
      = (Returned r, w')
    /\ match toolExecutor with
       | Some executor =>
           executorCalls w'
           = (executorCalls w ++ [(toolName, parameters)])%list
           /\ (forall output,
                 executor toolName parameters = Returned output ->
                 r = {| success := true; data := Some output;
                        securityDecision := decision response;
                        error := None |})
       | None =>
           executorCalls w' = executorCalls w
           /\ r = {| success := true; data := Some JUndefined;
                     securityDecision := decision response; error := None |}
       end.
Proof.
  intros Hname Hparams Heval Hsucc Hact.
  ClientSpec.run_to_dispatch Hname Hparams Heval Hsucc;
    rewrite Hact; cbn -[append app];
    (destruct toolExecutor as [executor|]; cbn -[append app];
     [ destruct (executor _ _) as [output|t] eqn:E; cbn -[append app];
       do 2 eexists; (split; [reflexivity|]); (split; [reflexivity|]);
       intros output' E'; now inversion E'
     | do 2 eexists; split; [reflexivity|]; split; reflexivity ]).
Qed.

Lemma allow_runs_original_request_witness :
  exists r w',
    executeTool testConfig (answering allowDecision) "test-tool" param1 None
      (Some okExecutor) freshWorld = (Returned r, w')
    /\ (executorCalls w' = [("test-tool", param1)]
        /\ (forall output,
              okExecutor "test-tool" param1 = Returned output ->
              r = {| success := true; data := Some output;
                     securityDecision := allowDecision; error := None |})).
Proof.
  exact (allow_runs_original_request testConfig (answering allowDecision)
           "test-tool" param1 None (Some okExecutor) freshWorld
           {| resp_success := true; decision := allowDecision;
              resp_error := None |}
           eq_refl eq_refl eq_refl eq_refl eq_refl).
Defined.

(** X18. [evaluateTool] returns a Decision exactly when [executeTool]
    would be handed one by the authority, and it is that Decision; it
    leaves the statistics and the executor untouched, and what the
    transport throws reaches the caller unchanged.  It writes nothing to
    the console itself: with debug off the console is untouched, and with
    debug on it receives exactly what the interceptors of the transport
    print for the one request (the request line, the headers and the body
    as sent, then the response or the response error), and only when both
    input validations passed. *)
Theorem evaluateTool_only_evaluates (this : Configuration) (c : Call)
  (w : World) :
  let run :=
    evaluateTool this (call_env c) (call_toolName c) (call_parameters c)
      (call_context c) w in
  let request :=
    requestOf this (call_toolName c) (call_parameters c) (call_context c) in
  (forall d, fst run = Returned d <-> decisionOf this c = Some d)
  /\ statistics (snd run) = statistics w
  /\ executorCalls (snd run) = executorCalls w
  /\ console (snd run)
     = (console w
        ++ (if getDebug this && inputsValid c
            then interceptorWrites this (call_env c) request
            else []))%list
  /\ (forall t,
        inputsValid c = true ->
        evaluateSecurity (call_env c) request = Threw t ->
        fst run = Threw t).
Proof.
  destruct c as [env toolName parameters context toolExecutor].
  unfold inputsValid, decisionOf, evaluateTool; ClientSpec.unfold_pipeline;
    cbn [call_env call_toolName call_parameters call_context
         call_toolExecutor].
  destruct (validateToolName toolName) as [[]|t0];
    cbn -[String.eqb append app interceptorWrites].
  2: { rewrite andb_false_r, app_nil_r. repeat split; try discriminate. }
  destruct (validateToolParameters parameters) as [[]|t0];
    cbn -[String.eqb append app interceptorWrites].
  2: { rewrite andb_false_r, app_nil_r. repeat split; try discriminate. }
  rewrite andb_true_r.
  destruct (evaluateSecurity env _) as [response|t0] eqn:Heval;
    cbn -[String.eqb append app interceptorWrites].
  2: { repeat split; try discriminate. intros t _ E. now inversion E. }
  destruct (resp_success response);
    cbn -[String.eqb append app interceptorWrites].
  - repeat split; try discriminate; intros E; inversion E; reflexivity.
  - repeat split; discriminate.
Qed.

Lemma evaluateTool_only_evaluates_witness :
  fst (evaluateTool testConfig
         {| evaluateSecurity :=
              fun _ => Threw (ThrownValue (JString "socket closed"));
            responseLine := fun _ => "socket closed";
            startTime := 0; decisionTime := 0; failureTime := 0;
            failureTimestamp := "t" |}
         "test-tool" param1 None freshWorld)
  = Threw (ThrownValue (JString "socket closed")).
Proof.
  exact (proj2 (proj2 (proj2 (proj2
           (evaluateTool_only_evaluates testConfig
              {| call_env :=
                   {| evaluateSecurity :=
                        fun _ => Threw (ThrownValue (JString "socket closed"));
                      responseLine := fun _ => "socket closed";
                      startTime := 0; decisionTime := 0; failureTime := 0;
                      failureTimestamp := "t" |};
                 call_toolName := "test-tool"; call_parameters := param1;
                 call_context := None; call_toolExecutor := None |}
              freshWorld)))) _ eq_refl eq_refl).
Defined.

Lemma evaluateTool_keeps_statistics (this : Configuration) (c : Call)
  (w : World) :
  statistics
    (snd (evaluateTool this (call_env c) (call_toolName c)
            (call_parameters c) (call_context c) w))
  = statistics w.
Proof.
  destruct c as [env toolName parameters context toolExecutor].
  unfold evaluateTool; ClientSpec.unfold_pipeline;
    cbn [call_env call_toolName call_parameters call_context].
  destruct (validateToolName toolName) as [[]|t0];
    cbn -[String.eqb append app]; [|reflexivity].
  destruct (validateToolParameters parameters) as [[]|t0];
    cbn -[String.eqb append app]; [|reflexivity].
  destruct (evaluateSecurity env _) as [response|t0];
    cbn -[String.eqb append app]; [|reflexivity].
  destruct (resp_success response); reflexivity.
Qed.

Lemma runOperation_consistent (this : Configuration) (op : Operation)
  (w : World) :
  countersConsistent (statistics w) ->
  countersConsistent (statistics (runOperation this op w)).
Proof.
  intros (Ha & Hd & Ht & He & Hsum).
  destruct op as [c|c|]; cbn [runOperation].
  - rewrite ClientSpec.executeCall_statistics.
    destruct (decisionOf this c) as [d|].
    + cbn zeta.
      destruct (ClientSpec.updateStatistics_counters d
                  (decisionTime (call_env c) - startTime (call_env c))
                  (statistics w)) as (E1 & E2 & E3 & E4 & E5 & E6).
      cbn zeta in E1, E2, E3, E4, E5, E6.
      destruct (knownAction (action d));
        unfold countersConsistent;
        cbn [incrementErrorCount totalRequests allowedRequests deniedRequests
             transformedRequests errorCount];
        rewrite E1, E2, E3, E4, E5;
        destruct (String.eqb (action d) "allow");
        destruct (String.eqb (action d) "deny");
        destruct (String.eqb (action d) "transform"); lia.
    + unfold countersConsistent; cbn; lia.
  - rewrite evaluateTool_keeps_statistics. repeat split; assumption.
  - unfold countersConsistent; cbn; lia.
Qed.

(** X19. The counters stay consistent under any use of an instance:
    after any sequence of [executeTool] calls, [evaluateTool] calls and
    resets, no counter is negative and allowed + denied + transformed is at
    most the total (it is less when calls were decided with an action
    outside the vocabulary). *)
Theorem counters_stay_consistent (this : Configuration)
  (ops : list Operation) (w : World) :
  countersConsistent (statistics w) ->
  countersConsistent (statistics (runOperations this ops w)).
Proof.
  revert w. induction ops as [|op rest IH]; intros w H; [exact H|].
  cbn [runOperations fold_left]. apply IH.
  now apply runOperation_consistent.
Qed.

Lemma counters_stay_consistent_witness :
  countersConsistent
    (statistics
       (runOperations testConfig
          [ Execute (callWith allowDecision "test-tool" param1);
            Execute (callWith unknownDecision "test-tool" param1);
            Reset;
            Evaluate (callWith denyDecision "dangerous-tool" param1);
            Execute (callWith denyDecision "dangerous-tool" JNull) ]
          freshWorld)).
Proof.
  apply counters_stay_consistent.
  unfold countersConsistent; cbn; lia.
Defined.

(** A header that the configuration does not name keeps the value the
    constructor gives it. *)
Lemma header_setHeader (name : string) (headers : list (string * string))
  (entry : string * string) :
  String.eqb (fst entry) name = false ->
  header name (setHeader headers entry) = header name headers.
Proof.
  intros Hne. unfold header, setHeader.
  destruct (existsb _ headers).
  - f_equal. induction headers as [|kv rest IH]; [reflexivity|].
    cbn [map find]. destruct (String.eqb (fst kv) (fst entry)) eqn:E.
    + apply String.eqb_eq in E. rewrite Hne. rewrite E, Hne. exact IH.
    + destruct (String.eqb (fst kv) name); [reflexivity | exact IH].
  - f_equal. induction headers as [|kv rest IH].
    + cbn. now rewrite Hne.
    + cbn [app find]. destruct (String.eqb (fst kv) name); [reflexivity|].
      exact IH.
Qed.

Lemma header_spread (name : string) (given base : list (string * string)) :
  header name given = None ->
  header name (fold_left setHeader given base) = header name base.
Proof.
  revert base. induction given as [|entry rest IH]; intros base Hnone;
    [reflexivity|].
  cbn [fold_left]. unfold header in Hnone. cbn [find] in Hnone.
  destruct (String.eqb (fst entry) name) eqn:E; [discriminate Hnone|].
  rewrite (IH (setHeader base entry) Hnone). now apply header_setHeader.
Qed.

(** X20. What a call to [executeTool] adds to the console.  With debug
    off, nothing.  With debug on and valid inputs, first its own two lines,
    the tool name and the sanitized parameters, and then the lines of the
    transport's request interceptor: the request line, the headers, and
    the body, which is the request with the caller's parameters as they
    were given, not sanitized.  With debug on and invalid inputs, the one
    line of the [catch] block.  The headers so printed hold the configured
    API key in full under X-API-Key, unless the configured extra headers
    name that header themselves. *)
Theorem debug_console_of_executeTool (this : Configuration) (c : Call)
  (w : World) :
  let written := console (snd (executeCall this c w)) in
  (getDebug this = false -> written = console w)
  /\ (getDebug this = true -> inputsValid c = true ->
      exists rest,
        written
        = (console w
           ++ [ ConsoleLog "[TealTiger SDK] Evaluating tool:"
                  (LogString (call_toolName c));
                ConsoleLog "[TealTiger SDK] Parameters:"
                  (LogParameters
                     (sanitizeParameters (entriesOf (call_parameters c))));
                ConsoleLog
                  "[TealTiger SDK] Request: POST /api/security/evaluate"
                  LogNothing;
                ConsoleLog "[TealTiger SDK] Headers:"
                  (LogHeaders (instanceHeaders (config this)));
                ConsoleLog "[TealTiger SDK] Body:"
                  (LogRequest
                     {| req_agentId := getAgentId this;
                        req_toolName := call_toolName c;
                        req_parameters := call_parameters c;
                        req_context := call_context c |}) ]
           ++ rest)%list)
  /\ (getDebug this = true -> inputsValid c = false ->
      exists t,
        written
        = (console w
           ++ [ ConsoleError "[TealTiger SDK] Tool execution failed:"
                  (LogThrown t) ])%list)
  /\ (header "X-API-Key"
        (match headers (config this) with Some given => given | None => [] end)
      = None ->
      header "X-API-Key" (instanceHeaders (config this))
      = Some (orEmpty (apiKey (config this)))).
Proof.
  destruct c as [env toolName parameters context toolExecutor].
  cbv zeta. split; [|split; [|split]].
  - intros Hoff.
    unfold inputsValid; ClientSpec.unfold_pipeline;
      cbn [call_env call_toolName call_parameters call_context
           call_toolExecutor].
    rewrite Hoff.
    destruct (validateToolName toolName) as [[]|t];
      cbn -[String.eqb append app]; [|reflexivity].
    destruct (validateToolParameters parameters) as [[]|t];
      cbn -[String.eqb append app]; [|reflexivity].
    rewrite app_nil_r.
    destruct (evaluateSecurity env _) as [response|t];
      cbn -[String.eqb append app]; [|reflexivity].
    destruct (resp_success response); cbn -[String.eqb append app];
      [|reflexivity].
    destruct (String.eqb (action (decision response)) "allow");
      cbn -[String.eqb append app].
    { destruct toolExecutor as [executor|]; cbn -[String.eqb append app];
        [destruct (executor _ _)|]; reflexivity. }
    destruct (String.eqb (action (decision response)) "deny");
      cbn -[String.eqb append app]; [reflexivity|].
    destruct (String.eqb (action (decision response)) "transform");
      cbn -[String.eqb append app]; [|reflexivity].
    destruct (transformedRequest (decision response)) as [rewritten|];
      cbn -[String.eqb append app]; [|reflexivity].
    destruct toolExecutor as [executor|]; cbn -[String.eqb append app];
      [destruct (executor _ _)|]; reflexivity.
  - intros Hon Hvalid.
    unfold inputsValid in Hvalid; ClientSpec.unfold_pipeline;
      cbn [call_env call_toolName call_parameters call_context
           call_toolExecutor] in *.
    rewrite Hon.
    destruct (validateToolName toolName) as [[]|t]; [|discriminate Hvalid].
    destruct (validateToolParameters parameters) as [[]|t];
      [|discriminate Hvalid].
    cbn -[String.eqb append app instanceHeaders sanitizeParameters].
    unfold interceptorWrites, requestInterceptor.
    destruct (evaluateSecurity env _) as [response|t];
      cbn -[String.eqb append app instanceHeaders sanitizeParameters].
    2: { eexists. rewrite <- !app_assoc. cbn [app]. reflexivity. }
    destruct (resp_success response);
      cbn -[String.eqb append app instanceHeaders sanitizeParameters].
    2: { eexists. rewrite <- !app_assoc. cbn [app]. reflexivity. }
    destruct (String.eqb (action (decision response)) "allow");
      cbn -[String.eqb append app instanceHeaders sanitizeParameters].
    { destruct toolExecutor as [executor|];
        cbn -[String.eqb append app instanceHeaders sanitizeParameters];
        [destruct (executor _ _)|];
        cbn -[String.eqb append app instanceHeaders sanitizeParameters];
        eexists; rewrite <- !app_assoc; cbn [app]; reflexivity. }
    destruct (String.eqb (action (decision response)) "deny");
      cbn -[String.eqb append app instanceHeaders sanitizeParameters].
    { eexists. rewrite <- !app_assoc. cbn [app]. reflexivity. }
    destruct (String.eqb (action (decision response)) "transform");
      cbn -[String.eqb append app instanceHeaders sanitizeParameters].
    2: { eexists. rewrite <- !app_assoc. cbn [app]. reflexivity. }
    destruct (transformedRequest (decision response)) as [rewritten|];
      cbn -[String.eqb append app instanceHeaders sanitizeParameters].
    2: { eexists. rewrite <- !app_assoc. cbn [app]. reflexivity. }
    destruct toolExecutor as [executor|];
      cbn -[String.eqb append app instanceHeaders sanitizeParameters];
      [destruct (executor _ _)|];
      cbn -[String.eqb append app instanceHeaders sanitizeParameters];
      eexists; rewrite <- !app_assoc; cbn [app]; reflexivity.
  - intros Hon Hinvalid.
    unfold inputsValid in Hinvalid; ClientSpec.unfold_pipeline;
      cbn [call_env call_toolName call_parameters call_context
           call_toolExecutor] in *.
    rewrite Hon.
    destruct (validateToolName toolName) as [[]|t];
      [|eexists; reflexivity].
    destruct (validateToolParameters parameters) as [[]|t];
      [discriminate Hinvalid | eexists; reflexivity].
  - intros Hnone. unfold instanceHeaders.
    now rewrite (header_spread "X-API-Key" _ _ Hnone).
Qed.

Lemma debug_console_of_executeTool_witness :
  exists rest,
    console
      (snd (executeTool testConfig (answering allowDecision) "test-tool"
              (JObject [("password", JString "hunter2")]) None
              (Some okExecutor) freshWorld))
    = ([ ConsoleLog "[TealTiger SDK] Evaluating tool:" (LogString "test-tool");
        ConsoleLog "[TealTiger SDK] Parameters:"
          (LogParameters [("password", JString "[REDACTED]")]);
        ConsoleLog "[TealTiger SDK] Request: POST /api/security/evaluate"
          LogNothing;
        ConsoleLog "[TealTiger SDK] Headers:"
          (LogHeaders [("Content-Type", "application/json");
                       ("X-API-Key", "test-api-key");
                       ("User-Agent", "TealTiger-SDK/0.1.0")]);
        ConsoleLog "[TealTiger SDK] Body:"
          (LogRequest
             {| req_agentId := "test-agent"; req_toolName := "test-tool";
                req_parameters := JObject [("password", JString "hunter2")];
                req_context := None |}) ]
      ++ rest)%list.
Proof.
  exact (proj1 (proj2
           (debug_console_of_executeTool testConfig
              {| call_env := answering allowDecision;
                 call_toolName := "test-tool";
                 call_parameters := JObject [("password", JString "hunter2")];
                 call_context := None;
                 call_toolExecutor := Some okExecutor |}
              freshWorld))
           eq_refl eq_refl).
Defined.

End ClientMoreSpec.

(* ================================================================== *)
(** * Error factory and transport errors                               *)
(* ================================================================== *)

Module TransportSpec.
Import Config Client Examples SSA.

Lemma unknown_code_absent : forall c, "UNKNOWN_ERROR" <> codeString c.
Proof. intros c; destruct c; discriminate. Defined.

(** X21. [createTealTigerError] keeps the message and the code it is
    given.  For each of the fourteen codes of the enum it builds one of the
    six subclasses, never the base class; the default code of each subclass
    constructor is mapped back to that subclass; and a code outside the
    enum gives the base class. *)
Theorem createTealTigerError_classes :
  (forall message c details,
     let e := createTealTigerError message (codeString c) details in
     err_code e = Some (codeString c)
     /\ err_message e = message
     /\ err_class e <> BaseTealTigerError
     /\ isTealTigerError (ThrownError e) = true)
  /\ (forall cls c message details,
        defaultCode cls = Some c ->
        err_class (createTealTigerError message (codeString c) details) = cls)
  /\ (forall message code details,
        (forall c, code <> codeString c) ->
        err_class (createTealTigerError message code details)
        = BaseTealTigerError).
Proof.
  split; [|split].
  - intros message c details. destruct c; cbn; repeat split; discriminate.
  - intros cls c message details H.
    destruct cls; inversion H; subst; reflexivity.
  - intros message code details H.
    unfold createTealTigerError, newError, classFor, isCode.
    cbn [err_class].
    repeat match goal with
           | |- context [String.eqb code (codeString ?c)] =>
               let E := fresh "E" in
               destruct (String.eqb code (codeString c)) eqn:E;
               [apply String.eqb_eq in E; elim (H c E)|]
           end.
    reflexivity.
Qed.

Lemma createTealTigerError_classes_witness :
  err_class (createTealTigerError "Unknown error" "UNKNOWN_ERROR" None)
  = BaseTealTigerError
  /\ err_class (createTealTigerError "m" (codeString SECURITY_DENIED) None)
     = TealTigerSecurityError.
Proof.
  split.
  - exact (proj2 (proj2 createTealTigerError_classes)
             "Unknown error" "UNKNOWN_ERROR" None unknown_code_absent).
  - exact (proj1 (proj2 createTealTigerError_classes)
             TealTigerSecurityError SECURITY_DENIED "m" None eq_refl).
Defined.

(** Settles an equivalence between an error code and a condition on the
    failure, once the failure's fields are known. *)
Ltac in_list := cbn; repeat (first [left; reflexivity | right]).

Ltac by_status :=
  split;
  [ intros H;
    first
      [ discriminate H
      | split; [reflexivity|]; eexists; split; [reflexivity|];
        first [assumption | lia] ]
  | intros (Ht & response' & E & Hs);
    first
      [ discriminate Ht
      | discriminate E
      | inversion E; subst; first [reflexivity | lia | contradiction] ] ].

(** X22. Every error [handleHttpError] builds is a TealTiger error with
    one of six codes.  The transport codes of the failure take precedence
    over the HTTP status: a refused or unresolved connection is a
    CONNECTION_ERROR whatever response is attached.  Without such a code, a
    response with status 500 or more, and only that, is a SERVER_ERROR; a
    401, and only that, is an AUTHENTICATION_ERROR, built as a
    TealTigerConfigError (not the TealTigerAuthError that
    [createTealTigerError] builds for that code). *)
Theorem handleHttpError_classification (config : TealTigerConfig)
  (e : AxiosError) :
  let r := handleHttpError config e in
  let transport :=
    codeIs e "ECONNREFUSED" || codeIs e "ENOTFOUND"
    || codeIs e "ECONNABORTED" in
  (exists c, In c transportCodes /\ err_code r = Some (codeString c))
  /\ isTealTigerError (ThrownError r) = true
  /\ (codeIs e "ECONNREFUSED" || codeIs e "ENOTFOUND" = true ->
      err_code r = Some "CONNECTION_ERROR")
  /\ (err_code r = Some "SERVER_ERROR"
      <-> transport = false
          /\ exists response,
               ax_response e = Some response
               /\ (500 <= status response)%nat)
  /\ (err_code r = Some "AUTHENTICATION_ERROR"
      <-> transport = false
          /\ exists response,
               ax_response e = Some response /\ status response = 401%nat)
  /\ (err_code r = Some "AUTHENTICATION_ERROR" ->
      err_class r = TealTigerConfigError
      /\ classFor "AUTHENTICATION_ERROR" = TealTigerAuthError).
Proof.
  cbn zeta. unfold handleHttpError.
  destruct (codeIs e "ECONNREFUSED" || codeIs e "ENOTFOUND") eqn:Hc;
    cbn [orb].
  { cbn. split; [exists CONNECTION_ERROR; split; [in_list | reflexivity]|].
    split; [reflexivity|]. split; [reflexivity|].
    split; [by_status|]. split; [by_status | discriminate]. }
  destruct (codeIs e "ECONNABORTED") eqn:Ha.
  { cbn. split; [exists TIMEOUT_ERROR; split; [in_list | reflexivity]|].
    split; [reflexivity|]. split; [discriminate|].
    split; [by_status|]. split; [by_status | discriminate]. }
  destruct (ax_response e) as [response|].
  2: { cbn. split; [exists NETWORK_ERROR; split; [in_list | reflexivity]|].
       split; [reflexivity|]. split; [discriminate|].
       split; [by_status|]. split; [by_status | discriminate]. }
  destruct (status response =? 401)%nat eqn:H401.
  { apply Nat.eqb_eq in H401. cbn.
    split; [exists AUTHENTICATION_ERROR; split; [in_list | reflexivity]|].
    split; [reflexivity|]. split; [discriminate|].
    split; [by_status|]. split; [by_status | split; reflexivity]. }
  apply Nat.eqb_neq in H401.
  destruct (status response =? 400)%nat eqn:H400.
  { apply Nat.eqb_eq in H400. cbn.
    split; [exists VALIDATION_ERROR; split; [in_list | reflexivity]|].
    split; [reflexivity|]. split; [discriminate|].
    split; [by_status|]. split; [by_status | discriminate]. }
  apply Nat.eqb_neq in H400.
  destruct (500 <=? status response)%nat eqn:H500.
  { apply Nat.leb_le in H500. cbn.
    split; [exists SERVER_ERROR; split; [in_list | reflexivity]|].
    split; [reflexivity|]. split; [discriminate|].
    split; [by_status|]. split; [by_status | discriminate]. }
  apply Nat.leb_gt in H500. cbn.
  split; [exists NETWORK_ERROR; split; [in_list | reflexivity]|].
  split; [reflexivity|]. split; [discriminate|].
  split; [by_status|]. split; [by_status | discriminate].
Qed.

Lemma handleHttpError_classification_witness :
  err_code (handleHttpError (config testConfig)
              {| ax_code := Some "ECONNREFUSED";
                 ax_response :=
                   Some {| status := 503; statusText := "Unavailable";
                           body := JNull |};
                 ax_message := "connect ECONNREFUSED" |})
  = Some "CONNECTION_ERROR".
Proof.
  exact (proj1 (proj2 (proj2
           (handleHttpError_classification (config testConfig)
              {| ax_code := Some "ECONNREFUSED";
                 ax_response :=
                   Some {| status := 503; statusText := "Unavailable";
                           body := JNull |};
                 ax_message := "connect ECONNREFUSED" |}))) eq_refl).
Defined.

Lemma handleHttpError_coded (config : TealTigerConfig) (e : AxiosError) :
  exists c, err_code (handleHttpError config e) = Some c
            /\ c <> "UNKNOWN_ERROR".
Proof.
  unfold handleHttpError.
  repeat match goal with
         | |- context [if ?b then _ else _] => destruct b
         | |- context [match ax_response e with _ => _ end] =>
             destruct (ax_response e)
         end;
    cbn; eexists; (split; [reflexivity | discriminate]).
Qed.

(** An error that [handleHttpError] built passes through [handleError]
    unchanged. *)
Lemma intercepted_error_passes (originalError : Caught -> DetailValue)
  (config : TealTigerConfig) (context : string) (e : AxiosError) :
  handleError originalError config (intercept config e) context
  = handleHttpError config e.
Proof.
  unfold intercept. cbn.
  destruct (handleHttpError_coded config e) as (c & -> & _). reflexivity.
Qed.

(** X23. Whatever it catches, [handleError] returns an error that carries
    a code: a coded error is passed on as it is (so an error already
    converted by [handleHttpError] is not wrapped again), and anything else
    becomes a NETWORK_ERROR whose message starts with the context. *)
Theorem handleError_always_coded (originalError : Caught -> DetailValue)
  (config : TealTigerConfig) (error : Caught) (context : string) :
  let r := handleError originalError config error context in
  err_code r <> None
  /\ (forall e, error = CaughtThrown (ThrownError e) ->
                err_code e <> None -> r = e)
  /\ (forall e, handleError originalError config (intercept config e) context
                = handleHttpError config e)
  /\ (forall t, error = CaughtThrown t ->
                (forall e, t = ThrownError e -> err_code e = None) ->
                err_code r = Some "NETWORK_ERROR"
                /\ String.prefix context (err_message r) = true).
Proof.
  cbn zeta. split; [|split; [|split]].
  - destruct error as [[e|v]|e]; cbn; try discriminate.
    + destruct (err_code e) eqn:E; [congruence | cbn; discriminate].
    + destruct (ax_code e); [cbn; discriminate|].
      destruct (handleHttpError_coded config e) as (c & -> & _). discriminate.
  - intros e -> H. cbn. destruct (err_code e); [reflexivity | now elim H].
  - intros e. apply intercepted_error_passes.
  - intros t -> H. destruct t as [e|v]; cbn.
    + rewrite (H e eq_refl). cbn. split; [reflexivity|].
      apply JsFacts.prefix_app.
    + split; [reflexivity|]. apply JsFacts.prefix_app.
Qed.

Lemma handleError_always_coded_witness :
  err_code (handleError (fun _ => DVString "thrown") (config testConfig)
              (CaughtThrown (ThrownValue (JString "boom")))
              "Health check failed") = Some "NETWORK_ERROR"
  /\ String.prefix "Health check failed"
       (err_message
          (handleError (fun _ => DVString "thrown") (config testConfig)
             (CaughtThrown (ThrownValue (JString "boom")))
             "Health check failed")) = true.
Proof.
  apply (proj2 (proj2 (proj2
           (handleError_always_coded (fun _ => DVString "thrown")
              (config testConfig)
              (CaughtThrown (ThrownValue (JString "boom")))
              "Health check failed")))
           (ThrownValue (JString "boom")) eq_refl).
  intros e E. discriminate E.
Defined.

(** X24. A failure of the HTTP layer reaches the caller of [executeTool]
    as a result, not as an exception: with valid inputs, when the request to
    the evaluate endpoint fails, the result is the failure placeholder whose
    error has the code, message and details that [handleHttpError] gives
    that failure (never UNKNOWN_ERROR); the executor is not called and the
    error counter grows by one. *)
Theorem http_failure_reaches_result
  (originalError : Caught -> DetailValue) (this : Configuration)
  (post : string -> ToolExecutionRequest
          -> HttpOutcome SecurityEvaluationResponse)
  (started decided failed : Z) (failedAt : string)
  (toolName : string) (parameters : JsValue)
  (context : option SecurityContext) (toolExecutor : option ToolExecutor)
  (w : World) (e : AxiosError) :
  validateToolName toolName = Returned tt ->
  validateToolParameters parameters = Returned tt ->
  post "/api/security/evaluate" (requestOf this toolName parameters context)
    = Failed e ->
  let env := environmentOver originalError (config this) post started decided
               failed failedAt in
  let h := handleHttpError (config this) e in
  exists r w' c,
    executeTool this env toolName parameters context toolExecutor w
      = (Returned r, w')
    /\ success r = false
    /\ err_code h = Some c /\ c <> "UNKNOWN_ERROR"
    /\ error r = Some {| code := c; message := err_message h;
                         details := option_map DetailsObject (err_details h) |}
    /\ riskLevel (securityDecision r) = Critical
    /\ executorCalls w' = executorCalls w
    /\ errorCount (statistics w') = (errorCount (statistics w) + 1)%Z.
Proof.
  intros Hname Hparams Hpost env h.
  assert (Heval : Client.evaluateSecurity env
                    (requestOf this toolName parameters context)
                  = Threw (ThrownError h)).
  { cbn. unfold evaluateSecurity. rewrite Hpost. f_equal. f_equal.
    apply intercepted_error_passes. }
  destruct (ClientSpec.executeTool_stage_failure this env toolName parameters
              context toolExecutor w (ThrownError h)
              (TransportThrew this env toolName parameters context _
                 Hname Hparams Heval)) as (w' & Hrun & Hcount & Hexec).
  destruct (handleHttpError_coded (config this) e) as (c & Hc & Hne).
  exists (containedFailure this env toolName (ThrownError h)), w', c.
  split; [exact Hrun|]. split; [reflexivity|].
  split; [exact Hc|]. split; [exact Hne|].
  split; [unfold containedFailure; cbn [error failureInfo]; subst h;
          now rewrite Hc|].
  split; [reflexivity|]. split; [exact Hexec | exact Hcount].
Qed.

Lemma http_failure_reaches_result_witness :
  exists r w' c,
    executeTool testConfig
      (environmentOver (fun _ => DVString "thrown") (config testConfig)
         TransportExamples.refusingHttp 1000 1040 1050 "t")
      "test-tool" param1 None (Some okExecutor) freshWorld
      = (Returned r, w')
    /\ success r = false
    /\ err_code (handleHttpError (config testConfig)
                   TransportExamples.refusedConnection) = Some c
    /\ c <> "UNKNOWN_ERROR"
    /\ error r
       = Some {| code := c;
                 message :=
                   err_message (handleHttpError (config testConfig)
                                  TransportExamples.refusedConnection);
                 details :=
                   option_map DetailsObject
                     (err_details (handleHttpError (config testConfig)
                                     TransportExamples.refusedConnection)) |}
    /\ riskLevel (securityDecision r) = Critical
    /\ executorCalls w' = executorCalls freshWorld
    /\ errorCount (statistics w')
       = (errorCount (statistics freshWorld) + 1)%Z.
Proof.
  exact (http_failure_reaches_result (fun _ => DVString "thrown") testConfig
           TransportExamples.refusingHttp 1000 1040 1050 "t"
           "test-tool" param1 None (Some okExecutor) freshWorld
           TransportExamples.refusedConnection eq_refl eq_refl eq_refl).
Defined.

End TransportSpec.

(* ================================================================== *)
(** * The Azure OpenAI adapter: gates, accounting and failures         *)
(* ================================================================== *)

Module AzureClientSpec.
Import Azure Templates AzureClient AzureExamples.

(** Splits on every answer that the adapter inspects. *)
Ltac answers :=
  repeat match goal with
         | |- context [match ?x with _ => _ end] =>
             lazymatch x with
             | context [match _ with _ => _ end] => fail
             | _ => destruct x eqn:?; cbn -[append]
             end
         end.

Ltac unfold_adapter :=
  unfold createChatCompletion, catching, andThenEff, inputGuardrails,
    budgetGate, callAzureOpenAI, outputGuardrails, trackCost, rethrow,
    perform, pure, raise, activeGuardrails, activeCostTracker, enabled.

Lemma prefix_append (s t : string) : String.prefix s (s ++ t) = true.
Proof.
  induction s as [|a s IH]; cbn; [now destruct t|].
  destruct (ascii_dec a a) as [_|N]; [exact IH | now elim N].
Qed.

Section Adapter.
Variable Cost : Type.
Variable CostRecord : Type.
Variable numberToString : JsNumber -> string.

(** The input guardrails only ever add their own run to the trace. *)
Lemma inputGuardrails_trace (this : TealAzureOpenAI Cost CostRecord) (request : Request) (tr : list (Event Cost CostRecord)) :
  snd (inputGuardrails numberToString this request tr) = tr
  \/ snd (inputGuardrails numberToString this request tr)
     = (tr ++ [GuardrailRun (userText request)])%list.
Proof.
  unfold inputGuardrails, andThenEff, perform, pure, raise.
  destruct (activeGuardrails this) as [engine|]; [right|left; reflexivity].
  destruct (execute engine (userText request)) as [result|t]; [|reflexivity].
  now destruct (passed result).
Qed.

Lemma callsProvider_app (tr1 tr2 : list (Event Cost CostRecord)) :
  callsProvider (tr1 ++ tr2) = callsProvider tr1 || callsProvider tr2.
Proof. apply existsb_app. Qed.

Lemma persistsCost_app (tr1 tr2 : list (Event Cost CostRecord)) :
  persistsCost (tr1 ++ tr2) = persistsCost tr1 || persistsCost tr2.
Proof. apply existsb_app. Qed.

(** X25. A failed input guardrail stops the call at once: with guardrails
    enabled and an engine whose verdict on the user messages is a failure,
    [createChatCompletion] throws a plain Error whose message names the
    failed guardrails and the risk score behind the adapter's prefix, and
    the guardrail run is the only call it has made: no estimate, no budget
    check, no provider call. *)
Theorem input_guardrail_blocks (this : TealAzureOpenAI Cost CostRecord) (sur : Surroundings)
  (request : Request) (tr : list (Event Cost CostRecord)) (engine : GuardrailEngine)
  (result : GuardrailEngineResult) :
  enableGuardrails this = Some true ->
  guardrailEngine this = Some engine ->
  execute engine (userText request) = Returned result ->
  passed result = false ->
  createChatCompletion numberToString this sur request tr
  = (Threw (plainError
       ("TealAzureOpenAI error: Guardrail check failed: "
        ++ join ", " (getFailedGuardrails result)
        ++ " (Risk: " ++ numberToString (maxRiskScore result) ++ ")")),
     (tr ++ [GuardrailRun (userText request)])%list).
Proof.
  intros Hflag Hengine Hrun Hfailed.
  unfold_adapter. rewrite Hflag, Hengine. cbn -[append].
  rewrite Hrun, Hfailed. reflexivity.
Qed.

(** X26. A budget denial stops the call before the provider: when the
    input stage lets the request through, cost tracking is on, and the
    budget manager denies the estimated amount, [createChatCompletion]
    throws a plain Error naming the blocking limit; the estimate is priced
    with the model that [mapDeploymentToModel] gives the deployment, the
    budget is checked for the configured agent, and neither the provider
    nor the cost storage is reached. *)
Theorem budget_denial_blocks_provider (this : TealAzureOpenAI Cost CostRecord) (sur : Surroundings)
  (request : Request) (tr tr1 : list (Event Cost CostRecord))
  (guardrail : option GuardrailEngineResult)
  (costs : CostTracker Cost CostRecord) (manager : BudgetManager Cost CostRecord)
  (amount : Cost) (check : BudgetEnforcementResult) :
  inputGuardrails numberToString this request tr = (Returned guardrail, tr1) ->
  enableCostTracking this = Some true ->
  costTracker this = Some costs ->
  budgetManager this = Some manager ->
  estimateCost costs (mapDeploymentToModel (deployment request))
    (estimatedUsage request) "openai" = Returned amount ->
  checkBudget manager (agentOf this) amount = Returned check ->
  allowed check = false ->
  let final :=
    (tr1 ++ [CostEstimated (mapDeploymentToModel (deployment request))
               (estimatedUsage request) "openai";
             BudgetChecked (agentOf this) amount])%list in
  createChatCompletion numberToString this sur request tr
  = (Threw (plainError
       ("TealAzureOpenAI error: Budget exceeded: " ++ blockedName check
        ++ " (Limit: " ++ blockedLimit numberToString check ++ ")")),
     final)
  /\ callsProvider final = callsProvider tr
  /\ persistsCost final = persistsCost tr.
Proof.
  intros Hinput Hflag Hcosts Hmanager Hestimate Hcheck Hdenied final.
  assert (Htr1 : callsProvider tr1 = callsProvider tr
                 /\ persistsCost tr1 = persistsCost tr).
  { destruct (inputGuardrails_trace this request tr) as [E|E];
      rewrite Hinput in E; cbn [snd] in E; rewrite E;
      [split; reflexivity|].
    rewrite callsProvider_app, persistsCost_app. cbn.
    now rewrite !orb_false_r. }
  split.
  - unfold createChatCompletion, catching, andThenEff at 1.
    rewrite Hinput.
    unfold budgetGate, andThenEff, perform, raise, rethrow, activeCostTracker,
      enabled.
    rewrite Hflag, Hcosts, Hestimate, Hmanager, Hcheck, Hdenied.
    cbn -[append]. unfold final. now rewrite <- app_assoc.
  - unfold final. rewrite callsProvider_app, persistsCost_app. cbn.
    rewrite !orb_false_r. exact Htr1.
Qed.

(** X27. A completed call is accounted once, with the mapped model: when
    the input stage, the budget gate and the output guardrails let the call
    through and cost tracking is on, the cost is calculated from the
    provider's reported usage (50, 10 and 60 tokens) for the request id, the
    configured agent and the model [mapDeploymentToModel] gives the
    deployment; it is stored first, if there is a storage, and recorded
    with the budget manager second, if there is one.  The response is the
    provider's, whose model is the deployment name itself, with the
    guardrail verdict, the cost record and the budget verdict attached. *)
Theorem completed_call_is_accounted (this : TealAzureOpenAI Cost CostRecord)
  (sur : Surroundings) (request : Request)
  (tr tr1 tr2 tr3 tr4 : list (Event Cost CostRecord))
  (guardrail : option GuardrailEngineResult)
  (budget : option BudgetEnforcementResult)
  (response : Response CostRecord)
  (costs : CostTracker Cost CostRecord) (record : CostRecord) :
  inputGuardrails numberToString this request tr = (Returned guardrail, tr1) ->
  budgetGate numberToString this request tr1 = (Returned budget, tr2) ->
  callAzureOpenAI sur request tr2 = (Returned response, tr3) ->
  outputGuardrails this response tr3 = (Returned tt, tr4) ->
  enableCostTracking this = Some true ->
  costTracker this = Some costs ->
  calculateActualCost costs (requestId sur) (agentOf this)
    (mapDeploymentToModel (deployment request))
    {| inputTokens := 50; outputTokens := 10; totalTokens := 60 |} "openai"
    = Returned record ->
  (forall storage, costStorage this = Some storage ->
                   store storage record = Returned tt) ->
  (forall manager, budgetManager this = Some manager ->
                   recordCost manager record = Returned tt) ->
  createChatCompletion numberToString this sur request tr
  = (Returned (withSecurity response
                 {| guardrailResult := guardrail; costRecord := Some record;
                    budgetCheck := budget |}),
     (tr4
      ++ [CostCalculated (requestId sur) (agentOf this)
            (mapDeploymentToModel (deployment request))
            {| inputTokens := 50; outputTokens := 10; totalTokens := 60 |}
            "openai"]
      ++ match costStorage this with
         | Some _ => [CostStored record]
         | None => []
         end
      ++ match budgetManager this with
         | Some _ => [CostRecorded record]
         | None => []
         end)%list)
  /\ tr3 = (tr2 ++ [ProviderCalled request])%list
  /\ r_model response = deployment request.
Proof.
  intros Hinput Hbudget Hcall Houtput Hflag Hcosts Hcalc Hstore Hrecord.
  unfold callAzureOpenAI, perform in Hcall.
  injection Hcall as Hresponse Htr3.
  split; [|split; [now symmetry | now rewrite <- Hresponse]].
  unfold createChatCompletion, catching, andThenEff at 1. rewrite Hinput.
  unfold andThenEff at 1. rewrite Hbudget.
  unfold andThenEff at 1, callAzureOpenAI, perform at 1.
  rewrite Hresponse, Htr3.
  unfold andThenEff at 1. rewrite Houtput.
  unfold andThenEff at 1, trackCost, activeCostTracker, enabled.
  rewrite Hflag, Hcosts.
  replace (r_usage response)
    with (Some {| prompt_tokens := 50; completion_tokens := 10;
                  total_tokens := 60 |})
    by now rewrite <- Hresponse.
  cbn [prompt_tokens completion_tokens total_tokens].
  unfold andThenEff, perform, pure. rewrite Hcalc.
  destruct (costStorage this) as [storage|] eqn:Es;
    [rewrite (Hstore storage eq_refl)|];
    (destruct (budgetManager this) as [manager|] eqn:Em;
     [rewrite (Hrecord manager eq_refl)|]);
    cbn [app]; rewrite <- ?app_assoc; reflexivity.
Qed.

(** X28. Whatever goes wrong inside [createChatCompletion], an Error
    leaves it as a new plain Error: its message starts with the adapter's
    prefix, and it has no code and no details, so the code of a library
    error thrown by a collaborator does not reach the caller. *)
Theorem failures_are_rewrapped (this : TealAzureOpenAI Cost CostRecord)
  (sur : Surroundings) (request : Request)
  (tr : list (Event Cost CostRecord)) :
  match fst (createChatCompletion numberToString this sur request tr) with
  | Threw (ThrownError e) =>
      err_class e = BuiltinError /\ err_code e = None
      /\ err_details e = None
      /\ String.prefix "TealAzureOpenAI error: " (err_message e) = true
  | _ => True
  end.
Proof.
  unfold createChatCompletion, catching.
  match goal with
  | |- context [match ?body tr with _ => _ end] => destruct (body tr) as [[a|t] tr']
  end; cbn [fst]; [exact I|].
  destruct t as [e|v]; cbn -[append String.prefix]; [|exact I].
  repeat split. apply prefix_append.
Qed.

(** X29. The provider and the cost store are gated in every
    configuration: a call to [createChatCompletion] only appends to the
    trace; it reaches the provider at most once and then with the caller's
    request unchanged; it stores or records a cost only after it has
    reached the provider; and it returns a response only if it has. *)
Theorem provider_and_costs_are_gated (this : TealAzureOpenAI Cost CostRecord)
  (sur : Surroundings) (request : Request)
  (tr : list (Event Cost CostRecord)) :
  let run := createChatCompletion numberToString this sur request tr in
  exists added,
    snd run = (tr ++ added)%list
    /\ (providerRequests added = [] \/ providerRequests added = [request])
    /\ implb (persistsCost added) (callsProvider added) = true
    /\ match fst run with
       | Returned _ => providerRequests added = [request]
       | Threw _ => True
       end.
Proof.
  cbv beta zeta delta
    [createChatCompletion catching andThenEff inputGuardrails budgetGate
     callAzureOpenAI outputGuardrails trackCost rethrow perform pure raise
     activeGuardrails activeCostTracker enabled].
  answers;
    rewrite <- ?app_assoc; cbn [app];
    (eexists; split;
     [first [reflexivity | symmetry; apply app_nil_r]
     | cbn; auto]).
Qed.

End Adapter.

Lemma input_guardrail_blocks_witness :
  createChatCompletion renderNumber (guardedClient blockingEngine openBudget)
    surroundings greeting []
  = (Threw (plainError
       "TealAzureOpenAI error: Guardrail check failed: pii-detection, prompt-injection (Risk: 95)"),
     [GuardrailRun "Hello"]).
Proof.
  exact (input_guardrail_blocks Cents Record_ renderNumber
           (guardedClient blockingEngine openBudget)
           surroundings greeting [] blockingEngine _
           eq_refl eq_refl eq_refl eq_refl).
Defined.

Lemma budget_denial_blocks_provider_witness :
  createChatCompletion renderNumber (guardedClient passingEngine exhaustedBudget)
    surroundings greeting []
  = (Threw (plainError
       "TealAzureOpenAI error: Budget exceeded: daily (Limit: 10)"),
     [GuardrailRun "Hello";
      CostEstimated "gpt-4-turbo"
        {| inputTokens := 6; outputTokens := 500; totalTokens := 506 |}
        "openai";
      BudgetChecked "agent-7" 506%Z]).
Proof.
  exact (proj1
           (budget_denial_blocks_provider Cents Record_ renderNumber
              (guardedClient passingEngine exhaustedBudget) surroundings
              greeting [] [GuardrailRun "Hello"] (Some passingResult)
              tracker exhaustedBudget 506%Z dailyLimit
              eq_refl eq_refl eq_refl eq_refl eq_refl eq_refl eq_refl)).
Defined.

Lemma completed_call_is_accounted_witness :
  createChatCompletion renderNumber (guardedClient passingEngine openBudget)
    surroundings greeting []
  = (Returned
       (withSecurity
          (mockResponse surroundings greeting)
          {| guardrailResult := Some passingResult;
             costRecord := Some ("req-1", "agent-7", "gpt-4-turbo", 60%nat);
             budgetCheck := Some withinBudget |}),
     [GuardrailRun "Hello";
      CostEstimated "gpt-4-turbo"
        {| inputTokens := 6; outputTokens := 500; totalTokens := 506 |}
        "openai";
      BudgetChecked "agent-7" 506%Z;
      ProviderCalled greeting;
      GuardrailRun "This is a mock response from TealAzureOpenAI.";
      CostCalculated "req-1" "agent-7" "gpt-4-turbo"
        {| inputTokens := 50; outputTokens := 10; totalTokens := 60 |}
        "openai";
      CostStored ("req-1", "agent-7", "gpt-4-turbo", 60%nat);
      CostRecorded ("req-1", "agent-7", "gpt-4-turbo", 60%nat)]).
Proof.
  refine (proj1
            (completed_call_is_accounted Cents Record_ renderNumber
               (guardedClient passingEngine openBudget) surroundings greeting
               [] _ _ _ _ _ _ _ tracker _
               eq_refl eq_refl eq_refl eq_refl eq_refl eq_refl eq_refl _ _)).
  - intros s E. injection E as <-. reflexivity.
  - intros m E. injection E as <-. reflexivity.
Defined.

End AzureClientSpec.
